(** * Excel comparison tool: the diffing engine

    A shallow embedding of [comparison_engine.py] (class [ComparisonEngine]),
    of the module comparison of [vba_analyzer.py] (class [VBAAnalyzer]) and of
    the accessors of [excel_parser.py] (class [ExcelParser]) they read.

    Conventions of the embedding:
    - a Python [dict] is a [gmap]; [d.get(k, dflt)] is [default dflt (d !! k)];
      a subscript [d[k]] is the partial lookup [d !! k] inside the option
      monad, [None] standing for the [KeyError] (or [IndexError]) the
      subscript raises;
    - a Python [set] is a [gset]; iterating over it ([for x in s],
      [list(s)]) visits [elements s];
    - [for x in xs: body] is [for_each xs body], which threads the mutated
      locals through the iterations;
    - the scalar values of cells and properties are [PyVal]; floating-point
      cells and the dtype coercions of pandas columns are not modelled, the
      missing value of pandas (None, NaN) is the single value [PNone]. *)

From stdpp Require Import gmap strings list fin_maps pretty sorting.
From Stdlib Require Import ZArith Lia.
From Stdlib.Strings Require Import Byte.

Set Default Proof Using "Type".
Set Warnings "-clear-no-such-hyp".
Open Scope Z_scope.
Open Scope nat_scope.

(** ** Python values and control *)

Inductive PyVal :=
| PNone
| PBool (b : bool)
| PInt (z : Z)
| PStr (s : string)
| PDateTime (t : Z).

#[global] Instance PyVal_eq_dec : EqDecision PyVal.
Proof. solve_decision. Defined.

(** Python's [==] on scalars: [bool] is a subclass of [int], so [True == 1];
    values of unrelated types are unequal. *)
Definition py_eq (a b : PyVal) : bool :=
  match a, b with
  | PNone, PNone => true
  | PBool x, PBool y => bool_decide (x = y)
  | PBool x, PInt z | PInt z, PBool x => bool_decide (z = if x then 1%Z else 0%Z)
  | PInt x, PInt y => bool_decide (x = y)
  | PStr x, PStr y => bool_decide (x = y)
  | PDateTime x, PDateTime y => bool_decide (x = y)
  | _, _ => false
  end.

Definition py_ne (a b : PyVal) : bool := negb (py_eq a b).

(** [for x in xs: body], the loop state [s] being the locals the body
    mutates; an exception raised by the body ends the loop with [None]. *)
Fixpoint for_each {A S : Type} (xs : list A) (body : S → A → option S) (s : S)
  : option S :=
  match xs with
  | [] => Some s
  | x :: xs' => s' ← body s x; for_each xs' body s'
  end.

(** [range(n)] *)
Definition range (n : nat) : list nat := seq 0 n.

(** ** pandas frames (the part [_compare_single_sheet] uses) *)

(** A frame over the default labels 0..R-1, 0..C-1, row by row. *)
Abbreviation Frame A := (list (list A)) (only parsing).
Abbreviation DataFrame := (list (list PyVal)) (only parsing).

(** [pd.DataFrame()] *)
Definition empty_frame : DataFrame := [].

(** [len(df)] *)
Definition df_len {A} (df : Frame A) : nat := length df.

(** [len(df.columns)]: [pd.DataFrame(rows)] has as many columns as its
    longest row. *)
Definition df_ncols {A} (df : Frame A) : nat :=
  foldr (λ row n, length row `max` n) 0 df.

(** [df.shape] *)
Definition df_shape {A} (df : Frame A) : nat * nat := (df_len df, df_ncols df).

(** [df.empty]: some axis has length 0. *)
Definition df_empty {A} (df : Frame A) : bool :=
  bool_decide (df_len df = 0) || bool_decide (df_ncols df = 0).

(** The value a frame holds at a label pair, the missing value where the
    frame has no such label (or where a short row was filled up). *)
Definition cell_at (df : DataFrame) (r c : nat) : PyVal :=
  default PNone (row ← df !! r; row !! c).

(** [df.reindex(index=range(R), columns=range(C), fill_value=None)] *)
Definition reindex (df : DataFrame) (R C : nat) : DataFrame :=
  (λ r, (λ c, cell_at df r c) <$> range C) <$> range R.

(** [df.iloc[r, c]]; [None] is the [IndexError]. *)
Definition iloc {A} (df : Frame A) (r c : nat) : option A :=
  row ← df !! r; row !! c.

(** [pd.isna] on one value. *)
Definition isna (v : PyVal) : bool :=
  match v with PNone => true | _ => false end.

(** Elementwise [!=] of two values as pandas computes it: a missing value
    is unequal to everything, itself included. *)
Definition pd_ne (a b : PyVal) : bool :=
  if isna a || isna b then true else py_ne a b.

(** Elementwise operations on identically-labelled frames. *)
Definition frame_map {A B} (f : A → B) (df : Frame A) : Frame B :=
  fmap (M:=list) f <$> df.
Definition frame_zip {A B C} (f : A → B → C) (x : Frame A) (y : Frame B)
  : Frame C :=
  zip_with (zip_with f) x y.

(** ** [ComparisonEngine._compare_single_sheet] *)

Record CellDifference := {
  row : nat;
  col : nat;
  file1_value : PyVal;
  file2_value : PyVal
}.

(** The value under ['differences']: an [int], or a string. *)
Inductive DiffCount :=
| DiffInt (n : nat)
| DiffStr (s : string).

(** The dict under ['details'], one constructor per return statement. *)
Inductive SheetDetails :=
| DetailsNone
| DetailsOneEmpty (file1_empty file2_empty : bool)
| DetailsDiff (diff_locations : list CellDifference)
              (shape_file1 shape_file2 : nat * nat).

Record SheetComparison := {
  sc_identical : bool;
  sc_differences : DiffCount;
  sc_details : SheetDetails
}.

Definition sc_diff_locations (sc : SheetComparison) : list CellDifference :=
  match sc_details sc with
  | DetailsDiff locs _ _ => locs
  | _ => []
  end.

(** [(df1_padded != df2_padded) & ~(df1_padded.isna() & df2_padded.isna())] *)
Definition differences_frame (df1_padded df2_padded : DataFrame) : Frame bool :=
  frame_zip andb
    (frame_zip pd_ne df1_padded df2_padded)
    (frame_map negb
       (frame_zip andb (frame_map isna df1_padded) (frame_map isna df2_padded))).

(** The body of the inner loop, at [row_idx], [col_idx]. *)
Definition scan_cell (differences : Frame bool) (df1_padded df2_padded : DataFrame)
    (row_idx : nat) (diff_locations : list CellDifference) (col_idx : nat)
  : option (list CellDifference) :=
  d ← iloc differences row_idx col_idx;
  if d : bool then
    v1 ← iloc df1_padded row_idx col_idx;
    v2 ← iloc df2_padded row_idx col_idx;
    Some (diff_locations ++
            [{| row := row_idx + 1; col := col_idx + 1;
                file1_value := v1; file2_value := v2 |}])
  else Some diff_locations.

Definition scan_row (differences : Frame bool) (df1_padded df2_padded : DataFrame)
    (max_cols : nat) (diff_locations : list CellDifference) (row_idx : nat)
  : option (list CellDifference) :=
  for_each (range max_cols)
    (scan_cell differences df1_padded df2_padded row_idx) diff_locations.

Definition _compare_single_sheet (df1 df2 : DataFrame) : option SheetComparison :=
  if df_empty df1 && df_empty df2 then
    Some {| sc_identical := true; sc_differences := DiffInt 0;
            sc_details := DetailsNone |}
  else if df_empty df1 || df_empty df2 then
    Some {| sc_identical := false;
            sc_differences := DiffStr "One sheet is empty";
            sc_details := DetailsOneEmpty (df_empty df1) (df_empty df2) |}
  else
    let max_rows := df_len df1 `max` df_len df2 in
    let max_cols := df_ncols df1 `max` df_ncols df2 in
    let df1_padded := reindex df1 max_rows max_cols in
    let df2_padded := reindex df2 max_rows max_cols in
    let differences := differences_frame df1_padded df2_padded in
    diff_locations ←
      for_each (range max_rows)
        (scan_row differences df1_padded df2_padded max_cols) [];
    Some {| sc_identical := bool_decide (length diff_locations = 0);
            sc_differences := DiffInt (length diff_locations);
            sc_details :=
              DetailsDiff diff_locations (df_shape df1) (df_shape df2) |}.

(** ** [ExcelParser]: the state the engine reads *)

(** One formula of a sheet, as [_extract_formulas] stores it. *)
Record FormulaEntry := {
  formula : PyVal;
  value : PyVal;
  sheet : string
}.

(** What openpyxl holds of a cell, a worksheet and a workbook. *)
Record Cell := {
  cell_value : PyVal;
  cell_data_type : string;
  cell_column : nat;
  cell_row : nat
}.

Record DocumentProperties := {
  prop_title : PyVal;
  prop_subject : PyVal;
  prop_creator : PyVal;
  prop_created : PyVal;
  prop_modified : PyVal;
  prop_lastModifiedBy : PyVal
}.

Record Workbook := {
  worksheets : list (string * list (list Cell));
  properties : DocumentProperties
}.

(** [workbook.sheetnames] *)
Definition sheetnames (wb : Workbook) : list string := (worksheets wb).*1.

(** [workbook[sheet_name]], the rows [iter_rows] yields; [None] is the
    [KeyError]. *)
Definition wb_getitem (wb : Workbook) (sheet_name : string)
  : option (list (list Cell)) :=
  found ← list_find (λ ws, ws.1 = sheet_name) (worksheets wb);
  Some found.2.2.

(** [sheet.iter_rows(values_only=True)], given the rows of cells. *)
Definition values_only (rows : list (list Cell)) : list (list PyVal) :=
  fmap (M:=list) cell_value <$> rows.

(** The attributes of an [ExcelParser] the engine reads ([vba_code], which
    only [get_vba_code] returns, is left out). *)
Record ExcelParser := {
  file_path : string;
  workbook : option Workbook;
  formulas : gmap string (gmap string FormulaEntry);
  sheet_data : gmap string (list (list PyVal))
}.

(** [ExcelParser.__init__] *)
Definition ExcelParser_init (file_path : string) : ExcelParser :=
  {| file_path := file_path; workbook := None; formulas := ∅; sheet_data := ∅ |}.

(** [get_sheet_names] *)
Definition get_sheet_names (p : ExcelParser) : list string :=
  match workbook p with
  | Some wb => sheetnames wb
  | None => []
  end.

(** [get_sheet_data] *)
Definition get_sheet_data (p : ExcelParser) (sheet_name : string) : DataFrame :=
  default empty_frame (sheet_data p !! sheet_name).

(** [get_formulas()], called without a sheet name. *)
Definition get_formulas (p : ExcelParser)
  : gmap string (gmap string FormulaEntry) :=
  formulas p.

(** [get_workbook_properties] *)
Definition get_workbook_properties (p : ExcelParser) : gmap string PyVal :=
  match workbook p with
  | None => ∅
  | Some wb =>
      let props := properties wb in
      <["sheets_count" := PInt (Z.of_nat (length (sheetnames wb)))]>
      (<["last_modified_by" := prop_lastModifiedBy props]>
      (<["modified" := prop_modified props]>
      (<["created" := prop_created props]>
      (<["creator" := prop_creator props]>
      (<["subject" := prop_subject props]>
      (<["title" := prop_title props]> ∅))))))
  end.

(** ** [ComparisonEngine._compare_workbook_properties] *)

Record PropertyDifference := {
  pd_file1 : PyVal;
  pd_file2 : PyVal
}.

Record PropertiesComparison := {
  wp_identical : bool;
  wp_differences : gmap string PropertyDifference;
  wp_file1 : gmap string PyVal;
  wp_file2 : gmap string PyVal
}.

(** [d.get(prop)]: [None] for a key the dict does not hold. *)
Definition dict_get (d : gmap string PyVal) (prop : string) : PyVal :=
  default PNone (d !! prop).

Definition key_props : list string :=
  ["title"; "subject"; "creator"; "last_modified_by"; "sheets_count"].

(** The body of the loop over [key_props]. *)
Definition compare_prop (props1 props2 : gmap string PyVal)
    (comparison : PropertiesComparison) (prop : string) : PropertiesComparison :=
  if py_ne (dict_get props1 prop) (dict_get props2 prop) then
    {| wp_identical := false;
       wp_differences :=
         <[prop := {| pd_file1 := dict_get props1 prop;
                      pd_file2 := dict_get props2 prop |}]>
           (wp_differences comparison);
       wp_file1 := wp_file1 comparison;
       wp_file2 := wp_file2 comparison |}
  else comparison.

(** The comparison of two property dicts. *)
Definition compare_properties (props1 props2 : gmap string PyVal)
  : PropertiesComparison :=
  foldl (compare_prop props1 props2)
    {| wp_identical := true; wp_differences := ∅;
       wp_file1 := props1; wp_file2 := props2 |}
    key_props.

Definition _compare_workbook_properties (parser1 parser2 : ExcelParser)
  : PropertiesComparison :=
  compare_properties (get_workbook_properties parser1)
                     (get_workbook_properties parser2).

(** ** [ComparisonEngine._compare_sheets] *)

Record SheetsComparison := {
  added_sheets : list string;
  removed_sheets : list string;
  common_sheets : list string;
  sheet_comparisons : gmap string SheetComparison
}.

Definition compare_common_sheet (parser1 parser2 : ExcelParser)
    (comparison : SheetsComparison) (sheet_name : string)
  : option SheetsComparison :=
  sc ← _compare_single_sheet (get_sheet_data parser1 sheet_name)
                             (get_sheet_data parser2 sheet_name);
  Some {| added_sheets := added_sheets comparison;
          removed_sheets := removed_sheets comparison;
          common_sheets := common_sheets comparison;
          sheet_comparisons :=
            <[sheet_name := sc]> (sheet_comparisons comparison) |}.

Definition _compare_sheets (parser1 parser2 : ExcelParser)
  : option SheetsComparison :=
  let sheets1 : gset string := list_to_set (get_sheet_names parser1) in
  let sheets2 : gset string := list_to_set (get_sheet_names parser2) in
  let comparison :=
    {| added_sheets := elements (sheets2 ∖ sheets1);
       removed_sheets := elements (sheets1 ∖ sheets2);
       common_sheets := elements (sheets1 ∩ sheets2);
       sheet_comparisons := ∅ |} in
  for_each (common_sheets comparison)
    (compare_common_sheet parser1 parser2) comparison.

(** ** [ComparisonEngine._compare_formulas] *)

Record ModifiedFormula := {
  mf_file1 : FormulaEntry;
  mf_file2 : FormulaEntry
}.

Record FormulaSummary := {
  total_added : nat;
  total_removed : nat;
  total_modified : nat;
  total_identical : nat;
  total_formulas : nat
}.

Record FormulaComparison := {
  added_formulas : gmap string (gmap string FormulaEntry);
  removed_formulas : gmap string (gmap string FormulaEntry);
  modified_formulas : gmap string (gmap string ModifiedFormula);
  identical_formulas : gmap string (gmap string FormulaEntry);
  fc_summary : FormulaSummary
}.

(** The four dicts the loop over the sheets fills. *)
Record FormulaDicts := {
  fd_added : gmap string (gmap string FormulaEntry);
  fd_removed : gmap string (gmap string FormulaEntry);
  fd_modified : gmap string (gmap string ModifiedFormula);
  fd_identical : gmap string (gmap string FormulaEntry)
}.

(** [{cell: d[cell] for cell in cells}] *)
Definition dict_comprehension {V} (cells : list string) (d : gmap string V)
  : option (gmap string V) :=
  for_each cells (λ acc cell, v ← d !! cell; Some (<[cell := v]> acc)) ∅.

(** The body of the loop over [common_cells]; the state is
    [(modified_cells, identical_cells)]. *)
Definition compare_common_cell (sheet_formulas1 sheet_formulas2 : gmap string FormulaEntry)
    (st : gmap string ModifiedFormula * gmap string FormulaEntry) (cell : string)
  : option (gmap string ModifiedFormula * gmap string FormulaEntry) :=
  e1 ← sheet_formulas1 !! cell;
  e2 ← sheet_formulas2 !! cell;
  let formula1 := formula e1 in
  let formula2 := formula e2 in
  if py_ne formula1 formula2 then
    e1' ← sheet_formulas1 !! cell;
    e2' ← sheet_formulas2 !! cell;
    Some (<[cell := {| mf_file1 := e1'; mf_file2 := e2' |}]> st.1, st.2)
  else
    e1' ← sheet_formulas1 !! cell;
    Some (st.1, <[cell := e1']> st.2).

(** [comparison[key][sheet_name] = d], for each of the four keys. *)
Definition store_added (sheet_name : string) (d : gmap string FormulaEntry)
    (c : FormulaDicts) : FormulaDicts :=
  {| fd_added := <[sheet_name := d]> (fd_added c); fd_removed := fd_removed c;
     fd_modified := fd_modified c; fd_identical := fd_identical c |}.
Definition store_removed (sheet_name : string) (d : gmap string FormulaEntry)
    (c : FormulaDicts) : FormulaDicts :=
  {| fd_added := fd_added c; fd_removed := <[sheet_name := d]> (fd_removed c);
     fd_modified := fd_modified c; fd_identical := fd_identical c |}.
Definition store_modified (sheet_name : string) (d : gmap string ModifiedFormula)
    (c : FormulaDicts) : FormulaDicts :=
  {| fd_added := fd_added c; fd_removed := fd_removed c;
     fd_modified := <[sheet_name := d]> (fd_modified c);
     fd_identical := fd_identical c |}.
Definition store_identical (sheet_name : string) (d : gmap string FormulaEntry)
    (c : FormulaDicts) : FormulaDicts :=
  {| fd_added := fd_added c; fd_removed := fd_removed c;
     fd_modified := fd_modified c;
     fd_identical := <[sheet_name := d]> (fd_identical c) |}.

(** The body of the loop over [all_sheets]. *)
Definition compare_sheet_formulas
    (formulas1 formulas2 : gmap string (gmap string FormulaEntry))
    (comparison : FormulaDicts) (sheet_name : string) : option FormulaDicts :=
  let sheet_formulas1 := default ∅ (formulas1 !! sheet_name) in
  let sheet_formulas2 := default ∅ (formulas2 !! sheet_name) in
  let cell_addresses1 : gset string := dom sheet_formulas1 in
  let cell_addresses2 : gset string := dom sheet_formulas2 in
  let added_cells := cell_addresses2 ∖ cell_addresses1 in
  comparison ←
    (if bool_decide (added_cells ≠ ∅) then
       d ← dict_comprehension (elements added_cells) sheet_formulas2;
       Some (store_added sheet_name d comparison)
     else Some comparison);
  let removed_cells := cell_addresses1 ∖ cell_addresses2 in
  comparison ←
    (if bool_decide (removed_cells ≠ ∅) then
       d ← dict_comprehension (elements removed_cells) sheet_formulas1;
       Some (store_removed sheet_name d comparison)
     else Some comparison);
  let common_cells := cell_addresses1 ∩ cell_addresses2 in
  st ← for_each (elements common_cells)
         (compare_common_cell sheet_formulas1 sheet_formulas2) (∅, ∅);
  let modified_cells := st.1 in
  let identical_cells := st.2 in
  let comparison :=
    if bool_decide (modified_cells ≠ ∅)
    then store_modified sheet_name modified_cells comparison else comparison in
  let comparison :=
    if bool_decide (identical_cells ≠ ∅)
    then store_identical sheet_name identical_cells comparison else comparison in
  Some comparison.

(** [sum(len(formulas) for formulas in d.values())] *)
Definition sum_len {V} (d : gmap string (gmap string V)) : nat :=
  sum_list ((λ kv, size kv.2) <$> map_to_list d).

(** The comparison of two formula dicts. *)
Definition compare_formulas
    (formulas1 formulas2 : gmap string (gmap string FormulaEntry))
  : option FormulaComparison :=
  let all_sheets : gset string := dom formulas1 ∪ dom formulas2 in
  comparison ←
    for_each (elements all_sheets) (compare_sheet_formulas formulas1 formulas2)
      {| fd_added := ∅; fd_removed := ∅; fd_modified := ∅; fd_identical := ∅ |};
  let total_added := sum_len (fd_added comparison) in
  let total_removed := sum_len (fd_removed comparison) in
  let total_modified := sum_len (fd_modified comparison) in
  let total_identical := sum_len (fd_identical comparison) in
  Some {| added_formulas := fd_added comparison;
          removed_formulas := fd_removed comparison;
          modified_formulas := fd_modified comparison;
          identical_formulas := fd_identical comparison;
          fc_summary :=
            {| total_added := total_added;
               total_removed := total_removed;
               total_modified := total_modified;
               total_identical := total_identical;
               total_formulas :=
                 total_added + total_removed + total_modified + total_identical |} |}.

Definition _compare_formulas (parser1 parser2 : ExcelParser)
  : option FormulaComparison :=
  compare_formulas (get_formulas parser1) (get_formulas parser2).

(** ** [VBAAnalyzer] *)

(** Python strings, as far as [_extract_vba_components] computes on them. *)

(** [sub in s] *)
Definition str_contains (sub s : string) : bool :=
  match String.index 0 sub s with
  | Some _ => true
  | None => false
  end.

(** [s.endswith(suffix)] *)
Definition str_endswith (s suffix : string) : bool :=
  let n := String.length s in
  let m := String.length suffix in
  bool_decide (m ≤ n) && bool_decide (String.substring (n - m) m s = suffix).

(** [os.path.basename(p)] (posix): what follows the last slash. *)
Fixpoint basename (p : string) : string :=
  match p with
  | EmptyString => EmptyString
  | String _ p' => if str_contains "/" p then basename p' else p
  end.

(** [s.replace(old, '')] for a non-empty [old]: every occurrence of [old],
    found from the left and without overlap, is dropped. [skip] counts the
    characters of a found occurrence still to drop. *)
Fixpoint str_remove (old : string) (skip : nat) (s : string) : string :=
  match s with
  | EmptyString => EmptyString
  | String c s' =>
      match skip with
      | S k => str_remove old k s'
      | 0 =>
          if String.prefix old s
          then str_remove old (String.length old - 1) s'
          else String c (str_remove old 0 s')
      end
  end.

(** The dict stored for one module. *)
Record VBAModule := {
  m_data : list Byte.byte;
  m_hash : string;
  m_size : nat
}.

(** The dict [analyze_vba_from_file] returns: [{}] after an exception, else
    the five keys of [_extract_vba_components], of which ['procedures'],
    ['functions'] and ['variables'] always hold [{}]. *)
Inductive VBAData :=
| VBAEmptyDict
| VBADict (modules : gmap string VBAModule) (has_vba : bool).

(** [vba.get('modules', {})] *)
Definition vba_modules (vba : VBAData) : gmap string VBAModule :=
  match vba with
  | VBAEmptyDict => ∅
  | VBADict modules _ => modules
  end.

(** The four lists of a comparison. *)
Record ChangeLists := {
  added : list string;
  removed : list string;
  modified : list string;
  unchanged : list string
}.

Record VBASummary := {
  modules_added : nat;
  modules_removed : nat;
  modules_modified : nat;
  procedures_added : nat;
  procedures_removed : nat;
  procedures_modified : nat;
  functions_added : nat;
  functions_removed : nat;
  functions_modified : nat
}.

Record VBAComparison := {
  vc_modules : ChangeLists;
  vc_procedures : ChangeLists;
  vc_functions : ChangeLists;
  vc_variables : ChangeLists;
  vc_summary : VBASummary
}.

(** [[key for key in keys if cond(key)]] *)
Definition list_comprehension {A} (keys : list A) (cond : A → option bool)
  : option (list A) :=
  for_each keys (λ acc key, b ← cond key; Some (if b : bool then acc ++ [key] else acc)) [].

(** [modules1[key]['hash'] != modules2[key]['hash']] *)
Definition hash_differs (modules1 modules2 : gmap string VBAModule) (key : string)
  : option bool :=
  m1 ← modules1 !! key;
  m2 ← modules2 !! key;
  Some (negb (bool_decide (m_hash m1 = m_hash m2))).

(** [modules1[key]['hash'] == modules2[key]['hash']] *)
Definition hash_equal (modules1 modules2 : gmap string VBAModule) (key : string)
  : option bool :=
  m1 ← modules1 !! key;
  m2 ← modules2 !! key;
  Some (bool_decide (m_hash m1 = m_hash m2)).

Definition _compare_modules (modules1 modules2 : gmap string VBAModule)
  : option ChangeLists :=
  let keys1 : gset string := dom modules1 in
  let keys2 : gset string := dom modules2 in
  modified_keys ←
    list_comprehension (elements (keys1 ∩ keys2)) (hash_differs modules1 modules2);
  unchanged_keys ←
    list_comprehension (elements (keys1 ∩ keys2)) (hash_equal modules1 modules2);
  Some {| added := elements (keys2 ∖ keys1);
          removed := elements (keys1 ∖ keys2);
          modified := modified_keys;
          unchanged := unchanged_keys |}.

(** [_compare_procedures], [_compare_functions], [_compare_variables]: each
    returns four empty lists, whatever it is given. *)
Definition no_changes : ChangeLists :=
  {| added := []; removed := []; modified := []; unchanged := [] |}.
Definition _compare_procedures : ChangeLists := no_changes.
Definition _compare_functions : ChangeLists := no_changes.
Definition _compare_variables : ChangeLists := no_changes.

Definition compare_vba_code (vba1 vba2 : VBAData) : option VBAComparison :=
  mods ← _compare_modules (vba_modules vba1) (vba_modules vba2);
  let procs := _compare_procedures in
  let funcs := _compare_functions in
  let vars := _compare_variables in
  Some {| vc_modules := mods;
          vc_procedures := procs;
          vc_functions := funcs;
          vc_variables := vars;
          vc_summary :=
            {| modules_added := length (added mods);
               modules_removed := length (removed mods);
               modules_modified := length (modified mods);
               procedures_added := length (added procs);
               procedures_removed := length (removed procs);
               procedures_modified := length (modified procs);
               functions_added := length (added funcs);
               functions_removed := length (removed funcs);
               functions_modified := length (modified funcs) |} |}.

(** An open zip archive: the names of its members, and the bytes
    [zip_file.read(name)] returns ([None] when it raises). *)
Record ZipFile := {
  namelist : list string;
  zip_read : string → option (list Byte.byte)
}.

(** ** The overall summary, [ComparisonEngine._generate_summary] *)

Record DifferencesByType := {
  dbt_sheets : nat;
  dbt_formulas : nat;
  dbt_vba_code : nat;
  dbt_properties : nat
}.

Record Summary := {
  files_identical : bool;
  total_differences : nat;
  differences_by_type : DifferencesByType;
  recommendations : list string
}.

(** The dict of results once it holds its five keys; ['summary'] is [{}]
    ([None]) until [_generate_summary] has returned. *)
Record Results := {
  r_workbook_properties : PropertiesComparison;
  r_sheets : SheetsComparison;
  r_formulas : FormulaComparison;
  r_vba_code : VBAComparison;
  r_summary : option Summary
}.

(** [comparison_results]: [{}], or the five keys. *)
Inductive ResultsDict :=
| EmptyDict
| ResultsOf (r : Results).

(** The body of the loop over [sheet_comparisons.values()]. *)
Definition count_sheet_diffs (sheet_diffs : nat) (sheet_comp : SheetComparison) : nat :=
  if negb (sc_identical sheet_comp) then
    sheet_diffs + match sc_differences sheet_comp with
                  | DiffInt n => n
                  | DiffStr _ => 1
                  end
  else sheet_diffs.

(** [recommendations.append(text)] under [if diffs > 0]. *)
Definition recommend (diffs : nat) (text : string) (recs : list string) : list string :=
  if bool_decide (0 < diffs) then recs ++ [text] else recs.

(** [None] is the [KeyError] of a subscript on the empty dict. *)
Definition _generate_summary (comparison_results : ResultsDict) : option Summary :=
  match comparison_results with
  | EmptyDict => None
  | ResultsOf r =>
      let sheets_identical :=
        bool_decide (length (added_sheets (r_sheets r)) = 0) &&
        bool_decide (length (removed_sheets (r_sheets r)) = 0) in
      let formulas_identical :=
        bool_decide (total_added (fc_summary (r_formulas r)) = 0) &&
        bool_decide (total_removed (fc_summary (r_formulas r)) = 0) &&
        bool_decide (total_modified (fc_summary (r_formulas r)) = 0) in
      let vba_identical :=
        bool_decide (modules_added (vc_summary (r_vba_code r)) = 0) &&
        bool_decide (modules_removed (vc_summary (r_vba_code r)) = 0) &&
        bool_decide (modules_modified (vc_summary (r_vba_code r)) = 0) in
      let files_identical :=
        sheets_identical && formulas_identical && vba_identical &&
        wp_identical (r_workbook_properties r) in
      let sheet_diffs :=
        length (added_sheets (r_sheets r)) + length (removed_sheets (r_sheets r)) in
      let sheet_diffs :=
        foldl count_sheet_diffs sheet_diffs
              (map_to_list (sheet_comparisons (r_sheets r))).*2 in
      let formula_diffs :=
        total_added (fc_summary (r_formulas r)) +
        total_removed (fc_summary (r_formulas r)) +
        total_modified (fc_summary (r_formulas r)) in
      let vba_diffs :=
        modules_added (vc_summary (r_vba_code r)) +
        modules_removed (vc_summary (r_vba_code r)) +
        modules_modified (vc_summary (r_vba_code r)) in
      Some {| files_identical := files_identical;
              total_differences := sheet_diffs + formula_diffs + vba_diffs;
              differences_by_type :=
                {| dbt_sheets := sheet_diffs;
                   dbt_formulas := formula_diffs;
                   dbt_vba_code := vba_diffs;
                   dbt_properties :=
                     size (wp_differences (r_workbook_properties r)) |};
              recommendations :=
                recommend vba_diffs "Verify VBA code modifications"
                  (recommend formula_diffs "Check formula changes for accuracy"
                     (recommend sheet_diffs "Review sheet structure differences" [])) |}
  end.

(** ** [ComparisonEngine] *)

(** [vba_analyzer], whose four attributes no method changes, is left out. *)
Record ComparisonEngine := {
  parser1 : option ExcelParser;
  parser2 : option ExcelParser;
  comparison_results : ResultsDict
}.

(** [ComparisonEngine.__init__] *)
Definition ComparisonEngine_init : ComparisonEngine :=
  {| parser1 := None; parser2 := None; comparison_results := EmptyDict |}.

Section World.

(** What the engine reaches outside the repository: the digest of
    [hashlib], the archives [zipfile.ZipFile] opens ([None] when it raises),
    the workbooks [openpyxl.load_workbook] opens ([None] when it raises) and
    [openpyxl.utils.get_column_letter]. *)
Variable md5_hexdigest : list Byte.byte → string.
Variable zipfile_ZipFile : string → option ZipFile.
Variable openpyxl_load_workbook : string → option Workbook.
Variable get_column_letter : nat → string.

(** The dict [_extract_vba_components] stores for a module. *)
Definition module_entry (module_data : list Byte.byte) : VBAModule :=
  {| m_data := module_data;
     m_hash := md5_hexdigest module_data;
     m_size := length module_data |}.

(** The body of the loop over [zip_file.namelist()]. *)
Definition extract_module (zip_file : ZipFile)
    (modules : gmap string VBAModule) (file_name : string)
  : gmap string VBAModule :=
  if str_contains "xl/vba/" file_name && str_endswith file_name ".bin" then
    let module_name := str_remove ".bin" 0 (basename file_name) in
    match zip_read zip_file file_name with
    | Some module_data => <[module_name := module_entry module_data]> modules
    | None => modules
    end
  else modules.

Definition _extract_vba_components (zip_file : ZipFile) : VBAData :=
  let vba_project_files :=
    filter (λ f, str_contains "vbaProject.bin" f = true) (namelist zip_file) in
  let has_vba := bool_decide (vba_project_files ≠ []) in
  VBADict (foldl (extract_module zip_file) ∅ (namelist zip_file)) has_vba.

Definition analyze_vba_from_file (file_path : string) : VBAData :=
  match zipfile_ZipFile file_path with
  | Some zip_file => _extract_vba_components zip_file
  | None => VBAEmptyDict
  end.

Definition _compare_vba_code (parser1 parser2 : ExcelParser)
  : option VBAComparison :=
  let vba1 := analyze_vba_from_file (file_path parser1) in
  let vba2 := analyze_vba_from_file (file_path parser2) in
  compare_vba_code vba1 vba2.

(** [compare_all]: the dict it returns and the engine it leaves; the
    outer [None] is an exception it lets through. *)
Definition compare_all (self : ComparisonEngine)
  : option (ResultsDict * ComparisonEngine) :=
  match parser1 self, parser2 self with
  | Some p1, Some p2 =>
      let props := _compare_workbook_properties p1 p2 in
      sheets ← _compare_sheets p1 p2;
      forms ← _compare_formulas p1 p2;
      vba ← _compare_vba_code p1 p2;
      let results :=
        {| r_workbook_properties := props; r_sheets := sheets;
           r_formulas := forms; r_vba_code := vba; r_summary := None |} in
      let self :=
        {| parser1 := parser1 self; parser2 := parser2 self;
           comparison_results := ResultsOf results |} in
      summary ← _generate_summary (comparison_results self);
      let results :=
        {| r_workbook_properties := props; r_sheets := sheets;
           r_formulas := forms; r_vba_code := vba;
           r_summary := Some summary |} in
      Some (ResultsOf results,
            {| parser1 := parser1 self; parser2 := parser2 self;
               comparison_results := ResultsOf results |})
  | _, _ => Some (EmptyDict, self)
  end.

(** *** Loading: [ExcelParser.load_workbook] and [load_files] *)

(** The body of the loop of [_extract_sheet_data]: the rows of values of a
    sheet, as a frame. *)
Definition extract_sheet (wb : Workbook)
    (sheet_data : gmap string (list (list PyVal))) (sheet_name : string)
  : option (gmap string (list (list PyVal))) :=
  rows ← wb_getitem wb sheet_name;
  let data := values_only rows in
  Some (<[sheet_name := data]> sheet_data).

(** The body of the loop over the cells of a row in [_extract_formulas]. *)
Definition extract_cell_formula (sheet_name : string)
    (formulas : gmap string FormulaEntry) (cell : Cell)
  : gmap string FormulaEntry :=
  if negb (bool_decide (cell_value cell = PNone)) &&
     bool_decide (cell_data_type cell = "f") then
    let cell_address :=
      (get_column_letter (cell_column cell) +:+ pretty (cell_row cell))%string in
    <[cell_address := {| formula := cell_value cell;
                         value := cell_value cell;
                         sheet := sheet_name |}]> formulas
  else formulas.

(** The body of the loop over the sheets in [_extract_formulas]. *)
Definition extract_sheet_formulas (wb : Workbook)
    (all_formulas : gmap string (gmap string FormulaEntry)) (sheet_name : string)
  : option (gmap string (gmap string FormulaEntry)) :=
  rows ← wb_getitem wb sheet_name;
  let formulas :=
    foldl (foldl (extract_cell_formula sheet_name)) ∅ rows in
  Some (if bool_decide (formulas ≠ ∅)
        then <[sheet_name := formulas]> all_formulas else all_formulas).

(** [load_workbook]: the parser it leaves and the bool it returns. An
    exception of one of the two extractions leaves the workbook set and
    the dicts as they were. *)
Definition load_workbook (self : ExcelParser) : ExcelParser * bool :=
  match openpyxl_load_workbook (file_path self) with
  | None => (self, false)
  | Some wb =>
      match for_each (sheetnames wb) (extract_sheet wb) (sheet_data self) with
      | None =>
          ({| file_path := file_path self; workbook := Some wb;
              formulas := formulas self; sheet_data := sheet_data self |}, false)
      | Some data =>
          match for_each (sheetnames wb) (extract_sheet_formulas wb)
                         (formulas self) with
          | None =>
              ({| file_path := file_path self; workbook := Some wb;
                  formulas := formulas self; sheet_data := data |}, false)
          | Some forms =>
              ({| file_path := file_path self; workbook := Some wb;
                  formulas := forms; sheet_data := data |}, true)
          end
      end
  end.

Definition load_files (self : ComparisonEngine) (file1_path file2_path : string)
  : ComparisonEngine * bool :=
  let p1 := ExcelParser_init file1_path in
  let p2 := ExcelParser_init file2_path in
  let '(p1, ok1) := load_workbook p1 in
  if negb ok1 then
    ({| parser1 := Some p1; parser2 := Some p2;
        comparison_results := comparison_results self |}, false)
  else
    let '(p2, ok2) := load_workbook p2 in
    ({| parser1 := Some p1; parser2 := Some p2;
        comparison_results := comparison_results self |}, ok2).

End World.

(** ** The accessors of the engine and of the analyzer *)

(** What [get_detailed_differences] returns: [{}], the comparison of one
    sheet, or the whole dict of results. *)
Inductive DetailedDifferences :=
| DetailedEmpty
| DetailedSheet (sheet_comp : SheetComparison)
| DetailedAll (results : Results).

(** [get_detailed_differences(sheet_name)]; [None] is the default of the
    parameter, and the empty string is as false as [None]. *)
Definition get_detailed_differences (self : ComparisonEngine)
    (sheet_name : option string) : DetailedDifferences :=
  match comparison_results self with
  | EmptyDict => DetailedEmpty
  | ResultsOf r =>
      if bool_decide (sheet_name ≠ None ∧ sheet_name ≠ Some "") then
        from_option
          (λ n, from_option DetailedSheet DetailedEmpty
                  (sheet_comparisons (r_sheets r) !! n))
          DetailedEmpty sheet_name
      else DetailedAll r
  end.

(** The dict [export_comparison_data] returns. *)
Record ExportMetadata := {
  md_file1 : option string;
  md_file2 : option string;
  comparison_timestamp : string
}.

Record ExportData := {
  ex_metadata : ExportMetadata;
  ex_results : ResultsDict
}.

(** [export_comparison_data], given the text [pd.Timestamp.now().isoformat()]
    returns at the call. *)
Definition export_comparison_data (now_isoformat : string)
    (self : ComparisonEngine) : ExportData :=
  {| ex_metadata :=
       {| md_file1 := file_path <$> parser1 self;
          md_file2 := file_path <$> parser2 self;
          comparison_timestamp := now_isoformat |};
     ex_results := comparison_results self |}.

(** The dict [get_vba_summary] returns. *)
Record VBAInfo := {
  has_vba : bool;
  modules_count : nat;
  total_size : nat;
  module_names : list string
}.

(** [get_vba_summary]. The names are listed in the order of [map_to_list];
    the insertion order of the Python dict is not modelled, and nothing
    proved about the list depends on its order. *)
Definition get_vba_summary (vba_data : VBAData) : VBAInfo :=
  {| has_vba := bool_decide (vba_modules vba_data ≠ ∅);
     modules_count := size (vba_modules vba_data);
     total_size := sum_list_with (λ kv, m_size kv.2) (map_to_list (vba_modules vba_data));
     module_names := (map_to_list (vba_modules vba_data)).*1 |}.

(** * Definitions used to state the properties *)

(** ** The Table Aligner *)

(** What the code computes at one aligned position. *)
Definition cell_differs (a b : PyVal) : bool :=
  pd_ne a b && negb (isna a && isna b).

(** The difference the code reports at a zero-based position, if any. *)
Definition difference_at (df1 df2 : DataFrame) (r c : nat) : list CellDifference :=
  if cell_differs (cell_at df1 r c) (cell_at df2 r c) then
    [{| row := r + 1; col := c + 1;
        file1_value := cell_at df1 r c; file2_value := cell_at df2 r c |}]
  else [].

(** The differences of two frames, read off the two loops. *)
Definition scanned_differences (df1 df2 : DataFrame) : list CellDifference :=
  let max_rows := df_len df1 `max` df_len df2 in
  let max_cols := df_ncols df1 `max` df_ncols df2 in
  range max_rows ≫= λ r, range max_cols ≫= difference_at df1 df2 r.

(** The zero-based positions of an [R] by [C] frame in row-major order. *)
Definition row_major (R C : nat) : list (nat * nat) :=
  r ← range R; c ← range C; [(r, c)].

(** The difference reported for a zero-based position: one-based row and
    column, and the value of each side there. *)
Definition report (df1 df2 : DataFrame) (p : nat * nat) : CellDifference :=
  {| row := p.1 + 1; col := p.2 + 1;
     file1_value := cell_at df1 p.1 p.2; file2_value := cell_at df2 p.1 p.2 |}.


(** A frame has nothing at a position: the position is outside the frame
    (an absent cell), or the cell there holds [None]. *)
Definition nothing_at (df : DataFrame) (r c : nat) : Prop :=
  iloc df r c = None ∨ iloc df r c = Some PNone.

(** A frame has the empty string at a position: a present value, which
    [isna] does not take for a missing one. *)
Definition empty_string_at (df : DataFrame) (r c : nat) : Prop :=
  iloc df r c = Some (PStr "").

(** No reported difference is for the zero-based position [(r, c)]. *)
Definition not_reported_at (sc : SheetComparison) (r c : nat) : Prop :=
  Forall (λ d, ¬ (row d = r + 1 ∧ col d = c + 1)) (sc_diff_locations sc).

(** ** The Macro Differ *)

(** The hash test of a name both dicts hold. *)
Definition same_hash (modules1 modules2 : gmap string VBAModule) (key : string) : bool :=
  bool_decide (m_hash <$> modules1 !! key = m_hash <$> modules2 !! key).


(** ** The Formula Differ *)

(** The addresses a sheet-keyed dict holds for a sheet (none when the
    sheet is no key of it). *)
Definition addresses {V} (d : gmap string (gmap string V)) (sheet_name : string)
  : gset string :=
  dom (default ∅ (d !! sheet_name)).

(** The entry of an address among the modified and among the identical
    formulas of a sheet, given what each side holds at the address. *)
Definition modified_of (o1 o2 : option FormulaEntry) : option ModifiedFormula :=
  e1 ← o1; e2 ← o2;
  if py_ne (formula e1) (formula e2)
  then Some {| mf_file1 := e1; mf_file2 := e2 |} else None.

Definition identical_of (o1 o2 : option FormulaEntry) : option FormulaEntry :=
  e1 ← o1; e2 ← o2;
  if py_ne (formula e1) (formula e2) then None else Some e1.

(** What is stored for a sheet: the dict, unless it is empty. *)
Definition nonempty {V} (d : gmap string V) : option (gmap string V) :=
  if decide (d = ∅) then None else Some d.

(** An entry written over what a dict held before. *)
Definition written_over {V} (new old : option V) : option V :=
  from_option Some old new.

(** The four dicts of one sheet, given the formulas of each side. *)
Definition sheet_added (sf1 sf2 : gmap string FormulaEntry) : gmap string FormulaEntry :=
  sf2 ∖ sf1.
Definition sheet_removed (sf1 sf2 : gmap string FormulaEntry) : gmap string FormulaEntry :=
  sf1 ∖ sf2.
Definition sheet_modified (sf1 sf2 : gmap string FormulaEntry)
  : gmap string ModifiedFormula :=
  merge modified_of sf1 sf2.
Definition sheet_identical (sf1 sf2 : gmap string FormulaEntry)
  : gmap string FormulaEntry :=
  merge identical_of sf1 sf2.

(** The formulas a sheet-keyed dict holds for a sheet. *)
Definition formulas_of (formulas : gmap string (gmap string FormulaEntry))
    (sheet_name : string) : gmap string FormulaEntry :=
  default ∅ (formulas !! sheet_name).

(** ** The Sheet-Set Differ and the summary *)

(** The result of [_compare_single_sheet], by its three return statements. *)
Definition sheet_result (df1 df2 : DataFrame) : SheetComparison :=
  if df_empty df1 && df_empty df2 then
    {| sc_identical := true; sc_differences := DiffInt 0; sc_details := DetailsNone |}
  else if df_empty df1 || df_empty df2 then
    {| sc_identical := false;
       sc_differences := DiffStr "One sheet is empty";
       sc_details := DetailsOneEmpty (df_empty df1) (df_empty df2) |}
  else
    {| sc_identical := bool_decide (length (scanned_differences df1 df2) = 0);
       sc_differences := DiffInt (length (scanned_differences df1 df2));
       sc_details := DetailsDiff (scanned_differences df1 df2)
                                 (df_shape df1) (df_shape df2) |}.

(** The result for a sheet of two parsers. *)
Definition common_sheet_result (parser1 parser2 : ExcelParser) (sheet_name : string)
  : SheetComparison :=
  sheet_result (get_sheet_data parser1 sheet_name) (get_sheet_data parser2 sheet_name).

(** What a compared sheet adds to the count of differences: nothing when it
    is identical, else its number of cell differences, or 1 when that count
    is the string of the one-side-empty case. *)
Definition sheet_contribution (sc : SheetComparison) : nat :=
  if sc_identical sc then 0
  else match sc_differences sc with
       | DiffInt n => n
       | DiffStr _ => 1
       end.

(** The loop over the common sheets, as a fold. *)
Definition store_sheet (parser1 parser2 : ExcelParser)
    (comparison : SheetsComparison) (sheet_name : string) : SheetsComparison :=
  {| added_sheets := added_sheets comparison;
     removed_sheets := removed_sheets comparison;
     common_sheets := common_sheets comparison;
     sheet_comparisons :=
       <[sheet_name := common_sheet_result parser1 parser2 sheet_name]>
         (sheet_comparisons comparison) |}.

(** ** A small world to run the engine in *)

(** Two workbooks of one sheet that differ in one cell, and nothing else
    on disk: every other path fails to open, and no file is a zip archive
    with modules. *)
Definition example_cell (r c : nat) (v : PyVal) : Cell :=
  {| cell_value := v; cell_data_type := "n"; cell_column := c; cell_row := r |}.

Definition example_properties : DocumentProperties :=
  {| prop_title := PNone; prop_subject := PNone; prop_creator := PStr "openpyxl";
     prop_created := PDateTime 0; prop_modified := PDateTime 0;
     prop_lastModifiedBy := PNone |}.

Definition example_workbook (age : Z) : Workbook :=
  {| worksheets :=
       [("Sheet1",
         [[example_cell 1 1 (PStr "Name"); example_cell 1 2 (PStr "Age")];
          [example_cell 2 1 (PStr "John"); example_cell 2 2 (PInt age)]])];
     properties := example_properties |}.

Definition example_load_workbook (path : string) : option Workbook :=
  if bool_decide (path = "file1.xlsx") then Some (example_workbook 25)
  else if bool_decide (path = "file2.xlsx") then Some (example_workbook 26)
  else None.

Definition example_md5 (data : list Byte.byte) : string := "".
Definition example_ZipFile (path : string) : option ZipFile := None.
Definition example_column_letter (c : nat) : string :=
  match c with
  | 1 => "A"
  | 2 => "B"
  | _ => "C"
  end.

(** The engine after [load_files('file1.xlsx', 'file2.xlsx')], and its two
    parsers. *)
Definition example_parser (path : string) : ExcelParser :=
  (load_workbook example_load_workbook example_column_letter
                 (ExcelParser_init path)).1.

Definition example_engine : ComparisonEngine :=
  (load_files example_load_workbook example_column_letter
              ComparisonEngine_init "file1.xlsx" "file2.xlsx").1.

(** The engine after [load_files('missing1.xlsx', 'missing2.xlsx')], which
    returns [False]. *)
Definition failed_engine : ComparisonEngine :=
  (load_files example_load_workbook example_column_letter
              ComparisonEngine_init "missing1.xlsx" "missing2.xlsx").1.

(** ** Mirror images, to state what swapping the two sides does *)

Definition mirror_difference (d : CellDifference) : CellDifference :=
  {| row := row d; col := col d;
     file1_value := file2_value d; file2_value := file1_value d |}.

Definition mirror_details (details : SheetDetails) : SheetDetails :=
  match details with
  | DetailsNone => DetailsNone
  | DetailsOneEmpty e1 e2 => DetailsOneEmpty e2 e1
  | DetailsDiff locs s1 s2 => DetailsDiff (mirror_difference <$> locs) s2 s1
  end.

Definition mirror_sheet (sc : SheetComparison) : SheetComparison :=
  {| sc_identical := sc_identical sc;
     sc_differences := sc_differences sc;
     sc_details := mirror_details (sc_details sc) |}.

Definition mirror_modified (m : ModifiedFormula) : ModifiedFormula :=
  {| mf_file1 := mf_file2 m; mf_file2 := mf_file1 m |}.

(** The name a member of an archive is stored under, when it is stored. *)
Definition module_name_of (file_name : string) : string :=
  str_remove ".bin" 0 (basename file_name).

(** The test [_extract_vba_components] makes on a member name. *)
Definition is_module_file (file_name : string) : bool :=
  str_contains "xl/vba/" file_name && str_endswith file_name ".bin".

(** ** The cells [_extract_formulas] stores *)


Definition cell_address (get_column_letter : nat → string) (cell : Cell) : string :=
  (get_column_letter (cell_column cell) +:+ pretty (cell_row cell))%string.


(** The formulas of the rows of a sheet, as the two inner loops leave
    them. *)
Definition sheet_formulas (get_column_letter : nat → string) (sheet_name : string)
    (rows : list (list Cell)) : gmap string FormulaEntry :=
  foldl (foldl (extract_cell_formula get_column_letter sheet_name)) ∅ rows.

(** * Properties *)

(** ** Loops *)

(** A loop whose body appends [f x] to the list it carries appends the
    concatenation of the [f x], in the order of the iteration. *)
Lemma for_each_append {A B} (xs : list A) (body : list B → A → option (list B))
    (f : A → list B) :
  (∀ x acc, x ∈ xs → body acc x = Some (acc ++ f x)) →
  ∀ acc, for_each xs body acc = Some (acc ++ (xs ≫= f)).
Proof.
  induction xs as [|x xs IH]; intros Hbody acc; simpl.
  - by rewrite app_nil_r.
  - rewrite Hbody; [|by left]. simpl.
    rewrite IH; [|intros; apply Hbody; by right].
    by rewrite app_assoc.
Qed.

(** A loop whose body cannot raise is a left fold. *)
Lemma for_each_total {A S} (xs : list A) (body : S → A → option S) (g : S → A → S) :
  (∀ x s, x ∈ xs → body s x = Some (g s x)) →
  ∀ s, for_each xs body s = Some (foldl g s xs).
Proof.
  induction xs as [|x xs IH]; intros Hbody s; simpl; [done|].
  rewrite Hbody; [|by left]. simpl. apply IH. intros; apply Hbody; by right.
Qed.

Lemma elem_of_range (n i : nat) : i ∈ range n ↔ i < n.
Proof. unfold range. rewrite elem_of_seq. lia. Qed.

(** ** The Table Aligner *)

Lemma lookup_range (n i : nat) : i < n → range n !! i = Some i.
Proof. intros. unfold range. by rewrite lookup_seq_lt. Qed.

Lemma iloc_reindex (df : DataFrame) (R C r c : nat) :
  r < R → c < C → iloc (reindex df R C) r c = Some (cell_at df r c).
Proof.
  intros Hr Hc. unfold iloc, reindex.
  rewrite list_lookup_fmap, lookup_range by done. simpl.
  by rewrite list_lookup_fmap, lookup_range.
Qed.

Lemma iloc_frame_map {A B} (f : A → B) (df : Frame A) (r c : nat) :
  iloc (frame_map f df) r c = f <$> iloc df r c.
Proof.
  unfold iloc, frame_map. rewrite list_lookup_fmap.
  destruct (df !! r) as [rw|]; simpl; [|done]. by rewrite list_lookup_fmap.
Qed.

Lemma iloc_frame_zip {A B C} (f : A → B → C) (x : Frame A) (y : Frame B)
    (r c : nat) (a : A) (b : B) :
  iloc x r c = Some a → iloc y r c = Some b →
  iloc (frame_zip f x y) r c = Some (f a b).
Proof.
  unfold iloc, frame_zip. intros Hx Hy.
  destruct (x !! r) as [rx|] eqn:Hrx; simpl in Hx; [|done].
  destruct (y !! r) as [ry|] eqn:Hry; simpl in Hy; [|done].
  rewrite lookup_zip_with, Hrx. simpl. rewrite Hry. simpl.
  by rewrite lookup_zip_with, Hx; simpl; rewrite Hy.
Qed.

Lemma iloc_differences_frame (df1 df2 : DataFrame) (R C r c : nat) :
  r < R → c < C →
  iloc (differences_frame (reindex df1 R C) (reindex df2 R C)) r c
  = Some (cell_differs (cell_at df1 r c) (cell_at df2 r c)).
Proof.
  intros Hr Hc. unfold differences_frame, cell_differs.
  pose proof (iloc_reindex df1 R C r c Hr Hc) as H1.
  pose proof (iloc_reindex df2 R C r c Hr Hc) as H2.
  apply iloc_frame_zip.
  - by apply iloc_frame_zip.
  - rewrite iloc_frame_map.
    erewrite iloc_frame_zip; [done| |]; rewrite iloc_frame_map.
    + by rewrite H1.
    + by rewrite H2.
Qed.

Lemma scan_cell_spec (df1 df2 : DataFrame) (R C r c : nat) locs :
  r < R → c < C →
  scan_cell (differences_frame (reindex df1 R C) (reindex df2 R C))
            (reindex df1 R C) (reindex df2 R C) r locs c
  = Some (locs ++ difference_at df1 df2 r c).
Proof.
  intros Hr Hc. unfold scan_cell, difference_at.
  rewrite iloc_differences_frame by done. simpl.
  destruct (cell_differs _ _).
  - by rewrite !iloc_reindex by done.
  - by rewrite app_nil_r.
Qed.

Lemma scan_row_spec (df1 df2 : DataFrame) (R C r : nat) locs :
  r < R →
  scan_row (differences_frame (reindex df1 R C) (reindex df2 R C))
           (reindex df1 R C) (reindex df2 R C) C locs r
  = Some (locs ++ (range C ≫= difference_at df1 df2 r)).
Proof.
  intros Hr. unfold scan_row. apply for_each_append.
  intros c acc Hc%elem_of_range. by apply scan_cell_spec.
Qed.

Lemma scan_frames_spec (df1 df2 : DataFrame) (R C : nat) :
  for_each (range R)
    (scan_row (differences_frame (reindex df1 R C) (reindex df2 R C))
              (reindex df1 R C) (reindex df2 R C) C) []
  = Some (range R ≫= λ r, range C ≫= difference_at df1 df2 r).
Proof.
  rewrite (for_each_append _ _ (λ r, range C ≫= difference_at df1 df2 r)); [done|].
  intros r acc Hr%elem_of_range. by apply scan_row_spec.
Qed.

(** The three return statements of [_compare_single_sheet]. *)
Lemma compare_single_sheet_both_empty (df1 df2 : DataFrame) :
  df_empty df1 = true → df_empty df2 = true →
  _compare_single_sheet df1 df2
  = Some {| sc_identical := true; sc_differences := DiffInt 0;
            sc_details := DetailsNone |}.
Proof. intros H1 H2. unfold _compare_single_sheet. by rewrite H1, H2. Qed.

Lemma compare_single_sheet_one_empty (df1 df2 : DataFrame) :
  df_empty df1 ≠ df_empty df2 →
  _compare_single_sheet df1 df2
  = Some {| sc_identical := false;
            sc_differences := DiffStr "One sheet is empty";
            sc_details := DetailsOneEmpty (df_empty df1) (df_empty df2) |}.
Proof.
  intros H. unfold _compare_single_sheet.
  by destruct (df_empty df1), (df_empty df2).
Qed.

Lemma compare_single_sheet_aligned (df1 df2 : DataFrame) :
  df_empty df1 = false → df_empty df2 = false →
  _compare_single_sheet df1 df2
  = Some {| sc_identical := bool_decide (length (scanned_differences df1 df2) = 0);
            sc_differences := DiffInt (length (scanned_differences df1 df2));
            sc_details := DetailsDiff (scanned_differences df1 df2)
                                      (df_shape df1) (df_shape df2) |}.
Proof.
  intros H1 H2. unfold _compare_single_sheet. rewrite H1, H2. simpl.
  by rewrite scan_frames_spec.
Qed.

(** The comparison of two frames never raises. *)
Lemma compare_single_sheet_total (df1 df2 : DataFrame) :
  is_Some (_compare_single_sheet df1 df2).
Proof.
  destruct (df_empty df1) eqn:H1, (df_empty df2) eqn:H2.
  - rewrite compare_single_sheet_both_empty by done. eauto.
  - rewrite compare_single_sheet_one_empty by congruence. eauto.
  - rewrite compare_single_sheet_one_empty by congruence. eauto.
  - rewrite compare_single_sheet_aligned by done. eauto.
Qed.

Lemma cell_differs_spec (a b : PyVal) :
  cell_differs a b = if isna a && isna b then false else py_ne a b.
Proof.
  unfold cell_differs, pd_ne.
  destruct a, b; simpl; by rewrite ?andb_true_r.
Qed.

Lemma nothing_at_cell_at (df : DataFrame) (r c : nat) :
  nothing_at df r c ↔ cell_at df r c = PNone.
Proof.
  unfold nothing_at, cell_at, iloc.
  destruct (df !! r ≫= _) as [v|]; simpl; [|by split; auto].
  split; [by intros [?|[= ->]]|by intros ->; right].
Qed.

Lemma scanned_differences_row_major (df1 df2 : DataFrame) :
  scanned_differences df1 df2
  = report df1 df2 <$>
      filter (λ p, cell_differs (cell_at df1 p.1 p.2) (cell_at df2 p.1 p.2) = true)
             (row_major (df_len df1 `max` df_len df2)
                        (df_ncols df1 `max` df_ncols df2)).
Proof.
  unfold scanned_differences, row_major.
  generalize (range (df_len df1 `max` df_len df2)).
  generalize (range (df_ncols df1 `max` df_ncols df2)).
  intros cs rs. induction rs as [|r rs IH]; [done|].
  rewrite !bind_cons, filter_app, fmap_app, <- IH. f_equal.
  clear IH. induction cs as [|c cs IH]; [done|].
  rewrite !bind_cons, filter_app, fmap_app, <- IH. f_equal.
  unfold difference_at. simpl.
  rewrite filter_cons. simpl. by case_decide as Hd; destruct (cell_differs _ _).
Qed.

Lemma elem_of_difference_at (df1 df2 : DataFrame) (r c : nat) d :
  d ∈ difference_at df1 df2 r c →
  row d = r + 1 ∧ col d = c + 1 ∧
  cell_differs (cell_at df1 r c) (cell_at df2 r c) = true.
Proof.
  unfold difference_at. destruct (cell_differs _ _); [|by intros ?%elem_of_nil].
  by intros ->%list_elem_of_singleton.
Qed.




Lemma elem_of_scanned_differences (df1 df2 : DataFrame) d :
  d ∈ scanned_differences df1 df2 →
  ∃ r c, row d = r + 1 ∧ col d = c + 1 ∧
         cell_differs (cell_at df1 r c) (cell_at df2 r c) = true.
Proof.
  unfold scanned_differences.
  intros (r & (c & Hd%elem_of_difference_at & _)%list_elem_of_bind & _)%list_elem_of_bind.
  by exists r, c.
Qed.

Lemma df_ncols_ge {A} (df : Frame A) (r : nat) (rw : list A) :
  df !! r = Some rw → length rw ≤ df_ncols df.
Proof.
  revert r. induction df as [|x df IH]; intros r; [done|].
  destruct r as [|r]; unfold df_ncols in *; simpl.
  - intros [= ->]. lia.
  - intros H%IH. lia.
Qed.

Lemma iloc_Some_bounds {A} (df : Frame A) (r c : nat) (v : A) :
  iloc df r c = Some v → r < df_len df ∧ c < df_ncols df.
Proof.
  unfold iloc, df_len. destruct (df !! r) as [rw|] eqn:E; [|done]. simpl.
  intros Hc%lookup_lt_Some. apply df_ncols_ge in E as Hle.
  apply lookup_lt_Some in E. lia.
Qed.

Lemma empty_string_at_cell_at (df : DataFrame) (r c : nat) :
  empty_string_at df r c → cell_at df r c = PStr "".
Proof. unfold empty_string_at, cell_at, iloc. by intros ->. Qed.

Lemma elem_of_row_major (R C r c : nat) :
  (r, c) ∈ row_major R C ↔ r < R ∧ c < C.
Proof.
  unfold row_major. rewrite list_elem_of_bind. split.
  - intros (r' & (c' & Heq%list_elem_of_singleton & Hc%elem_of_range)%list_elem_of_bind
               & Hr%elem_of_range).
    by injection Heq as -> ->.
  - intros [Hr Hc]. exists r. split; [|by apply elem_of_range].
    apply list_elem_of_bind. exists c. split; [|by apply elem_of_range].
    by apply list_elem_of_singleton.
Qed.

(** A position inside the aligned frame at which the two sides differ is
    reported. *)
Lemma scanned_differences_complete (df1 df2 : DataFrame) (r c : nat) :
  r < df_len df1 `max` df_len df2 → c < df_ncols df1 `max` df_ncols df2 →
  cell_differs (cell_at df1 r c) (cell_at df2 r c) = true →
  report df1 df2 (r, c) ∈ scanned_differences df1 df2.
Proof.
  intros Hr Hc Hd. rewrite scanned_differences_row_major.
  apply list_elem_of_fmap. exists (r, c). split; [done|].
  apply list_elem_of_filter. split; [done|]. by apply elem_of_row_major.
Qed.

(** C3, as the code has it. No difference is reported for a position
    where the two frames hold nothing of the same kind: both a missing
    value, be it an absent (out-of-bounds) cell or a cell holding None, in
    any combination, or both the empty string; so an absent cell against
    a None cell is never reported. The empty string against a missing
    value is the one combination that is reported: when neither frame is
    empty, that position is among the differences, with the two values. *)
Theorem C3_nothing_reported_only_across_kinds (df1 df2 : DataFrame)
    (sc : SheetComparison) (r c : nat) :
  _compare_single_sheet df1 df2 = Some sc →
  (nothing_at df1 r c ∧ nothing_at df2 r c ∨
   empty_string_at df1 r c ∧ empty_string_at df2 r c →
   not_reported_at sc r c) ∧
  (df_empty df1 = false → df_empty df2 = false →
   empty_string_at df1 r c ∧ nothing_at df2 r c ∨
   nothing_at df1 r c ∧ empty_string_at df2 r c →
   report df1 df2 (r, c) ∈ sc_diff_locations sc).
Proof.
  intros Hsc. split.
  - intros Halike.
    assert (cell_differs (cell_at df1 r c) (cell_at df2 r c) = false) as Hsame.
    { destruct Halike as [[H1%nothing_at_cell_at H2%nothing_at_cell_at]
                         |[H1%empty_string_at_cell_at H2%empty_string_at_cell_at]];
        by rewrite H1, H2. }
    apply Forall_forall. intros d Hd [Hrow Hcol].
    destruct (df_empty df1) eqn:E1, (df_empty df2) eqn:E2.
    + rewrite compare_single_sheet_both_empty in Hsc by done.
      injection Hsc as <-. by apply elem_of_nil in Hd.
    + rewrite compare_single_sheet_one_empty in Hsc by congruence.
      injection Hsc as <-. by apply elem_of_nil in Hd.
    + rewrite compare_single_sheet_one_empty in Hsc by congruence.
      injection Hsc as <-. by apply elem_of_nil in Hd.
    + rewrite compare_single_sheet_aligned in Hsc by done.
      injection Hsc as <-. unfold sc_diff_locations in Hd. simpl in Hd.
      apply elem_of_scanned_differences in Hd as (r' & c' & Hr' & Hc' & Hdiff).
      assert (r' = r) as -> by lia. assert (c' = c) as -> by lia.
      congruence.
  - intros E1 E2 Hunlike.
    rewrite compare_single_sheet_aligned in Hsc by done.
    injection Hsc as <-. unfold sc_diff_locations. simpl.
    destruct Hunlike as [[H1 H2%nothing_at_cell_at]|[H1%nothing_at_cell_at H2]].
    + destruct (iloc_Some_bounds _ _ _ _ H1) as [Hr Hc].
      apply empty_string_at_cell_at in H1.
      apply scanned_differences_complete; [lia..|]. by rewrite H1, H2.
    + destruct (iloc_Some_bounds _ _ _ _ H2) as [Hr Hc].
      apply empty_string_at_cell_at in H2.
      apply scanned_differences_complete; [lia..|]. by rewrite H1, H2.
Qed.

(** C3, the claim as stated fails: an absent cell (row 0, column 1 of a
    one-column frame) against an empty-string cell is reported as a
    difference. *)
Lemma C3_absent_against_empty_string_is_reported :
  iloc [[PStr "x"]] 0 1 = None ∧
  iloc [[PStr "x"; PStr ""]] 0 1 = Some (PStr "") ∧
  _compare_single_sheet [[PStr "x"]] [[PStr "x"; PStr ""]]
  = Some {| sc_identical := false;
            sc_differences := DiffInt 1;
            sc_details :=
              DetailsDiff [{| row := 1; col := 2;
                              file1_value := PNone; file2_value := PStr "" |}]
                          (1, 1) (1, 2) |}.
Proof. by vm_compute. Qed.

Lemma C3_witness :
  _compare_single_sheet [[PStr ""; PStr "x"]] [[PStr ""; PStr "x"; PNone; PStr ""]]
  = Some {| sc_identical := false; sc_differences := DiffInt 1;
            sc_details :=
              DetailsDiff [{| row := 1; col := 4;
                              file1_value := PNone; file2_value := PStr "" |}]
                          (1, 2) (1, 4) |} ∧
  not_reported_at
    {| sc_identical := false; sc_differences := DiffInt 1;
       sc_details :=
         DetailsDiff [{| row := 1; col := 4;
                         file1_value := PNone; file2_value := PStr "" |}]
                     (1, 2) (1, 4) |} 0 0 ∧
  not_reported_at
    {| sc_identical := false; sc_differences := DiffInt 1;
       sc_details :=
         DetailsDiff [{| row := 1; col := 4;
                         file1_value := PNone; file2_value := PStr "" |}]
                     (1, 2) (1, 4) |} 0 2 ∧
  report [[PStr ""; PStr "x"]] [[PStr ""; PStr "x"; PNone; PStr ""]] (0, 3)
  ∈ sc_diff_locations
      {| sc_identical := false; sc_differences := DiffInt 1;
         sc_details :=
           DetailsDiff [{| row := 1; col := 4;
                           file1_value := PNone; file2_value := PStr "" |}]
                       (1, 2) (1, 4) |}.
Proof.
  assert (_compare_single_sheet [[PStr ""; PStr "x"]]
                                [[PStr ""; PStr "x"; PNone; PStr ""]]
          = Some {| sc_identical := false; sc_differences := DiffInt 1;
                    sc_details :=
                      DetailsDiff [{| row := 1; col := 4;
                                      file1_value := PNone;
                                      file2_value := PStr "" |}]
                                  (1, 2) (1, 4) |}) as Hsc by reflexivity.
  split; [exact Hsc|].
  split; [|split].
  - apply (C3_nothing_reported_only_across_kinds _ _ _ 0 0 Hsc).
    right. split; reflexivity.
  - apply (C3_nothing_reported_only_across_kinds _ _ _ 0 2 Hsc).
    left. split; [left|right]; reflexivity.
  - apply (C3_nothing_reported_only_across_kinds _ _ _ 0 3 Hsc);
      [reflexivity..|].
    right. split; [left|]; reflexivity.
Defined.



Lemma df_empty_zero_rows {A} (df : Frame A) : df_len df = 0 → df_empty df = true.
Proof. intros H. unfold df_empty. by rewrite H. Qed.

(** C5: when exactly one of the two frames is empty the comparison returns
    the result 'One sheet is empty', not identical, with the flags of which
    side is empty and no list of cells; when both are empty it returns
    identical with 0 differences. A frame of zero rows is empty. *)
Theorem C5_empty_frames (df1 df2 : DataFrame) :
  (∀ df : DataFrame, df_len df = 0 → df_empty df = true) ∧
  (df_empty df1 ≠ df_empty df2 →
   _compare_single_sheet df1 df2
   = Some {| sc_identical := false;
             sc_differences := DiffStr "One sheet is empty";
             sc_details := DetailsOneEmpty (df_empty df1) (df_empty df2) |}) ∧
  (df_empty df1 = true → df_empty df2 = true →
   _compare_single_sheet df1 df2
   = Some {| sc_identical := true; sc_differences := DiffInt 0;
             sc_details := DetailsNone |}).
Proof.
  split; [apply @df_empty_zero_rows|].
  split; [apply compare_single_sheet_one_empty|apply compare_single_sheet_both_empty].
Qed.

Lemma C5_witness :
  _compare_single_sheet
    [[PInt 1]; [PInt 2]; [PInt 3]; [PInt 4]] []
  = Some {| sc_identical := false;
            sc_differences := DiffStr "One sheet is empty";
            sc_details := DetailsOneEmpty false true |}.
Proof.
  apply (C5_empty_frames [[PInt 1]; [PInt 2]; [PInt 3]; [PInt 4]] []).
  vm_compute. discriminate.
Defined.

(** ** The comparison of the workbook properties *)

(** What the loop over a list of keys leaves: the verdict, and the entry
    of each key. *)
Lemma compare_prop_fold (props1 props2 : gmap string PyVal)
    (keys : list string) (acc : PropertiesComparison) :
  let cmp := foldl (compare_prop props1 props2) acc keys in
  wp_identical cmp
  = wp_identical acc &&
    forallb (λ k, py_eq (dict_get props1 k) (dict_get props2 k)) keys ∧
  (∀ prop,
     wp_differences cmp !! prop
     = if decide (prop ∈ keys ∧
                  py_ne (dict_get props1 prop) (dict_get props2 prop) = true)
       then Some {| pd_file1 := dict_get props1 prop;
                    pd_file2 := dict_get props2 prop |}
       else wp_differences acc !! prop) ∧
  wp_file1 cmp = wp_file1 acc ∧ wp_file2 cmp = wp_file2 acc.
Proof.
  revert acc. induction keys as [|k keys IH]; intros acc.
  - simpl. rewrite andb_true_r. by repeat split.
  - cbn [foldl forallb]. 
    destruct (IH (compare_prop props1 props2 acc k)) as (Hid & Hdiff & Hf1 & Hf2).
    rewrite Hid, Hf1, Hf2. clear Hid Hf1 Hf2 IH. 
    split; [|split].
    + unfold compare_prop, py_ne.
      destruct (py_eq (dict_get props1 k) (dict_get props2 k)); simpl; [done|].
      by rewrite andb_false_r.
    + intros prop. rewrite Hdiff. unfold compare_prop, py_ne.
      destruct (decide (prop = k)) as [->|Hne].
      * destruct (py_eq (dict_get props1 k) (dict_get props2 k)) eqn:E; simpl.
        -- repeat case_decide; try done; exfalso; set_solver.
        -- rewrite lookup_insert_eq.
           repeat case_decide; try done; exfalso; set_solver.
      * destruct (py_eq (dict_get props1 k) (dict_get props2 k)) eqn:E; simpl;
          rewrite ?lookup_insert_ne by done;
          repeat case_decide; try done; exfalso; set_solver.
    + unfold compare_prop. by destruct (py_ne (dict_get props1 k) (dict_get props2 k)).
Qed.

Lemma compare_properties_difference (props1 props2 : gmap string PyVal) (prop : string) :
  wp_differences (compare_properties props1 props2) !! prop
  = if decide (prop ∈ key_props ∧
               py_ne (dict_get props1 prop) (dict_get props2 prop) = true)
    then Some {| pd_file1 := dict_get props1 prop;
                 pd_file2 := dict_get props2 prop |}
    else None.
Proof.
  unfold compare_properties.
  destruct (compare_prop_fold props1 props2 key_props
              {| wp_identical := true; wp_differences := ∅;
                 wp_file1 := props1; wp_file2 := props2 |}) as (_ & H & _).
  rewrite H. simpl. by rewrite lookup_empty.
Qed.

Lemma compare_properties_identical (props1 props2 : gmap string PyVal) :
  wp_identical (compare_properties props1 props2)
  = forallb (λ k, py_eq (dict_get props1 k) (dict_get props2 k)) key_props.
Proof.
  unfold compare_properties.
  destruct (compare_prop_fold props1 props2 key_props
              {| wp_identical := true; wp_differences := ∅;
                 wp_file1 := props1; wp_file2 := props2 |}) as (H & _).
  by rewrite H.
Qed.

Lemma compare_properties_identical_iff (props1 props2 : gmap string PyVal) :
  wp_identical (compare_properties props1 props2) = true
  ↔ wp_differences (compare_properties props1 props2) = ∅.
Proof.
  rewrite compare_properties_identical, forallb_forall. split.
  - intros Hall. apply map_eq. intros prop.
    rewrite compare_properties_difference, lookup_empty.
    case_decide as H; [|done]. destruct H as [Hin Hne].
    apply list_elem_of_In, Hall in Hin. unfold py_ne in Hne. by rewrite Hin in Hne.
  - intros Hempty k Hk%list_elem_of_In.
    pose proof (compare_properties_difference props1 props2 k) as H.
    rewrite Hempty, lookup_empty in H.
    case_decide as Hd; [done|].
    unfold py_ne in Hd. destruct (py_eq _ _); [done|]. exfalso. by apply Hd.
Qed.

(** The verdict and the differences depend on the two dicts through the
    five keys only. *)
Lemma compare_properties_ext (props1 props2 props1' props2' : gmap string PyVal) :
  (∀ k, k ∈ key_props → dict_get props1 k = dict_get props1' k) →
  (∀ k, k ∈ key_props → dict_get props2 k = dict_get props2' k) →
  wp_identical (compare_properties props1 props2)
  = wp_identical (compare_properties props1' props2') ∧
  wp_differences (compare_properties props1 props2)
  = wp_differences (compare_properties props1' props2').
Proof.
  intros H1 H2. split.
  - rewrite !compare_properties_identical.
    apply eq_true_iff_eq. rewrite !forallb_forall.
    split; intros H k Hk; specialize (H k Hk); apply list_elem_of_In in Hk.
    + by rewrite <- H1, <- H2.
    + by rewrite H1, H2.
  - apply map_eq. intros prop. rewrite !compare_properties_difference.
    destruct (decide (prop ∈ key_props)) as [Hin|Hnin].
    + rewrite (H1 _ Hin), (H2 _ Hin). done.
    + repeat case_decide; try done; exfalso; naive_solver.
Qed.

Lemma dict_get_insert_ne (d : gmap string PyVal) (k prop : string) (v : PyVal) :
  k ≠ prop → dict_get (<[k := v]> d) prop = dict_get d prop.
Proof. intros. unfold dict_get. by rewrite lookup_insert_ne. Qed.

Lemma dict_get_delete_ne (d : gmap string PyVal) (k prop : string) :
  k ≠ prop → dict_get (delete k d) prop = dict_get d prop.
Proof. intros. unfold dict_get. by rewrite lookup_delete_ne. Qed.

(** C10: the comparison of two property dicts is identical exactly when
    its dict of differences is empty; a key of that dict is one of title,
    subject, creator, last_modified_by, sheets_count, and it is there
    exactly when the two sides differ on it; whatever the two sides hold
    under created and modified, the verdict and the differences are the
    same. *)
Theorem C10_workbook_properties (props1 props2 : gmap string PyVal) :
  let cmp := compare_properties props1 props2 in
  (wp_identical cmp = true ↔ wp_differences cmp = ∅) ∧
  (∀ prop, is_Some (wp_differences cmp !! prop) ↔
           prop ∈ ["title"; "subject"; "creator"; "last_modified_by"; "sheets_count"] ∧
           py_ne (dict_get props1 prop) (dict_get props2 prop) = true) ∧
  (∀ (c1 m1 c2 m2 : option PyVal),
     let props1' := partial_alter (λ _, c1) "created"
                      (partial_alter (λ _, m1) "modified" props1) in
     let props2' := partial_alter (λ _, c2) "created"
                      (partial_alter (λ _, m2) "modified" props2) in
     wp_identical (compare_properties props1' props2') = wp_identical cmp ∧
     wp_differences (compare_properties props1' props2') = wp_differences cmp).
Proof.
  simpl. split; [apply compare_properties_identical_iff|]. split.
  - intros prop. rewrite compare_properties_difference.
    case_decide as H; split; try done; by intros [? [=]].
  - intros c1 m1 c2 m2.
    apply compare_properties_ext; intros k Hk; unfold dict_get;
      rewrite !lookup_partial_alter_ne; try done;
      intros <-; vm_compute in Hk; set_solver.
Qed.

(** ** The Macro Differ *)

(** A comprehension whose condition does not raise is a filter. *)
Lemma list_comprehension_filter {A} (keys : list A) (cond : A → option bool)
    (p : A → bool) :
  (∀ k, k ∈ keys → cond k = Some (p k)) →
  list_comprehension keys cond = Some (filter (λ k, p k = true) keys).
Proof.
  intros Hcond. unfold list_comprehension.
  rewrite (for_each_append _ _ (λ k, if p k then [k] else [])).
  - f_equal. simpl. clear Hcond.
    induction keys as [|k keys IH]; [done|].
    rewrite bind_cons, filter_cons, IH. by destruct (p k).
  - intros k acc Hk. rewrite (Hcond k Hk). simpl.
    destruct (p k); [done|by rewrite app_nil_r].
Qed.

Lemma compare_modules_lists (modules1 modules2 : gmap string VBAModule) :
  _compare_modules modules1 modules2
  = Some {| added := elements (dom modules2 ∖ dom modules1);
            removed := elements (dom modules1 ∖ dom modules2);
            modified :=
              filter (λ k, negb (same_hash modules1 modules2 k) = true)
                     (elements (dom modules1 ∩ dom modules2));
            unchanged :=
              filter (λ k, same_hash modules1 modules2 k = true)
                     (elements (dom modules1 ∩ dom modules2)) |}.
Proof.
  unfold _compare_modules.
  assert (∀ k, k ∈ elements (dom modules1 ∩ dom modules2) →
            ∃ m1 m2, modules1 !! k = Some m1 ∧ modules2 !! k = Some m2) as Hboth.
  { intros k [[m1 H1]%elem_of_dom [m2 H2]%elem_of_dom]%elem_of_elements%elem_of_intersection.
    eauto. }
  rewrite (list_comprehension_filter _ (hash_differs modules1 modules2)
             (λ k, negb (same_hash modules1 modules2 k))).
  2:{ intros k (m1 & m2 & H1 & H2)%Hboth. unfold hash_differs, same_hash.
      rewrite H1, H2. simpl. do 2 f_equal. apply bool_decide_ext. split; [by intros ->|by intros [=]]. }
  rewrite (list_comprehension_filter _ (hash_equal modules1 modules2)
             (same_hash modules1 modules2)); [done|].
  intros k (m1 & m2 & H1 & H2)%Hboth. unfold hash_equal, same_hash.
  rewrite H1, H2. simpl. f_equal. apply bool_decide_ext. split; [by intros ->|by intros [=]].
Qed.

(** Every module [analyze_vba_from_file] stores carries the digest of its
    own bytes. *)
Lemma extract_module_hash md5 (zip_file : ZipFile)
    (modules : gmap string VBAModule) (file_name : string) :
  (∀ k m, modules !! k = Some m → m_hash m = md5 (m_data m)) →
  ∀ k m, extract_module md5 zip_file modules file_name !! k = Some m →
         m_hash m = md5 (m_data m).
Proof.
  intros Hinv k m. unfold extract_module.
  destruct (_ && _); [|apply Hinv].
  destruct (zip_read zip_file file_name) as [module_data|]; [|apply Hinv].
  rewrite lookup_insert. case_decide; [|apply Hinv]. by intros [= <-].
Qed.

Lemma analyzed_module_hash md5 zipfile_ZipFile (file_path : string) k m :
  vba_modules (analyze_vba_from_file md5 zipfile_ZipFile file_path) !! k = Some m →
  m_hash m = md5 (m_data m).
Proof.
  unfold analyze_vba_from_file.
  destruct (zipfile_ZipFile file_path) as [zip_file|]; simpl; [|by rewrite lookup_empty].
  revert k m. generalize (namelist zip_file) as names.
  assert (∀ k m, (∅ : gmap string VBAModule) !! k = Some m →
                 m_hash m = md5 (m_data m)) as Hinv
    by (intros k m; by rewrite lookup_empty).
  revert Hinv. generalize (∅ : gmap string VBAModule) as modules.
  intros modules Hinv names. revert modules Hinv.
  induction names as [|file_name names IH]; intros modules Hinv; simpl; [done|].
  apply IH. by apply extract_module_hash.
Qed.

(** C8: the module comparison returns four lists: added holds the names
    only side 2 has, removed those only side 1 has, modified those of both
    sides whose hashes differ, unchanged those of both sides whose hashes
    are equal; two analysed modules of one name with the same bytes are
    unchanged; and the four lists, put end to end, hold every name of
    either side exactly once. *)
Theorem C8_module_classification md5 (modules1 modules2 : gmap string VBAModule) :
  ∃ cl, _compare_modules modules1 modules2 = Some cl ∧
    (∀ k, k ∈ added cl ↔ k ∈ dom modules2 ∧ k ∉ dom modules1) ∧
    (∀ k, k ∈ removed cl ↔ k ∈ dom modules1 ∧ k ∉ dom modules2) ∧
    (∀ k, k ∈ modified cl ↔
          ∃ m1 m2, modules1 !! k = Some m1 ∧ modules2 !! k = Some m2 ∧
                   m_hash m1 ≠ m_hash m2) ∧
    (∀ k, k ∈ unchanged cl ↔
          ∃ m1 m2, modules1 !! k = Some m1 ∧ modules2 !! k = Some m2 ∧
                   m_hash m1 = m_hash m2) ∧
    (∀ k data,
       modules1 !! k = Some (module_entry md5 data) →
       modules2 !! k = Some (module_entry md5 data) →
       k ∈ unchanged cl) ∧
    NoDup (added cl ++ removed cl ++ modified cl ++ unchanged cl) ∧
    (∀ k, k ∈ added cl ++ removed cl ++ modified cl ++ unchanged cl ↔
          k ∈ dom modules1 ∪ dom modules2).
Proof.
  eexists. split; [apply compare_modules_lists|]. simpl.
  assert (∀ k, k ∈ filter (λ k, negb (same_hash modules1 modules2 k) = true)
                     (elements (dom modules1 ∩ dom modules2)) ↔
          ∃ m1 m2, modules1 !! k = Some m1 ∧ modules2 !! k = Some m2 ∧
                   m_hash m1 ≠ m_hash m2) as Hmod.
  { intros k. rewrite list_elem_of_filter, elem_of_elements, elem_of_intersection,
      !elem_of_dom. unfold same_hash. split.
    - intros (Hne & [m1 H1] & [m2 H2]). exists m1, m2. rewrite H1, H2 in Hne.
      apply negb_true_iff, bool_decide_eq_false in Hne. simpl in Hne.
      split_and!; [done..|]. intros E. apply Hne. by rewrite E.
    - intros (m1 & m2 & H1 & H2 & Hne). rewrite H1, H2. simpl.
      split; [|by eauto]. apply negb_true_iff, bool_decide_eq_false. by intros [=]. }
  assert (∀ k, k ∈ filter (λ k, same_hash modules1 modules2 k = true)
                     (elements (dom modules1 ∩ dom modules2)) ↔
          ∃ m1 m2, modules1 !! k = Some m1 ∧ modules2 !! k = Some m2 ∧
                   m_hash m1 = m_hash m2) as Hunch.
  { intros k. rewrite list_elem_of_filter, elem_of_elements, elem_of_intersection,
      !elem_of_dom. unfold same_hash. split.
    - intros (Heq & [m1 H1] & [m2 H2]). exists m1, m2. rewrite H1, H2 in Heq.
      apply bool_decide_eq_true in Heq. simpl in Heq. by injection Heq.
    - intros (m1 & m2 & H1 & H2 & Heq). rewrite H1, H2. simpl.
      split; [|by eauto]. apply bool_decide_eq_true. by rewrite Heq. }
  split_and!.
  - intros k. by rewrite elem_of_elements, elem_of_difference.
  - intros k. by rewrite elem_of_elements, elem_of_difference.
  - done.
  - done.
  - intros k data H1 H2. apply Hunch. by eauto.
  - rewrite !NoDup_app. split_and!.
    + apply NoDup_elements.
    + intros k. rewrite !elem_of_app, Hmod, Hunch, !elem_of_elements,
        !elem_of_difference, !elem_of_dom.
      intros [H2 H1]. intros [[_ H]|[(m1 & ? & E & _)|(m1 & ? & E & _)]];
        [done|..]; apply H1; by rewrite E.
    + apply NoDup_elements.
    + intros k. rewrite !elem_of_app, Hmod, Hunch, !elem_of_elements,
        !elem_of_difference, !elem_of_dom.
      intros [H1 H2]. intros [(? & m2 & _ & E & _)|(? & m2 & _ & E & _)];
        apply H2; by rewrite E.
    + apply NoDup_filter, NoDup_elements.
    + intros k. rewrite Hmod, Hunch.
      intros (m1 & m2 & E1 & E2 & Hne) (m1' & m2' & E1' & E2' & Heq).
      congruence.
    + apply NoDup_filter, NoDup_elements.
  - intros k. rewrite !elem_of_app, Hmod, Hunch, !elem_of_elements,
      !elem_of_difference, elem_of_union, !elem_of_dom. split.
    + intros [[? _]|[[? _]|[(m1 & ? & E & _)|(m1 & ? & E & _)]]]; eauto.
    + intros Hk.
      destruct (modules1 !! k) as [m1|] eqn:E1, (modules2 !! k) as [m2|] eqn:E2.
      * destruct (decide (m_hash m1 = m_hash m2)).
        -- do 3 right. by eauto.
        -- do 2 right. left. by eauto.
      * right. left. split; [by eauto|]. by intros [? [=]].
      * left. split; [by eauto|]. by intros [? [=]].
      * destruct Hk as [[? [=]]|[? [=]]].
Qed.

(** ** The Formula Differ *)

Lemma dict_comprehension_lookup {V} (cells : list string) (d : gmap string V) :
  (∀ cell, cell ∈ cells → is_Some (d !! cell)) →
  ∃ m, dict_comprehension cells d = Some m ∧
       ∀ k, m !! k = if decide (k ∈ cells) then d !! k else None.
Proof.
  unfold dict_comprehension.
  assert (∀ acc : gmap string V,
    (∀ cell, cell ∈ cells → is_Some (d !! cell)) →
    ∃ m, for_each cells (λ acc cell, v ← d !! cell; Some (<[cell := v]> acc)) acc = Some m ∧
         ∀ k, m !! k = if decide (k ∈ cells) then d !! k else acc !! k) as H.
  { induction cells as [|cell cells IH]; intros acc Hin; cbn [for_each].
    - exists acc. split; [done|]. intros k. by rewrite decide_False by set_solver.
    - destruct (Hin cell) as [v Hv]; [by left|]. rewrite Hv. cbn [mbind option_bind].
      destruct (IH (<[cell := v]> acc)) as (m & -> & Hm);
        [intros; apply Hin; by right|].
      exists m. split; [done|]. intros k. rewrite Hm.
      destruct (decide (k = cell)) as [->|Hne].
      + rewrite (decide_True (P := cell ∈ cell :: cells)) by set_solver.
        rewrite lookup_insert_eq. by case_decide.
      + rewrite lookup_insert_ne by done.
        destruct (decide (k ∈ cells)).
        * by rewrite decide_True by set_solver.
        * by rewrite decide_False by set_solver. }
  intros Hin. destruct (H ∅ Hin) as (m & Hm & Hk).
  exists m. split; [done|]. intros k. rewrite Hk. by rewrite lookup_empty.
Qed.

Lemma compare_common_cell_both (sf1 sf2 : gmap string FormulaEntry)
    (st : gmap string ModifiedFormula * gmap string FormulaEntry)
    (cell : string) (e1 e2 : FormulaEntry) :
  sf1 !! cell = Some e1 → sf2 !! cell = Some e2 →
  compare_common_cell sf1 sf2 st cell
  = Some (if py_ne (formula e1) (formula e2)
          then (<[cell := {| mf_file1 := e1; mf_file2 := e2 |}]> st.1, st.2)
          else (st.1, <[cell := e1]> st.2)).
Proof.
  intros H1 H2. unfold compare_common_cell. rewrite H1, H2. simpl.
  by destruct (py_ne (formula e1) (formula e2)).
Qed.

Lemma common_cells_loop (sf1 sf2 : gmap string FormulaEntry) (cells : list string)
    (st : gmap string ModifiedFormula * gmap string FormulaEntry) :
  (∀ cell, cell ∈ cells → is_Some (sf1 !! cell) ∧ is_Some (sf2 !! cell)) →
  ∃ st', for_each cells (compare_common_cell sf1 sf2) st = Some st' ∧
    (∀ k, st'.1 !! k
          = if decide (k ∈ cells)
            then written_over (modified_of (sf1 !! k) (sf2 !! k)) (st.1 !! k)
            else st.1 !! k) ∧
    (∀ k, st'.2 !! k
          = if decide (k ∈ cells)
            then written_over (identical_of (sf1 !! k) (sf2 !! k)) (st.2 !! k)
            else st.2 !! k).
Proof.
  revert st. induction cells as [|cell cells IH]; intros st Hin; cbn [for_each].
  - exists st. split; [done|].
    split; intros k; by rewrite decide_False by set_solver.
  - destruct (Hin cell) as [[e1 H1] [e2 H2]]; [by left|].
    rewrite (compare_common_cell_both sf1 sf2 st cell e1 e2 H1 H2).
    cbn [mbind option_bind].
    destruct (py_ne (formula e1) (formula e2)) eqn:Hne.
    + destruct (IH (<[cell := {| mf_file1 := e1; mf_file2 := e2 |}]> st.1, st.2))
        as (st' & -> & Hm & Hi); [intros; apply Hin; by right|].
      exists st'. split; [done|]. cbn [fst snd] in *.
      split; intros k; rewrite ?Hm, ?Hi; clear Hm Hi.
      * destruct (decide (k = cell)) as [->|Hk].
        -- rewrite (decide_True (P := cell ∈ cell :: cells)) by set_solver.
           rewrite lookup_insert_eq, H1, H2. unfold modified_of. simpl. rewrite Hne.
           by case_decide.
        -- rewrite lookup_insert_ne by done.
           destruct (decide (k ∈ cells)).
           ++ by rewrite decide_True by set_solver.
           ++ by rewrite decide_False by set_solver.
      * destruct (decide (k = cell)) as [->|Hk].
        -- rewrite (decide_True (P := cell ∈ cell :: cells)) by set_solver.
           rewrite H1, H2. unfold identical_of. simpl. rewrite Hne.
           by case_decide.
        -- destruct (decide (k ∈ cells)).
           ++ by rewrite decide_True by set_solver.
           ++ by rewrite decide_False by set_solver.
    + destruct (IH (st.1, <[cell := e1]> st.2))
        as (st' & -> & Hm & Hi); [intros; apply Hin; by right|].
      exists st'. split; [done|]. cbn [fst snd] in *.
      split; intros k; rewrite ?Hm, ?Hi; clear Hm Hi.
      * destruct (decide (k = cell)) as [->|Hk].
        -- rewrite (decide_True (P := cell ∈ cell :: cells)) by set_solver.
           rewrite H1, H2. unfold modified_of. simpl. rewrite Hne.
           by case_decide.
        -- destruct (decide (k ∈ cells)).
           ++ by rewrite decide_True by set_solver.
           ++ by rewrite decide_False by set_solver.
      * destruct (decide (k = cell)) as [->|Hk].
        -- rewrite (decide_True (P := cell ∈ cell :: cells)) by set_solver.
           rewrite lookup_insert_eq, H1, H2. unfold identical_of. simpl. rewrite Hne.
           by case_decide.
        -- rewrite lookup_insert_ne by done.
           destruct (decide (k ∈ cells)).
           ++ by rewrite decide_True by set_solver.
           ++ by rewrite decide_False by set_solver.
Qed.

Lemma dict_comprehension_difference (sf1 sf2 : gmap string FormulaEntry) :
  dict_comprehension (elements (dom sf2 ∖ dom sf1)) sf2 = Some (sf2 ∖ sf1).
Proof.
  destruct (dict_comprehension_lookup (elements (dom sf2 ∖ dom sf1)) sf2)
    as (m & -> & Hm).
  { intros cell [H _]%elem_of_elements%elem_of_difference. by apply elem_of_dom. }
  f_equal. apply map_eq. intros k. rewrite Hm, lookup_difference.
  case_decide as Hk; rewrite elem_of_elements, elem_of_difference, !elem_of_dom in Hk.
  - destruct Hk as [_ Hk]. destruct (sf1 !! k); [|done]. exfalso. by apply Hk.
  - destruct (sf1 !! k) eqn:E1; [done|]. destruct (sf2 !! k) eqn:E2; [|done].
    exfalso. apply Hk. split; [by eauto|]. by intros [? [=]].
Qed.

Lemma common_cells_result (sf1 sf2 : gmap string FormulaEntry) :
  for_each (elements (dom sf1 ∩ dom sf2)) (compare_common_cell sf1 sf2) (∅, ∅)
  = Some (sheet_modified sf1 sf2, sheet_identical sf1 sf2).
Proof.
  destruct (common_cells_loop sf1 sf2 (elements (dom sf1 ∩ dom sf2)) (∅, ∅))
    as ([m i] & -> & Hm & Hi).
  { intros cell Hc%elem_of_elements%elem_of_intersection.
    by rewrite <- !elem_of_dom. }
  simpl in Hm, Hi. do 2 f_equal.
  - apply map_eq. intros k. unfold sheet_modified.
    rewrite Hm, lookup_merge, lookup_empty.
    case_decide as Hk; rewrite elem_of_elements, elem_of_intersection, !elem_of_dom in Hk.
    + destruct Hk as [[e1 ->] [e2 ->]]. simpl.
      by destruct (py_ne (formula e1) (formula e2)).
    + destruct (sf1 !! k) eqn:E1, (sf2 !! k) eqn:E2; try done.
      exfalso. apply Hk. by eauto.
  - apply map_eq. intros k. unfold sheet_identical.
    rewrite Hi, lookup_merge, lookup_empty.
    case_decide as Hk; rewrite elem_of_elements, elem_of_intersection, !elem_of_dom in Hk.
    + destruct Hk as [[e1 ->] [e2 ->]]. simpl.
      by destruct (py_ne (formula e1) (formula e2)).
    + destruct (sf1 !! k) eqn:E1, (sf2 !! k) eqn:E2; try done.
      exfalso. apply Hk. by eauto.
Qed.

Lemma bool_decide_dom_nonempty {V} (d : gmap string V) :
  bool_decide (dom d ≠ ∅) = bool_decide (d ≠ ∅).
Proof. apply bool_decide_ext. by rewrite dom_empty_iff_L. Qed.

(** One iteration of the loop over the sheets: under each of the four
    keys, the dict of the sheet is stored unless it is empty. *)
Lemma compare_sheet_formulas_spec
    (formulas1 formulas2 : gmap string (gmap string FormulaEntry))
    (c : FormulaDicts) (sheet_name : string) :
  let sf1 := formulas_of formulas1 sheet_name in
  let sf2 := formulas_of formulas2 sheet_name in
  compare_sheet_formulas formulas1 formulas2 c sheet_name
  = Some {| fd_added :=
              from_option (λ d, <[sheet_name := d]> (fd_added c)) (fd_added c)
                          (nonempty (sheet_added sf1 sf2));
            fd_removed :=
              from_option (λ d, <[sheet_name := d]> (fd_removed c)) (fd_removed c)
                          (nonempty (sheet_removed sf1 sf2));
            fd_modified :=
              from_option (λ d, <[sheet_name := d]> (fd_modified c)) (fd_modified c)
                          (nonempty (sheet_modified sf1 sf2));
            fd_identical :=
              from_option (λ d, <[sheet_name := d]> (fd_identical c)) (fd_identical c)
                          (nonempty (sheet_identical sf1 sf2)) |}.
Proof.
  intros sf1 sf2. unfold compare_sheet_formulas.
  fold (formulas_of formulas1 sheet_name) (formulas_of formulas2 sheet_name).
  fold sf1 sf2.
  rewrite !dict_comprehension_difference, common_cells_result.
  unfold sheet_added, sheet_removed, nonempty.
  rewrite <- !dom_difference_L, !bool_decide_dom_nonempty.
  destruct c as [a r m i]. cbn [fst snd].
  destruct (decide (sf2 ∖ sf1 = ∅));
    [rewrite (bool_decide_eq_false_2 (sf2 ∖ sf1 ≠ ∅)) by (by intros ?)
    |rewrite (bool_decide_eq_true_2 (sf2 ∖ sf1 ≠ ∅)) by done];
  (destruct (decide (sf1 ∖ sf2 = ∅));
    [rewrite (bool_decide_eq_false_2 (sf1 ∖ sf2 ≠ ∅)) by (by intros ?)
    |rewrite (bool_decide_eq_true_2 (sf1 ∖ sf2 ≠ ∅)) by done]);
  cbn [mbind option_bind fst snd];
  (destruct (decide (sheet_modified sf1 sf2 = ∅));
    [rewrite (bool_decide_eq_false_2 (sheet_modified sf1 sf2 ≠ ∅)) by (by intros ?)
    |rewrite (bool_decide_eq_true_2 (sheet_modified sf1 sf2 ≠ ∅)) by done]);
  (destruct (decide (sheet_identical sf1 sf2 = ∅));
    [rewrite (bool_decide_eq_false_2 (sheet_identical sf1 sf2 ≠ ∅)) by (by intros ?)
    |rewrite (bool_decide_eq_true_2 (sheet_identical sf1 sf2 ≠ ∅)) by done]);
  done.
Qed.

Lemma lookup_store {V} (x : string) (o : option V) (m : gmap string V) (n : string) :
  from_option (λ d, <[x := d]> m) m o !! n
  = if decide (n = x) then written_over o (m !! n) else m !! n.
Proof.
  destruct o as [d|]; simpl.
  - rewrite lookup_insert. by repeat case_decide; subst.
  - by case_decide.
Qed.

(** A loop over sheet names that, under one key, stores for each name what
    [val] gives for it, leaves under that key: for a visited name what
    [val] gives, written over the former entry; the former entry for any
    other name. *)
Lemma store_loop {S V} (body : S → string → option S)
    (get : S → gmap string V) (val : string → option V) (l : list string) :
  (∀ c x, ∃ c1, body c x = Some c1 ∧
                get c1 = from_option (λ d, <[x := d]> (get c)) (get c) (val x)) →
  ∀ c, ∃ c', for_each l body c = Some c' ∧
    ∀ n, get c' !! n
         = if decide (n ∈ l) then written_over (val n) (get c !! n) else get c !! n.
Proof.
  intros Hbody. induction l as [|x l IH]; intros c; cbn [for_each].
  - exists c. split; [done|]. intros n. by rewrite decide_False by set_solver.
  - destruct (Hbody c x) as (c1 & -> & Hget). cbn [mbind option_bind].
    destruct (IH c1) as (c' & -> & Hc'). exists c'. split; [done|].
    intros n. rewrite Hc', Hget, lookup_store.
    destruct (decide (n = x)) as [->|Hne].
    + rewrite (decide_True (P := x ∈ x :: l)) by set_solver.
      case_decide; [|done]. by destruct (val x).
    + destruct (decide (n ∈ l)).
      * by rewrite decide_True by set_solver.
      * by rewrite decide_False by set_solver.
Qed.

Lemma formulas_of_not_in_dom
    (formulas : gmap string (gmap string FormulaEntry)) (sheet_name : string) :
  sheet_name ∉ dom formulas → formulas_of formulas sheet_name = ∅.
Proof. intros H%not_elem_of_dom. unfold formulas_of. by rewrite H. Qed.

Lemma default_nonempty {V} (d : gmap string V) : default ∅ (nonempty d) = d.
Proof. unfold nonempty. by case_decide. Qed.

(** The comparison of two formula dicts returns, and under each of its
    four keys the addresses of a sheet are those of the dict of that
    sheet. *)
Lemma compare_formulas_addresses
    (formulas1 formulas2 : gmap string (gmap string FormulaEntry)) :
  ∃ cmp, compare_formulas formulas1 formulas2 = Some cmp ∧
    ∀ sheet_name,
      let sf1 := formulas_of formulas1 sheet_name in
      let sf2 := formulas_of formulas2 sheet_name in
      default ∅ (added_formulas cmp !! sheet_name) = sheet_added sf1 sf2 ∧
      default ∅ (removed_formulas cmp !! sheet_name) = sheet_removed sf1 sf2 ∧
      default ∅ (modified_formulas cmp !! sheet_name) = sheet_modified sf1 sf2 ∧
      default ∅ (identical_formulas cmp !! sheet_name) = sheet_identical sf1 sf2.
Proof.
  unfold compare_formulas.
  set (l := elements (dom formulas1 ∪ dom formulas2)).
  set (c0 := {| fd_added := ∅; fd_removed := ∅; fd_modified := ∅; fd_identical := ∅ |}).
  set (body := compare_sheet_formulas formulas1 formulas2).
  pose proof (λ c x, compare_sheet_formulas_spec formulas1 formulas2 c x) as Hbody.
  cbv zeta in Hbody. fold body in Hbody.
  destruct (store_loop body fd_added
              (λ n, nonempty (sheet_added (formulas_of formulas1 n)
                                          (formulas_of formulas2 n))) l
              (λ c x, ex_intro _ _ (conj (Hbody c x) eq_refl)) c0)
    as (c' & Hc' & Ha).
  destruct (store_loop body fd_removed
              (λ n, nonempty (sheet_removed (formulas_of formulas1 n)
                                            (formulas_of formulas2 n))) l
              (λ c x, ex_intro _ _ (conj (Hbody c x) eq_refl)) c0)
    as (c'' & Hc'' & Hr).
  rewrite Hc' in Hc''. injection Hc'' as <-.
  destruct (store_loop body fd_modified
              (λ n, nonempty (sheet_modified (formulas_of formulas1 n)
                                             (formulas_of formulas2 n))) l
              (λ c x, ex_intro _ _ (conj (Hbody c x) eq_refl)) c0)
    as (c'' & Hc'' & Hm).
  rewrite Hc' in Hc''. injection Hc'' as <-.
  destruct (store_loop body fd_identical
              (λ n, nonempty (sheet_identical (formulas_of formulas1 n)
                                              (formulas_of formulas2 n))) l
              (λ c x, ex_intro _ _ (conj (Hbody c x) eq_refl)) c0)
    as (c'' & Hc'' & Hi).
  rewrite Hc' in Hc''. injection Hc'' as <-.
  rewrite Hc'. cbn [mbind option_bind]. eexists. split; [done|].
  intros n. cbn [added_formulas removed_formulas modified_formulas identical_formulas].
  rewrite Ha, Hr, Hm, Hi. subst c0. cbn [fd_added fd_removed fd_modified fd_identical].
  rewrite !lookup_empty.
  set (sf1 := formulas_of formulas1 n). set (sf2 := formulas_of formulas2 n).
  destruct (decide (n ∈ l)) as [Hn|Hn].
  - unfold written_over.
    rewrite <- (default_nonempty (sheet_added sf1 sf2)) at 2.
    rewrite <- (default_nonempty (sheet_removed sf1 sf2)) at 2.
    rewrite <- (default_nonempty (sheet_modified sf1 sf2)) at 2.
    rewrite <- (default_nonempty (sheet_identical sf1 sf2)) at 2.
    by destruct (nonempty (sheet_added sf1 sf2)),
                (nonempty (sheet_removed sf1 sf2)),
                (nonempty (sheet_modified sf1 sf2)),
                (nonempty (sheet_identical sf1 sf2)).
  - subst l. rewrite elem_of_elements, elem_of_union in Hn.
    subst sf1 sf2. rewrite !formulas_of_not_in_dom by tauto. simpl.
    unfold sheet_added, sheet_removed, sheet_modified, sheet_identical.
    rewrite !map_difference_diag. by split_and!.
Qed.

Lemma elem_of_dom_sheet_added (sf1 sf2 : gmap string FormulaEntry) (k : string) :
  k ∈ dom (sheet_added sf1 sf2) ↔ k ∈ dom sf2 ∧ k ∉ dom sf1.
Proof. unfold sheet_added. by rewrite dom_difference_L, elem_of_difference. Qed.

Lemma elem_of_dom_sheet_removed (sf1 sf2 : gmap string FormulaEntry) (k : string) :
  k ∈ dom (sheet_removed sf1 sf2) ↔ k ∈ dom sf1 ∧ k ∉ dom sf2.
Proof. unfold sheet_removed. by rewrite dom_difference_L, elem_of_difference. Qed.

Lemma elem_of_dom_sheet_modified (sf1 sf2 : gmap string FormulaEntry) (k : string) :
  k ∈ dom (sheet_modified sf1 sf2) ↔
  ∃ e1 e2, sf1 !! k = Some e1 ∧ sf2 !! k = Some e2 ∧
           py_ne (formula e1) (formula e2) = true.
Proof.
  unfold sheet_modified. rewrite elem_of_dom, lookup_merge.
  destruct (sf1 !! k) as [e1|], (sf2 !! k) as [e2|]; simpl;
    try (split; [by intros [? [=]]|by intros (? & ? & [=] & [=] & _)]).
  destruct (py_ne (formula e1) (formula e2)) eqn:E.
  - split; [by eauto 6|by eauto].
  - split; [by intros [? [=]]|]. intros (? & ? & [= <-] & [= <-] & ?). congruence.
Qed.

Lemma elem_of_dom_sheet_identical (sf1 sf2 : gmap string FormulaEntry) (k : string) :
  k ∈ dom (sheet_identical sf1 sf2) ↔
  ∃ e1 e2, sf1 !! k = Some e1 ∧ sf2 !! k = Some e2 ∧
           py_ne (formula e1) (formula e2) = false.
Proof.
  unfold sheet_identical. rewrite elem_of_dom, lookup_merge.
  destruct (sf1 !! k) as [e1|], (sf2 !! k) as [e2|]; simpl;
    try (split; [by intros [? [=]]|by intros (? & ? & [=] & [=] & _)]).
  destruct (py_ne (formula e1) (formula e2)) eqn:E.
  - split; [by intros [? [=]]|]. intros (? & ? & [= <-] & [= <-] & ?). congruence.
  - split; [by eauto 6|by eauto].
Qed.

(** C2: the comparison of two formula dicts returns, and for every sheet
    name the four sets of addresses it holds for that sheet (added, removed,
    modified, identical) are pairwise disjoint and their union is the union
    of the addresses of the two sides for that sheet. Added are the
    addresses of side 2 only, removed those of side 1 only, modified and
    identical those of both. *)
Theorem C2_formula_partition
    (formulas1 formulas2 : gmap string (gmap string FormulaEntry)) :
  ∃ cmp, compare_formulas formulas1 formulas2 = Some cmp ∧
    ∀ sheet_name,
      let A := addresses (added_formulas cmp) sheet_name in
      let R := addresses (removed_formulas cmp) sheet_name in
      let M := addresses (modified_formulas cmp) sheet_name in
      let I := addresses (identical_formulas cmp) sheet_name in
      let S1 := dom (formulas_of formulas1 sheet_name) in
      let S2 := dom (formulas_of formulas2 sheet_name) in
      (A ## R ∧ A ## M ∧ A ## I ∧ R ## M ∧ R ## I ∧ M ## I) ∧
      A ∪ R ∪ M ∪ I = S1 ∪ S2 ∧
      A = S2 ∖ S1 ∧ R = S1 ∖ S2 ∧ M ∪ I = S1 ∩ S2.
Proof.
  destruct (compare_formulas_addresses formulas1 formulas2) as (cmp & Hcmp & Haddr).
  exists cmp. split; [done|]. intros n. unfold addresses.
  destruct (Haddr n) as (-> & -> & -> & ->). clear Haddr Hcmp. simpl.
  set (sf1 := formulas_of formulas1 n). set (sf2 := formulas_of formulas2 n).
  pose proof (elem_of_dom_sheet_added sf1 sf2) as HA.
  pose proof (elem_of_dom_sheet_removed sf1 sf2) as HR.
  pose proof (elem_of_dom_sheet_modified sf1 sf2) as HM.
  pose proof (elem_of_dom_sheet_identical sf1 sf2) as HI.
  assert (∀ k, k ∈ dom sf1 ∩ dom sf2 ↔
               k ∈ dom (sheet_modified sf1 sf2) ∨ k ∈ dom (sheet_identical sf1 sf2))
    as HMI.
  { intros k. rewrite HM, HI, elem_of_intersection, !elem_of_dom. split.
    - intros [[e1 H1] [e2 H2]].
      destruct (py_ne (formula e1) (formula e2)) eqn:E; [left|right]; by eauto 6.
    - intros [(e1 & e2 & -> & -> & _)|(e1 & e2 & -> & -> & _)]; by eauto. }
  assert (∀ k, k ∈ dom (sheet_modified sf1 sf2) →
               k ∈ dom (sheet_identical sf1 sf2) → False) as HMI'.
  { intros k (e1 & e2 & H1 & H2 & Hne)%HM (e1' & e2' & H1' & H2' & Heq)%HI.
    congruence. }
  clear HM HI.
  assert (∀ k, (k ∈ dom sf1 ∧ k ∈ dom sf2) ↔
               k ∈ dom (sheet_modified sf1 sf2) ∨ k ∈ dom (sheet_identical sf1 sf2))
    as HMI2 by (intros k; by rewrite <- HMI, elem_of_intersection).
  clear HMI.
  split_and!; try (apply elem_of_disjoint; intros k);
    try (apply set_eq; intros k);
    rewrite ?elem_of_union, ?elem_of_intersection, ?elem_of_difference, ?HA, ?HR;
    pose proof (HMI2 k); pose proof (HMI' k);
    destruct (decide (k ∈ dom sf1)), (decide (k ∈ dom sf2)); tauto.
Qed.

(** ** The Sheet-Set Differ *)

Lemma compare_single_sheet_result (df1 df2 : DataFrame) :
  _compare_single_sheet df1 df2 = Some (sheet_result df1 df2).
Proof.
  unfold sheet_result.
  destruct (df_empty df1) eqn:H1, (df_empty df2) eqn:H2; simpl.
  - by apply compare_single_sheet_both_empty.
  - rewrite compare_single_sheet_one_empty by congruence. by rewrite H1, H2.
  - rewrite compare_single_sheet_one_empty by congruence. by rewrite H1, H2.
  - by apply compare_single_sheet_aligned.
Qed.

Lemma store_sheet_fold (parser1 parser2 : ExcelParser) (l : list string)
    (c : SheetsComparison) :
  let c' := foldl (store_sheet parser1 parser2) c l in
  added_sheets c' = added_sheets c ∧
  removed_sheets c' = removed_sheets c ∧
  common_sheets c' = common_sheets c ∧
  ∀ n, sheet_comparisons c' !! n
       = if decide (n ∈ l) then Some (common_sheet_result parser1 parser2 n)
         else sheet_comparisons c !! n.
Proof.
  revert c. induction l as [|x l IH]; intros c; cbn [foldl].
  - split_and!; [done..|]. intros n. by rewrite decide_False by set_solver.
  - destruct (IH (store_sheet parser1 parser2 c x)) as (-> & -> & -> & Hsc).
    split_and!; [done..|]. intros n. rewrite Hsc. cbn [store_sheet sheet_comparisons].
    destruct (decide (n = x)) as [->|Hne].
    + rewrite (decide_True (P := x ∈ x :: l)) by set_solver.
      rewrite lookup_insert_eq. by case_decide.
    + rewrite lookup_insert_ne by done. destruct (decide (n ∈ l)).
      * by rewrite decide_True by set_solver.
      * by rewrite decide_False by set_solver.
Qed.

(** The comparison of the sheets returns: the three lists are the
    elements of the differences and of the intersection of the two sets of
    names, and every common sheet, and no other name, has its comparison. *)
Lemma compare_sheets_spec (parser1 parser2 : ExcelParser) :
  let sheets1 : gset string := list_to_set (get_sheet_names parser1) in
  let sheets2 : gset string := list_to_set (get_sheet_names parser2) in
  ∃ cmp, _compare_sheets parser1 parser2 = Some cmp ∧
    added_sheets cmp = elements (sheets2 ∖ sheets1) ∧
    removed_sheets cmp = elements (sheets1 ∖ sheets2) ∧
    common_sheets cmp = elements (sheets1 ∩ sheets2) ∧
    sheet_comparisons cmp
    = list_to_map ((λ n, (n, common_sheet_result parser1 parser2 n))
                     <$> elements (sheets1 ∩ sheets2)).
Proof.
  intros sheets1 sheets2. unfold _compare_sheets. fold sheets1 sheets2.
  cbn [common_sheets].
  rewrite (for_each_total _ _ (store_sheet parser1 parser2)).
  2:{ intros x s _. unfold compare_common_sheet.
      by rewrite compare_single_sheet_result. }
  eexists. split; [done|].
  match goal with |- context [foldl _ ?c ?l] =>
    destruct (store_sheet_fold parser1 parser2 l c) as (-> & -> & -> & Hsc) end.
  split_and!; try done.
  apply map_eq. intros n. rewrite Hsc. cbn [sheet_comparisons].
  rewrite lookup_empty. symmetry. case_decide as Hn.
  - apply elem_of_list_to_map_1.
    + rewrite <- list_fmap_compose. simpl. rewrite list_fmap_id. apply NoDup_elements.
    + apply list_elem_of_fmap. by exists n.
  - apply not_elem_of_list_to_map.
    by rewrite <- list_fmap_compose, list_fmap_id.
Qed.

Lemma count_sheet_diffs_fold (l : list SheetComparison) (sheet_diffs : nat) :
  foldl count_sheet_diffs sheet_diffs l
  = sheet_diffs + sum_list_with sheet_contribution l.
Proof.
  revert sheet_diffs. induction l as [|sc l IH]; intros sheet_diffs; simpl; [lia|].
  rewrite IH. unfold count_sheet_diffs, sheet_contribution.
  destruct (sc_identical sc); simpl; lia.
Qed.

(** The sum over the values of a dict built from distinct keys. *)
Lemma sum_values_list_to_map (f : string → SheetComparison) (l : list string) :
  NoDup l →
  sum_list_with sheet_contribution
    (map_to_list (list_to_map ((λ n, (n, f n)) <$> l) : gmap string SheetComparison)).*2
  = sum_list_with (λ n, sheet_contribution (f n)) l.
Proof.
  intros Hl. rewrite map_to_list_to_map.
  - rewrite <- list_fmap_compose. clear Hl.
    induction l as [|x l IH]; [done|].
    rewrite fmap_cons. cbn [sum_list_with]. by rewrite IH.
  - by rewrite <- list_fmap_compose, list_fmap_id.
Qed.

(** ** The Comparison Orchestrator *)

Lemma compare_vba_code_total (vba1 vba2 : VBAData) :
  ∃ cmp, compare_vba_code vba1 vba2 = Some cmp ∧
         _compare_modules (vba_modules vba1) (vba_modules vba2) = Some (vc_modules cmp) ∧
         modules_added (vc_summary cmp) = length (added (vc_modules cmp)) ∧
         modules_removed (vc_summary cmp) = length (removed (vc_modules cmp)) ∧
         modules_modified (vc_summary cmp) = length (modified (vc_modules cmp)).
Proof.
  unfold compare_vba_code. rewrite compare_modules_lists. simpl. by eexists.
Qed.

(** The summary reads the four sub-results only. *)
Lemma generate_summary_ignores_summary (r : Results) (s : option Summary) :
  _generate_summary
    (ResultsOf {| r_workbook_properties := r_workbook_properties r;
                  r_sheets := r_sheets r; r_formulas := r_formulas r;
                  r_vba_code := r_vba_code r; r_summary := s |})
  = _generate_summary (ResultsOf r).
Proof. done. Qed.

(** With both parsers set, [compare_all] returns the five keys: the four
    sub-comparisons and the summary computed from them, and leaves them in
    [comparison_results]. *)
Lemma compare_all_loaded md5 zipfile_ZipFile (self : ComparisonEngine)
    (p1 p2 : ExcelParser) :
  parser1 self = Some p1 → parser2 self = Some p2 →
  ∃ r summary,
    compare_all md5 zipfile_ZipFile self
    = Some (ResultsOf r, {| parser1 := Some p1; parser2 := Some p2;
                            comparison_results := ResultsOf r |}) ∧
    r_workbook_properties r = _compare_workbook_properties p1 p2 ∧
    _compare_sheets p1 p2 = Some (r_sheets r) ∧
    _compare_formulas p1 p2 = Some (r_formulas r) ∧
    _compare_vba_code md5 zipfile_ZipFile p1 p2 = Some (r_vba_code r) ∧
    r_summary r = Some summary ∧
    _generate_summary (ResultsOf r) = Some summary.
Proof.
  intros H1 H2. unfold compare_all. rewrite H1, H2.
  destruct (compare_sheets_spec p1 p2) as (sheets & Hsheets & _).
  destruct (compare_formulas_addresses (get_formulas p1) (get_formulas p2))
    as (forms & Hforms & _).
  destruct (compare_vba_code_total
              (analyze_vba_from_file md5 zipfile_ZipFile (file_path p1))
              (analyze_vba_from_file md5 zipfile_ZipFile (file_path p2)))
    as (vba & Hvba & _).
  unfold _compare_formulas, _compare_vba_code.
  rewrite Hsheets, Hforms, Hvba. cbn [mbind option_bind comparison_results].
  match goal with |- context [_generate_summary ?x] =>
    destruct (_generate_summary x) as [summary|] eqn:Hsum; [|done] end.
  cbn [mbind option_bind parser1 parser2].
  eexists _, summary. split; [done|]. by split_and!.
Qed.

(** With a parser unset, [compare_all] returns the empty dict and leaves
    the engine as it was. *)
Lemma compare_all_unset md5 zipfile_ZipFile (self : ComparisonEngine) :
  parser1 self = None ∨ parser2 self = None →
  compare_all md5 zipfile_ZipFile self = Some (EmptyDict, self).
Proof.
  unfold compare_all. intros [H|H]; rewrite H; [done|].
  by destruct (parser1 self).
Qed.

Lemma generate_summary_spec (r : Results) :
  ∃ summary, _generate_summary (ResultsOf r) = Some summary ∧
    files_identical summary
    = bool_decide (length (added_sheets (r_sheets r)) = 0) &&
      bool_decide (length (removed_sheets (r_sheets r)) = 0) &&
      (bool_decide (total_added (fc_summary (r_formulas r)) = 0) &&
       bool_decide (total_removed (fc_summary (r_formulas r)) = 0) &&
       bool_decide (total_modified (fc_summary (r_formulas r)) = 0)) &&
      (bool_decide (modules_added (vc_summary (r_vba_code r)) = 0) &&
       bool_decide (modules_removed (vc_summary (r_vba_code r)) = 0) &&
       bool_decide (modules_modified (vc_summary (r_vba_code r)) = 0)) &&
      wp_identical (r_workbook_properties r) ∧
    dbt_sheets (differences_by_type summary)
    = length (added_sheets (r_sheets r)) + length (removed_sheets (r_sheets r)) +
      sum_list_with sheet_contribution
        (map_to_list (sheet_comparisons (r_sheets r))).*2 ∧
    dbt_formulas (differences_by_type summary)
    = total_added (fc_summary (r_formulas r)) +
      total_removed (fc_summary (r_formulas r)) +
      total_modified (fc_summary (r_formulas r)) ∧
    dbt_vba_code (differences_by_type summary)
    = modules_added (vc_summary (r_vba_code r)) +
      modules_removed (vc_summary (r_vba_code r)) +
      modules_modified (vc_summary (r_vba_code r)) ∧
    dbt_properties (differences_by_type summary)
    = size (wp_differences (r_workbook_properties r)) ∧
    total_differences summary
    = dbt_sheets (differences_by_type summary) +
      dbt_formulas (differences_by_type summary) +
      dbt_vba_code (differences_by_type summary).
Proof.
  eexists. split; [done|]. cbn -[sum_list_with].
  split_and!; try done. apply count_sheet_diffs_fold.
Qed.

(** C1: with both documents loaded, [compare_all] returns the results of
    the four sub-comparisons and a summary whose files_identical is true
    exactly when the sheet comparison has no added and no removed sheet,
    the formula totals total_added, total_removed and total_modified are 0,
    the macro totals modules_added, modules_removed and modules_modified
    are 0, and the properties comparison is identical. The comparisons of
    the common sheets are no part of the condition. *)
Theorem C1_files_identical md5 zipfile_ZipFile (self : ComparisonEngine)
    (p1 p2 : ExcelParser) :
  parser1 self = Some p1 → parser2 self = Some p2 →
  ∃ r summary self',
    compare_all md5 zipfile_ZipFile self = Some (ResultsOf r, self') ∧
    r_workbook_properties r = _compare_workbook_properties p1 p2 ∧
    _compare_sheets p1 p2 = Some (r_sheets r) ∧
    _compare_formulas p1 p2 = Some (r_formulas r) ∧
    _compare_vba_code md5 zipfile_ZipFile p1 p2 = Some (r_vba_code r) ∧
    r_summary r = Some summary ∧
    (files_identical summary = true ↔
       (added_sheets (r_sheets r) = [] ∧ removed_sheets (r_sheets r) = []) ∧
       (total_added (fc_summary (r_formulas r)) = 0 ∧
        total_removed (fc_summary (r_formulas r)) = 0 ∧
        total_modified (fc_summary (r_formulas r)) = 0) ∧
       (modules_added (vc_summary (r_vba_code r)) = 0 ∧
        modules_removed (vc_summary (r_vba_code r)) = 0 ∧
        modules_modified (vc_summary (r_vba_code r)) = 0) ∧
       wp_identical (r_workbook_properties r) = true).
Proof.
  intros H1 H2.
  destruct (compare_all_loaded md5 zipfile_ZipFile self p1 p2 H1 H2)
    as (r & summary & Hall & Hprops & Hsheets & Hforms & Hvba & Hsum & Hgen).
  exists r, summary. eexists. split; [exact Hall|]. split_and!; try done.
  destruct (generate_summary_spec r) as (summary' & Hgen' & Hid & _).
  rewrite Hgen in Hgen'. injection Hgen' as <-. rewrite Hid.
  rewrite !andb_true_iff, !bool_decide_eq_true, !length_zero_iff_nil. tauto.
Qed.

Lemma C1_witness :
  ∃ r summary self',
    compare_all example_md5 example_ZipFile example_engine
    = Some (ResultsOf r, self') ∧
    r_workbook_properties r
    = _compare_workbook_properties (example_parser "file1.xlsx")
                                   (example_parser "file2.xlsx") ∧
    _compare_sheets (example_parser "file1.xlsx") (example_parser "file2.xlsx")
    = Some (r_sheets r) ∧
    _compare_formulas (example_parser "file1.xlsx") (example_parser "file2.xlsx")
    = Some (r_formulas r) ∧
    _compare_vba_code example_md5 example_ZipFile
      (example_parser "file1.xlsx") (example_parser "file2.xlsx")
    = Some (r_vba_code r) ∧
    r_summary r = Some summary ∧
    (files_identical summary = true ↔
       (added_sheets (r_sheets r) = [] ∧ removed_sheets (r_sheets r) = []) ∧
       (total_added (fc_summary (r_formulas r)) = 0 ∧
        total_removed (fc_summary (r_formulas r)) = 0 ∧
        total_modified (fc_summary (r_formulas r)) = 0) ∧
       (modules_added (vc_summary (r_vba_code r)) = 0 ∧
        modules_removed (vc_summary (r_vba_code r)) = 0 ∧
        modules_modified (vc_summary (r_vba_code r)) = 0) ∧
       wp_identical (r_workbook_properties r) = true).
Proof.
  apply (C1_files_identical example_md5 example_ZipFile example_engine
           (example_parser "file1.xlsx") (example_parser "file2.xlsx"));
    vm_compute; reflexivity.
Defined.

(** Two workbooks that differ in one cell of a common sheet, and in
    nothing the summary tests, are reported identical, with one
    difference. *)
Lemma files_identical_despite_cell_difference :
  ∃ r summary self',
    compare_all example_md5 example_ZipFile example_engine
    = Some (ResultsOf r, self') ∧
    r_summary r = Some summary ∧
    sc_diff_locations <$> sheet_comparisons (r_sheets r) !! "Sheet1"
    = Some [{| row := 2; col := 2;
               file1_value := PInt 25; file2_value := PInt 26 |}] ∧
    files_identical summary = true ∧
    total_differences summary = 1.
Proof.
  destruct (compare_all example_md5 example_ZipFile example_engine)
    as [[[|r] self']|] eqn:E; try (by vm_compute in E).
  destruct (r_summary r) as [summary|] eqn:Es.
  - exists r, summary, self'. split; [done|]. split; [done|].
    revert Es. vm_compute in E. injection E as <- <-. vm_compute.
    intros [= <-]. by split_and!.
  - exfalso. revert Es. vm_compute in E. injection E as <- <-. by vm_compute.
Qed.



(** ** Invalid state *)

(** C7, as the code has it: with a parser unset (no [load_files] call has
    set it) [compare_all] returns the empty dict, not a dict of results,
    and leaves the engine as it was. *)
Theorem C7_unset_parser_gives_empty_dict md5 zipfile_ZipFile
    (self : ComparisonEngine) :
  parser1 self = None ∨ parser2 self = None →
  compare_all md5 zipfile_ZipFile self = Some (EmptyDict, self).
Proof. apply compare_all_unset. Qed.

Lemma C7_witness :
  compare_all example_md5 example_ZipFile ComparisonEngine_init
  = Some (EmptyDict, ComparisonEngine_init).
Proof.
  apply (C7_unset_parser_gives_empty_dict example_md5 example_ZipFile
           ComparisonEngine_init).
  left. reflexivity.
Defined.

(** C7, the claim as stated fails: after a [load_files] that returned
    False, neither document being loaded (both workbooks are None),
    [compare_all] returns a dict of results, whose summary says the files
    are identical. *)
Lemma C7_compare_all_after_failed_load :
  load_files example_load_workbook example_column_letter
             ComparisonEngine_init "missing1.xlsx" "missing2.xlsx"
  = (failed_engine, false) ∧
  (workbook <$> parser1 failed_engine) = Some None ∧
  (workbook <$> parser2 failed_engine) = Some None ∧
  ∃ r self',
    compare_all example_md5 example_ZipFile failed_engine
    = Some (ResultsOf r, self') ∧
    r_summary r
    = Some {| files_identical := true;
              total_differences := 0;
              differences_by_type :=
                {| dbt_sheets := 0; dbt_formulas := 0;
                   dbt_vba_code := 0; dbt_properties := 0 |};
              recommendations := [] |}.
Proof.
  split; [by vm_compute|]. split; [by vm_compute|]. split; [by vm_compute|].
  destruct (compare_all example_md5 example_ZipFile failed_engine)
    as [[[|r] self']|] eqn:E; try (by vm_compute in E).
  exists r, self'. split; [done|].
  vm_compute in E. injection E as <- <-. by vm_compute.
Qed.

(** ** Idempotence *)

(** [compare_all] reads the two parsers of the engine, not the results of
    an earlier call. *)
Lemma compare_all_reads_parsers md5 zipfile_ZipFile
    (self : ComparisonEngine) (results : ResultsDict) (p1 p2 : ExcelParser) :
  parser1 self = Some p1 → parser2 self = Some p2 →
  compare_all md5 zipfile_ZipFile
    {| parser1 := Some p1; parser2 := Some p2; comparison_results := results |}
  = compare_all md5 zipfile_ZipFile self.
Proof. intros H1 H2. unfold compare_all. simpl. by rewrite H1, H2. Qed.

(** C9: [compare_all] returns, and called again on the engine it left,
    the documents and the files being what they were, it returns the same
    dict and leaves the same engine. *)
Theorem C9_compare_all_twice md5 zipfile_ZipFile (self : ComparisonEngine) :
  ∃ results self',
    compare_all md5 zipfile_ZipFile self = Some (results, self') ∧
    compare_all md5 zipfile_ZipFile self' = Some (results, self').
Proof.
  destruct (parser1 self) as [p1|] eqn:H1; [destruct (parser2 self) as [p2|] eqn:H2|].
  - destruct (compare_all_loaded md5 zipfile_ZipFile self p1 p2 H1 H2)
      as (r & summary & Hall & _).
    eexists _, _. split; [exact Hall|].
    by rewrite (compare_all_reads_parsers md5 zipfile_ZipFile self _ p1 p2 H1 H2).
  - exists EmptyDict, self. split; apply compare_all_unset; by right.
  - exists EmptyDict, self. split; apply compare_all_unset; by left.
Qed.

(** * Further properties of the code *)

(** ** The Table Aligner: what the verdict means, and its symmetry *)

Lemma py_eq_refl (a : PyVal) : py_eq a a = true.
Proof. destruct a; simpl; try done; by apply bool_decide_eq_true. Qed.

Lemma py_eq_sym (a b : PyVal) : py_eq a b = py_eq b a.
Proof.
  destruct a, b; simpl; try done; apply bool_decide_ext; split; congruence.
Qed.

(** In this model of the values the cell test is the negation of [==]. *)
Lemma cell_differs_py_eq (a b : PyVal) : cell_differs a b = negb (py_eq a b).
Proof. rewrite cell_differs_spec. unfold py_ne. by destruct a, b. Qed.

Lemma cell_differs_sym (a b : PyVal) : cell_differs a b = cell_differs b a.
Proof. by rewrite !cell_differs_py_eq, py_eq_sym. Qed.

(** Outside the shape of a frame there is the missing value. *)
Lemma cell_at_outside (df : DataFrame) (r c : nat) :
  df_len df ≤ r ∨ df_ncols df ≤ c → cell_at df r c = PNone.
Proof.
  unfold cell_at, df_len. intros [Hr|Hc].
  - by rewrite lookup_ge_None_2.
  - destruct (df !! r) as [rw|] eqn:E; [|done]. simpl.
    apply df_ncols_ge in E. by rewrite lookup_ge_None_2 by lia.
Qed.

Lemma difference_at_nil (df1 df2 : DataFrame) (r c : nat) :
  difference_at df1 df2 r c = [] ↔
  py_eq (cell_at df1 r c) (cell_at df2 r c) = true.
Proof.
  unfold difference_at. rewrite cell_differs_py_eq.
  by destruct (py_eq _ _).
Qed.

Lemma bind_nil_iff {A B} (f : A → list B) (l : list A) :
  l ≫= f = [] ↔ ∀ x, x ∈ l → f x = [].
Proof.
  induction l as [|x l IH].
  - split; [by intros _ ? ?%elem_of_nil|done].
  - rewrite bind_cons, app_nil, IH. split.
    + intros [Hx Hl] y [->|Hy]%elem_of_cons; auto.
    + intros H. split; [apply H; by left|]. intros y Hy. apply H. by right.
Qed.

Lemma scanned_differences_nil (df1 df2 : DataFrame) :
  scanned_differences df1 df2 = [] ↔
  ∀ r c, py_eq (cell_at df1 r c) (cell_at df2 r c) = true.
Proof.
  unfold scanned_differences. rewrite bind_nil_iff. split.
  - intros H r c.
    destruct (decide (r < df_len df1 `max` df_len df2)) as [Hr|Hr];
      [destruct (decide (c < df_ncols df1 `max` df_ncols df2)) as [Hc|Hc]|].
    + specialize (H r (proj2 (elem_of_range _ _) Hr)).
      rewrite bind_nil_iff in H.
      by apply difference_at_nil, H, elem_of_range.
    + rewrite !cell_at_outside by lia. done.
    + rewrite !cell_at_outside by lia. done.
  - intros H r _. apply bind_nil_iff. intros c _. by apply difference_at_nil.
Qed.


Lemma difference_at_mirror (df1 df2 : DataFrame) (r c : nat) :
  difference_at df2 df1 r c = mirror_difference <$> difference_at df1 df2 r c.
Proof.
  unfold difference_at. rewrite (cell_differs_sym (cell_at df2 r c)).
  by destruct (cell_differs _ _).
Qed.

Lemma scanned_differences_mirror (df1 df2 : DataFrame) :
  scanned_differences df2 df1 = mirror_difference <$> scanned_differences df1 df2.
Proof.
  unfold scanned_differences.
  rewrite (Nat.max_comm (df_len df2)), (Nat.max_comm (df_ncols df2)).
  generalize (range (df_len df1 `max` df_len df2)) as rs.
  generalize (range (df_ncols df1 `max` df_ncols df2)) as cs.
  intros cs rs. induction rs as [|r rs IH]; [done|].
  rewrite !bind_cons, fmap_app, IH. f_equal. clear IH.
  induction cs as [|c cs IH]; [done|].
  by rewrite !bind_cons, fmap_app, IH, difference_at_mirror.
Qed.

(** X2: swapping the two frames gives the mirror image of the comparison:
    the same verdict and count, the same positions in the same order with
    the two values swapped, and the flags and the shapes swapped. *)
Theorem aligner_swap_is_mirror (df1 df2 : DataFrame) :
  ∃ sc, _compare_single_sheet df1 df2 = Some sc ∧
        _compare_single_sheet df2 df1 = Some (mirror_sheet sc).
Proof.
  exists (sheet_result df1 df2). split; [apply compare_single_sheet_result|].
  rewrite compare_single_sheet_result. f_equal. unfold sheet_result, mirror_sheet.
  destruct (df_empty df1) eqn:E1, (df_empty df2) eqn:E2; simpl; try done.
  by rewrite scanned_differences_mirror, length_fmap.
Qed.






(** ** The Sheet-Set Differ *)

(** Exactly the common sheets have a comparison, that of their two frames. *)
Lemma compare_sheets_lookup (parser1 parser2 : ExcelParser) :
  ∃ cmp, _compare_sheets parser1 parser2 = Some cmp ∧
    (∀ n, n ∈ common_sheets cmp ↔
          n ∈ get_sheet_names parser1 ∧ n ∈ get_sheet_names parser2) ∧
    (∀ n, sheet_comparisons cmp !! n
          = if decide (n ∈ common_sheets cmp)
            then _compare_single_sheet (get_sheet_data parser1 n)
                                       (get_sheet_data parser2 n)
            else None).
Proof.
  destruct (compare_sheets_spec parser1 parser2)
    as (cmp & Hcmp & _ & _ & Hc & Hsc).
  exists cmp. split; [done|]. rewrite Hc. split.
  - intros n. by rewrite elem_of_elements, elem_of_intersection, !elem_of_list_to_set.
  - intros n. rewrite Hsc. case_decide as Hn.
    + rewrite compare_single_sheet_result. apply elem_of_list_to_map_1.
      * rewrite <- list_fmap_compose, list_fmap_id. apply NoDup_elements.
      * apply list_elem_of_fmap. by exists n.
    + apply not_elem_of_list_to_map. by rewrite <- list_fmap_compose, list_fmap_id.
Qed.

(** X4: the comparison of the sheets returns; its three lists hold the
    names of document 2 only, of document 1 only and of both, each name
    once whatever its repetitions, and no name in two lists; and exactly
    the common sheets have a comparison, which is that of their two
    frames. *)
Theorem sheet_set_partition (parser1 parser2 : ExcelParser) :
  ∃ cmp, _compare_sheets parser1 parser2 = Some cmp ∧
    (∀ n, n ∈ added_sheets cmp ↔
          n ∈ get_sheet_names parser2 ∧ n ∉ get_sheet_names parser1) ∧
    (∀ n, n ∈ removed_sheets cmp ↔
          n ∈ get_sheet_names parser1 ∧ n ∉ get_sheet_names parser2) ∧
    (∀ n, n ∈ common_sheets cmp ↔
          n ∈ get_sheet_names parser1 ∧ n ∈ get_sheet_names parser2) ∧
    NoDup (added_sheets cmp ++ removed_sheets cmp ++ common_sheets cmp) ∧
    (∀ n, sheet_comparisons cmp !! n
          = if decide (n ∈ common_sheets cmp)
            then _compare_single_sheet (get_sheet_data parser1 n)
                                       (get_sheet_data parser2 n)
            else None).
Proof.
  destruct (compare_sheets_spec parser1 parser2)
    as (cmp & Hcmp & Ha & Hr & Hc & Hsc).
  exists cmp. split; [done|]. rewrite Ha, Hr, Hc.
  split_and!.
  - intros n. by rewrite elem_of_elements, elem_of_difference, !elem_of_list_to_set.
  - intros n. by rewrite elem_of_elements, elem_of_difference, !elem_of_list_to_set.
  - intros n. by rewrite elem_of_elements, elem_of_intersection, !elem_of_list_to_set.
  - rewrite !NoDup_app. split_and!; try apply NoDup_elements.
    + intros n. rewrite elem_of_app, !elem_of_elements. set_solver.
    + intros n. rewrite !elem_of_elements. set_solver.
  - intros n. rewrite Hsc. case_decide as Hn.
    + rewrite compare_single_sheet_result. apply elem_of_list_to_map_1.
      * rewrite <- list_fmap_compose, list_fmap_id. apply NoDup_elements.
      * apply list_elem_of_fmap. by exists n.
    + apply not_elem_of_list_to_map. by rewrite <- list_fmap_compose, list_fmap_id.
Qed.

(** ** The Formula Differ: entries, totals and symmetry *)

(** The entry a sheet-keyed dict holds for a sheet and an address. *)
Lemma formulas_of_lookup (formulas : gmap string (gmap string FormulaEntry))
    (n cell : string) :
  formulas_of formulas n !! cell = formulas !! n ≫= (.!! cell).
Proof. unfold formulas_of. by destruct (formulas !! n). Qed.

(** Under each of the four keys, what the comparison holds for a sheet is
    the dict of that sheet, unless it is empty. *)
Lemma compare_formulas_lookup
    (formulas1 formulas2 : gmap string (gmap string FormulaEntry)) :
  ∃ cmp, compare_formulas formulas1 formulas2 = Some cmp ∧
    (∀ n,
      let sf1 := formulas_of formulas1 n in
      let sf2 := formulas_of formulas2 n in
      added_formulas cmp !! n = nonempty (sheet_added sf1 sf2) ∧
      removed_formulas cmp !! n = nonempty (sheet_removed sf1 sf2) ∧
      modified_formulas cmp !! n = nonempty (sheet_modified sf1 sf2) ∧
      identical_formulas cmp !! n = nonempty (sheet_identical sf1 sf2)) ∧
    fc_summary cmp
    = {| total_added := sum_len (added_formulas cmp);
         total_removed := sum_len (removed_formulas cmp);
         total_modified := sum_len (modified_formulas cmp);
         total_identical := sum_len (identical_formulas cmp);
         total_formulas :=
           sum_len (added_formulas cmp) + sum_len (removed_formulas cmp) +
           sum_len (modified_formulas cmp) + sum_len (identical_formulas cmp) |}.
Proof.
  unfold compare_formulas.
  set (l := elements (dom formulas1 ∪ dom formulas2)).
  set (c0 := {| fd_added := ∅; fd_removed := ∅; fd_modified := ∅; fd_identical := ∅ |}).
  set (body := compare_sheet_formulas formulas1 formulas2).
  pose proof (λ c x, compare_sheet_formulas_spec formulas1 formulas2 c x) as Hbody.
  cbv zeta in Hbody. fold body in Hbody.
  destruct (store_loop body fd_added
              (λ n, nonempty (sheet_added (formulas_of formulas1 n)
                                          (formulas_of formulas2 n))) l
              (λ c x, ex_intro _ _ (conj (Hbody c x) eq_refl)) c0)
    as (c' & Hc' & Ha).
  destruct (store_loop body fd_removed
              (λ n, nonempty (sheet_removed (formulas_of formulas1 n)
                                            (formulas_of formulas2 n))) l
              (λ c x, ex_intro _ _ (conj (Hbody c x) eq_refl)) c0)
    as (c'' & Hc'' & Hr).
  rewrite Hc' in Hc''. injection Hc'' as <-.
  destruct (store_loop body fd_modified
              (λ n, nonempty (sheet_modified (formulas_of formulas1 n)
                                             (formulas_of formulas2 n))) l
              (λ c x, ex_intro _ _ (conj (Hbody c x) eq_refl)) c0)
    as (c'' & Hc'' & Hm).
  rewrite Hc' in Hc''. injection Hc'' as <-.
  destruct (store_loop body fd_identical
              (λ n, nonempty (sheet_identical (formulas_of formulas1 n)
                                              (formulas_of formulas2 n))) l
              (λ c x, ex_intro _ _ (conj (Hbody c x) eq_refl)) c0)
    as (c'' & Hc'' & Hi).
  rewrite Hc' in Hc''. injection Hc'' as <-.
  rewrite Hc'. cbn [mbind option_bind]. eexists. split; [done|]. split; [|done].
  intros n. cbn [added_formulas removed_formulas modified_formulas identical_formulas].
  rewrite Ha, Hr, Hm, Hi. subst c0. cbn [fd_added fd_removed fd_modified fd_identical].
  rewrite !lookup_empty.
  destruct (decide (n ∈ l)) as [Hn|Hn].
  - unfold written_over. split_and!; by destruct (nonempty _).
  - subst l. rewrite elem_of_elements, elem_of_union in Hn.
    rewrite !formulas_of_not_in_dom by tauto.
    unfold sheet_added, sheet_removed, sheet_modified, sheet_identical.
    rewrite !map_difference_diag. by split_and!.
Qed.

Lemma nonempty_Some {V} (d d' : gmap string V) :
  nonempty d = Some d' → d' = d ∧ d ≠ ∅.
Proof. unfold nonempty. case_decide; [done|]. by intros [= <-]. Qed.

Lemma nonempty_lookup {V} (d : gmap string V) (cell : string) :
  nonempty d ≫= (.!! cell) = d !! cell.
Proof.
  unfold nonempty. case_decide as H; [|done]. by rewrite H, lookup_empty.
Qed.

(** X5: what the four dicts of the formula comparison hold. An address
    that only side 2 has is under added with the entry of side 2; one that
    only side 1 has is under removed with the entry of side 1; one that
    both have is under modified with the two entries when the formula
    texts differ, and under identical with the entry of side 1 when they
    are equal. No sheet is a key of a dict that holds nothing for it. *)
Theorem formula_comparison_entries
    (formulas1 formulas2 : gmap string (gmap string FormulaEntry)) :
  ∃ cmp, compare_formulas formulas1 formulas2 = Some cmp ∧
    (∀ n cell,
      let o1 := formulas1 !! n ≫= (.!! cell) in
      let o2 := formulas2 !! n ≫= (.!! cell) in
      added_formulas cmp !! n ≫= (.!! cell)
      = match o1 with None => o2 | Some _ => None end ∧
      removed_formulas cmp !! n ≫= (.!! cell)
      = match o2 with None => o1 | Some _ => None end ∧
      modified_formulas cmp !! n ≫= (.!! cell)
      = (e1 ← o1; e2 ← o2;
         if py_ne (formula e1) (formula e2)
         then Some {| mf_file1 := e1; mf_file2 := e2 |} else None) ∧
      identical_formulas cmp !! n ≫= (.!! cell)
      = (e1 ← o1; e2 ← o2;
         if py_ne (formula e1) (formula e2) then None else Some e1)) ∧
    (∀ n, added_formulas cmp !! n ≠ Some ∅ ∧
          removed_formulas cmp !! n ≠ Some ∅ ∧
          modified_formulas cmp !! n ≠ Some ∅ ∧
          identical_formulas cmp !! n ≠ Some ∅).
Proof.
  destruct (compare_formulas_lookup formulas1 formulas2) as (cmp & Hcmp & Hl & _).
  exists cmp. split; [done|]. split.
  - intros n cell. destruct (Hl n) as (-> & -> & -> & ->). cbv zeta.
    rewrite !nonempty_lookup, <- !formulas_of_lookup.
    unfold sheet_added, sheet_removed, sheet_modified, sheet_identical.
    rewrite !lookup_difference, !lookup_merge.
    unfold modified_of, identical_of.
    by destruct (formulas_of formulas1 n !! cell), (formulas_of formulas2 n !! cell).
  - intros n. destruct (Hl n) as (-> & -> & -> & ->).
    split_and!; intros [E H]%nonempty_Some; by apply H.
Qed.

Lemma sum_list_with_ext {A} (f g : A → nat) (l : list A) :
  (∀ x, x ∈ l → f x = g x) → sum_list_with f l = sum_list_with g l.
Proof.
  induction l as [|x l IH]; intros H; [done|]. cbn [sum_list_with].
  rewrite H by (by left). rewrite IH; [done|]. intros y Hy. apply H. by right.
Qed.

Lemma sum_list_with_plus {A} (f g : A → nat) (l : list A) :
  sum_list_with (λ x, f x + g x) l = sum_list_with f l + sum_list_with g l.
Proof. induction l as [|x l IH]; [done|]. cbn [sum_list_with]. lia. Qed.

(** The number of formulas of a sheet-keyed dict, summed over a list of
    distinct names that covers its keys. *)
Lemma sum_len_as_sum {V} (m : gmap string (gmap string V)) (l : list string) :
  NoDup l → (∀ n, n ∉ l → m !! n = None) →
  sum_len m = sum_list_with (λ n, size (default ∅ (m !! n))) l.
Proof.
  unfold sum_len. intros Hl. revert m.
  induction Hl as [|x l Hx Hl IH]; intros m Hm.
  - assert (m = ∅) as -> by (apply map_empty; intros n; apply Hm, not_elem_of_nil).
    by rewrite map_to_list_empty.
  - cbn [sum_list_with].
    assert (sum_list_with (λ n, size (default ∅ (m !! n))) l
            = sum_list_with (λ n, size (default ∅ (delete x m !! n))) l) as ->.
    { apply sum_list_with_ext. intros n Hn.
      rewrite lookup_delete_ne; [done|]. intros <-. done. }
    rewrite <- (IH (delete x m)).
    + destruct (m !! x) as [d|] eqn:E.
      * rewrite <- (map_to_list_delete m x d E). done.
      * rewrite delete_id by done. simpl. by rewrite map_size_empty.
    + intros n Hn. destruct (decide (n = x)) as [->|Hne].
      * by rewrite lookup_delete_eq.
      * rewrite lookup_delete_ne by done. apply Hm. set_solver.
Qed.

Lemma py_ne_sym (a b : PyVal) : py_ne a b = py_ne b a.
Proof. unfold py_ne. by rewrite py_eq_sym. Qed.

Lemma py_ne_refl (a : PyVal) : py_ne a a = false.
Proof. unfold py_ne. by rewrite py_eq_refl. Qed.

(** Of the formulas of one side of a sheet, each is removed (or added),
    modified or identical. *)
Lemma sheet_sizes (sf1 sf2 : gmap string FormulaEntry) :
  size (sheet_removed sf1 sf2) + size (sheet_modified sf1 sf2)
    + size (sheet_identical sf1 sf2) = size sf1 ∧
  size (sheet_added sf1 sf2) + size (sheet_modified sf1 sf2)
    + size (sheet_identical sf1 sf2) = size sf2.
Proof.
  rewrite <- !(size_dom (D := gset string)).
  pose proof (elem_of_dom_sheet_added sf1 sf2) as HA.
  pose proof (elem_of_dom_sheet_removed sf1 sf2) as HR.
  pose proof (elem_of_dom_sheet_modified sf1 sf2) as HM.
  pose proof (elem_of_dom_sheet_identical sf1 sf2) as HI.
  assert (∀ k, (k ∈ dom sf1 ∧ k ∈ dom sf2) ↔
               k ∈ dom (sheet_modified sf1 sf2) ∨ k ∈ dom (sheet_identical sf1 sf2))
    as HMI.
  { intros k. rewrite HM, HI, !elem_of_dom. split.
    - intros [[e1 H1] [e2 H2]].
      destruct (py_ne (formula e1) (formula e2)) eqn:E; [left|right]; by eauto 6.
    - intros [(e1 & e2 & -> & -> & _)|(e1 & e2 & -> & -> & _)]; by eauto. }
  assert (∀ k, k ∈ dom (sheet_modified sf1 sf2) →
               k ∈ dom (sheet_identical sf1 sf2) → False) as HMI'.
  { intros k (e1 & e2 & H1 & H2 & Hne)%HM (e1' & e2' & H1' & H2' & Heq)%HI.
    congruence. }
  clear HM HI.
  assert (dom (sheet_modified sf1 sf2) ## dom (sheet_identical sf1 sf2)) as Hd1
    by (apply elem_of_disjoint; exact HMI').
  assert (dom (sheet_removed sf1 sf2)
            ## dom (sheet_modified sf1 sf2) ∪ dom (sheet_identical sf1 sf2)) as Hd2.
  { apply elem_of_disjoint. intros k Hk [Hk'|Hk']%elem_of_union;
      apply HR in Hk; pose proof (HMI k); tauto. }
  assert (dom (sheet_added sf1 sf2)
            ## dom (sheet_modified sf1 sf2) ∪ dom (sheet_identical sf1 sf2)) as Hd3.
  { apply elem_of_disjoint. intros k Hk [Hk'|Hk']%elem_of_union;
      apply HA in Hk; pose proof (HMI k); tauto. }
  rewrite <- !Nat.add_assoc, <- !size_union by done.
  split; f_equal; apply set_eq; intros k;
    rewrite !elem_of_union, ?HA, ?HR; pose proof (HMI k); pose proof (HMI' k);
    destruct (decide (k ∈ dom sf1)), (decide (k ∈ dom sf2)); tauto.
Qed.

(** The totals of the formula comparison, as sums over the sheets of
    either side. *)
Lemma formula_totals_as_sums
    (formulas1 formulas2 : gmap string (gmap string FormulaEntry)) :
  let l := elements (dom formulas1 ∪ dom formulas2) in
  let sf1 n := formulas_of formulas1 n in
  let sf2 n := formulas_of formulas2 n in
  ∃ cmp, compare_formulas formulas1 formulas2 = Some cmp ∧
    total_added (fc_summary cmp)
    = sum_list_with (λ n, size (sheet_added (sf1 n) (sf2 n))) l ∧
    total_removed (fc_summary cmp)
    = sum_list_with (λ n, size (sheet_removed (sf1 n) (sf2 n))) l ∧
    total_modified (fc_summary cmp)
    = sum_list_with (λ n, size (sheet_modified (sf1 n) (sf2 n))) l ∧
    total_identical (fc_summary cmp)
    = sum_list_with (λ n, size (sheet_identical (sf1 n) (sf2 n))) l ∧
    total_formulas (fc_summary cmp)
    = total_added (fc_summary cmp) + total_removed (fc_summary cmp) +
      total_modified (fc_summary cmp) + total_identical (fc_summary cmp).
Proof.
  intros l sf1 sf2.
  destruct (compare_formulas_lookup formulas1 formulas2) as (cmp & Hcmp & Hl & Hs).
  exists cmp. split; [done|]. rewrite Hs. cbn [total_added total_removed
    total_modified total_identical total_formulas].
  assert (NoDup l) as Hnd by apply NoDup_elements.
  assert (∀ n, n ∉ l → sf1 n = ∅ ∧ sf2 n = ∅) as Hout.
  { intros n Hn. subst l sf1 sf2. rewrite elem_of_elements, elem_of_union in Hn.
    split; apply formulas_of_not_in_dom; tauto. }
  split_and!; [..|done].
  - rewrite (sum_len_as_sum _ l Hnd).
    + apply sum_list_with_ext. intros n _. destruct (Hl n) as (-> & _).
      by rewrite default_nonempty.
    + intros n [E1 E2]%Hout. destruct (Hl n) as (-> & _). fold (sf1 n) (sf2 n).
      rewrite E1, E2. unfold sheet_added. by rewrite map_difference_diag.
  - rewrite (sum_len_as_sum _ l Hnd).
    + apply sum_list_with_ext. intros n _. destruct (Hl n) as (_ & -> & _).
      by rewrite default_nonempty.
    + intros n [E1 E2]%Hout. destruct (Hl n) as (_ & -> & _). fold (sf1 n) (sf2 n).
      rewrite E1, E2. unfold sheet_removed. by rewrite map_difference_diag.
  - rewrite (sum_len_as_sum _ l Hnd).
    + apply sum_list_with_ext. intros n _. destruct (Hl n) as (_ & _ & -> & _).
      by rewrite default_nonempty.
    + intros n [E1 E2]%Hout. destruct (Hl n) as (_ & _ & -> & _). fold (sf1 n) (sf2 n).
      by rewrite E1, E2.
  - rewrite (sum_len_as_sum _ l Hnd).
    + apply sum_list_with_ext. intros n _. destruct (Hl n) as (_ & _ & _ & ->).
      by rewrite default_nonempty.
    + intros n [E1 E2]%Hout. destruct (Hl n) as (_ & _ & _ & ->). fold (sf1 n) (sf2 n).
      by rewrite E1, E2.
Qed.

(** X6: the totals of the formula comparison count every formula once:
    the removed, modified and identical formulas are as many as the
    formulas of side 1, the added, modified and identical ones as many as
    those of side 2, and total_formulas is the sum of the four totals. *)
Theorem formula_totals_conservation
    (formulas1 formulas2 : gmap string (gmap string FormulaEntry)) :
  ∃ cmp, compare_formulas formulas1 formulas2 = Some cmp ∧
    total_removed (fc_summary cmp) + total_modified (fc_summary cmp)
      + total_identical (fc_summary cmp) = sum_len formulas1 ∧
    total_added (fc_summary cmp) + total_modified (fc_summary cmp)
      + total_identical (fc_summary cmp) = sum_len formulas2 ∧
    total_formulas (fc_summary cmp)
    = total_added (fc_summary cmp) + total_removed (fc_summary cmp) +
      total_modified (fc_summary cmp) + total_identical (fc_summary cmp).
Proof.
  destruct (formula_totals_as_sums formulas1 formulas2)
    as (cmp & Hcmp & Ha & Hr & Hm & Hi & Ht).
  exists cmp. split; [done|]. rewrite Ht, Ha, Hr, Hm, Hi. clear Ht Ha Hr Hm Hi.
  set (l := elements (dom formulas1 ∪ dom formulas2)).
  assert (NoDup l) as Hnd by apply NoDup_elements.
  split_and!.
  - rewrite <- !sum_list_with_plus, (sum_len_as_sum formulas1 l Hnd).
    + apply sum_list_with_ext. intros n _. apply sheet_sizes.
    + intros n Hn. apply not_elem_of_dom. subst l.
      rewrite elem_of_elements, elem_of_union in Hn. tauto.
  - rewrite <- !sum_list_with_plus, (sum_len_as_sum formulas2 l Hnd).
    + apply sum_list_with_ext. intros n _. apply sheet_sizes.
    + intros n Hn. apply not_elem_of_dom. subst l.
      rewrite elem_of_elements, elem_of_union in Hn. tauto.
  - done.
Qed.

Lemma sheet_modified_mirror (sf1 sf2 : gmap string FormulaEntry) :
  sheet_modified sf2 sf1 = mirror_modified <$> sheet_modified sf1 sf2.
Proof.
  apply map_eq. intros k. unfold sheet_modified.
  rewrite lookup_fmap, !lookup_merge. unfold modified_of.
  destruct (sf1 !! k) as [e1|], (sf2 !! k) as [e2|]; simpl; try done.
  rewrite (py_ne_sym (formula e2)). by destruct (py_ne _ _).
Qed.

Lemma dom_sheet_identical_mirror (sf1 sf2 : gmap string FormulaEntry) :
  dom (sheet_identical sf2 sf1) = dom (sheet_identical sf1 sf2).
Proof.
  apply set_eq. intros k. rewrite !elem_of_dom_sheet_identical. split.
  - intros (e2 & e1 & ? & ? & H). exists e1, e2. by rewrite py_ne_sym.
  - intros (e1 & e2 & ? & ? & H). exists e2, e1. by rewrite py_ne_sym.
Qed.

Lemma nonempty_fmap {A B} (f : A → B) (d : gmap string A) :
  nonempty (f <$> d) = fmap (M := gmap string) f <$> nonempty d.
Proof.
  unfold nonempty. destruct (decide (d = ∅)) as [->|H].
  - by rewrite fmap_empty, decide_True.
  - rewrite decide_False; [done|]. by rewrite fmap_empty_iff.
Qed.

(** X7: swapping the two sides of the formula comparison swaps added and
    removed, swaps the two entries of every modified formula, keeps the
    addresses of the identical formulas, and so swaps total_added and
    total_removed and keeps total_modified and total_identical. *)
Theorem formula_comparison_mirror
    (formulas1 formulas2 : gmap string (gmap string FormulaEntry)) :
  ∃ cmp cmp',
    compare_formulas formulas1 formulas2 = Some cmp ∧
    compare_formulas formulas2 formulas1 = Some cmp' ∧
    added_formulas cmp' = removed_formulas cmp ∧
    removed_formulas cmp' = added_formulas cmp ∧
    modified_formulas cmp'
    = fmap (M := gmap string) mirror_modified <$> modified_formulas cmp ∧
    (∀ n, addresses (identical_formulas cmp') n
          = addresses (identical_formulas cmp) n) ∧
    total_added (fc_summary cmp') = total_removed (fc_summary cmp) ∧
    total_removed (fc_summary cmp') = total_added (fc_summary cmp) ∧
    total_modified (fc_summary cmp') = total_modified (fc_summary cmp) ∧
    total_identical (fc_summary cmp') = total_identical (fc_summary cmp).
Proof.
  destruct (compare_formulas_lookup formulas1 formulas2) as (cmp & Hcmp & Hl & _).
  destruct (compare_formulas_lookup formulas2 formulas1) as (cmp' & Hcmp' & Hl' & _).
  destruct (formula_totals_as_sums formulas1 formulas2)
    as (c & Hc & Ha & Hr & Hm & Hi & _).
  rewrite Hcmp in Hc. injection Hc as <-.
  destruct (formula_totals_as_sums formulas2 formulas1)
    as (c & Hc & Ha' & Hr' & Hm' & Hi' & _).
  rewrite Hcmp' in Hc. injection Hc as <-.
  exists cmp, cmp'. split; [done|]. split; [done|].
  rewrite Ha, Hr, Hm, Hi, Ha', Hr', Hm', Hi'.
  rewrite (union_comm_L (dom formulas2) (dom formulas1)).
  split_and!.
  - apply map_eq. intros n. destruct (Hl n) as (_ & -> & _).
    by destruct (Hl' n) as (-> & _).
  - apply map_eq. intros n. destruct (Hl n) as (-> & _).
    by destruct (Hl' n) as (_ & -> & _).
  - apply map_eq. intros n. rewrite lookup_fmap.
    destruct (Hl n) as (_ & _ & -> & _). destruct (Hl' n) as (_ & _ & -> & _).
    by rewrite sheet_modified_mirror, nonempty_fmap.
  - intros n. unfold addresses.
    destruct (Hl n) as (_ & _ & _ & ->). destruct (Hl' n) as (_ & _ & _ & ->).
    rewrite !default_nonempty. apply dom_sheet_identical_mirror.
  - done.
  - done.
  - apply sum_list_with_ext. intros n _.
    by rewrite sheet_modified_mirror, map_size_fmap.
  - apply sum_list_with_ext. intros n _.
    by rewrite <- !(size_dom (D := gset string)), dom_sheet_identical_mirror.
Qed.

(** ** The Macro Differ: symmetry, and what the extraction stores *)

Lemma same_hash_sym (modules1 modules2 : gmap string VBAModule) (k : string) :
  same_hash modules2 modules1 k = same_hash modules1 modules2 k.
Proof. unfold same_hash. apply bool_decide_ext. split; congruence. Qed.

(** X8: swapping the two sides of the module comparison swaps the added
    and the removed names and keeps the modified and the unchanged ones. *)
Theorem module_comparison_mirror (modules1 modules2 : gmap string VBAModule) :
  ∃ cl cl', _compare_modules modules1 modules2 = Some cl ∧
            _compare_modules modules2 modules1 = Some cl' ∧
            added cl' = removed cl ∧ removed cl' = added cl ∧
            modified cl' = modified cl ∧ unchanged cl' = unchanged cl.
Proof.
  eexists _, _. split; [apply compare_modules_lists|].
  split; [apply compare_modules_lists|]. simpl.
  assert (dom modules2 ∩ dom modules1 = dom modules1 ∩ dom modules2) as ->
    by (apply set_eq; intros k; rewrite !elem_of_intersection; tauto).
  split_and!; try done; apply list_filter_iff; intros k;
    by rewrite same_hash_sym.
Qed.

(** The loop of the extraction over the names of an archive: what it
    stores, where, and that a later member replaces an earlier one of the
    same module name. *)
Lemma extract_module_lookup md5 (zip_file : ZipFile)
    (modules : gmap string VBAModule) (file_name k : string) :
  extract_module md5 zip_file modules file_name !! k
  = if decide (is_module_file file_name = true ∧
               is_Some (zip_read zip_file file_name) ∧
               module_name_of file_name = k)
    then module_entry md5 <$> zip_read zip_file file_name
    else modules !! k.
Proof.
  unfold extract_module. fold (is_module_file file_name).
  fold (module_name_of file_name).
  case_decide as Hd.
  - destruct Hd as (Hm & [data Hr] & Hk). rewrite Hm, Hr. simpl. subst k.
    by rewrite lookup_insert_eq.
  - destruct (is_module_file file_name) eqn:Hm; [|done]. simpl.
    destruct (zip_read zip_file file_name) as [data|] eqn:Hr; [|done].
    rewrite lookup_insert_ne; [done|]. intros Hk. apply Hd. by eauto.
Qed.

Lemma extract_fold_sound md5 (zip_file : ZipFile) (names : list string)
    (modules : gmap string VBAModule) (k : string) (m : VBAModule) :
  foldl (extract_module md5 zip_file) modules names !! k = Some m →
  modules !! k = Some m ∨
  ∃ file_name data,
    file_name ∈ names ∧ is_module_file file_name = true ∧
    zip_read zip_file file_name = Some data ∧
    module_name_of file_name = k ∧ m = module_entry md5 data.
Proof.
  revert modules. induction names as [|fn names IH]; intros modules; simpl.
  - by left.
  - intros [H|(file_name & data & Hin & ?)]%IH.
    + rewrite extract_module_lookup in H. case_decide as Hd; [|by left].
      destruct Hd as (Hmod & [data Hread] & Hname).
      rewrite Hread in H. injection H as <-.
      right. exists fn, data. split_and!; try done. by left.
    + right. exists file_name, data. split; [by right|done].
Qed.

Lemma extract_fold_last md5 (zip_file : ZipFile) (names : list string)
    (modules : gmap string VBAModule) (k : string) :
  (∀ file_name, file_name ∈ names →
     ¬ (is_module_file file_name = true ∧
        is_Some (zip_read zip_file file_name) ∧
        module_name_of file_name = k)) →
  foldl (extract_module md5 zip_file) modules names !! k = modules !! k.
Proof.
  revert modules. induction names as [|fn names IH]; intros modules Hnone; [done|].
  simpl. rewrite IH by (intros; apply Hnone; by right).
  rewrite extract_module_lookup. rewrite decide_False; [done|].
  apply Hnone. by left.
Qed.

Lemma analyzed_module_size md5 zipfile_ZipFile (path k : string) (m : VBAModule) :
  vba_modules (analyze_vba_from_file md5 zipfile_ZipFile path) !! k = Some m →
  m_size m = length (m_data m) ∧ m_hash m = md5 (m_data m).
Proof.
  unfold analyze_vba_from_file.
  destruct (zipfile_ZipFile path) as [zip_file|]; simpl; [|by rewrite lookup_empty].
  intros [H|(fn & data & _ & _ & _ & _ & ->)]%extract_fold_sound; [|done].
  by rewrite lookup_empty in H.
Qed.

(** X9: what [analyze_vba_from_file] returns. For a path that does not
    open as an archive it is the empty dict. Otherwise a module is stored
    only under the name made from a member that passes the name test and
    could be read, with the bytes read, their digest and their length;
    every such member has its name stored; of several members of one
    module name the last one in the archive is the one stored; and has_vba
    tells whether the name of some member contains 'vbaProject.bin'. *)
Theorem analyzed_modules md5 zipfile_ZipFile (path : string) :
  match zipfile_ZipFile path with
  | None => analyze_vba_from_file md5 zipfile_ZipFile path = VBAEmptyDict
  | Some zip_file =>
      ∃ modules has_vba,
        analyze_vba_from_file md5 zipfile_ZipFile path = VBADict modules has_vba ∧
        (∀ k m, modules !! k = Some m →
           m_hash m = md5 (m_data m) ∧ m_size m = length (m_data m) ∧
           ∃ file_name,
             file_name ∈ namelist zip_file ∧ is_module_file file_name = true ∧
             zip_read zip_file file_name = Some (m_data m) ∧
             module_name_of file_name = k) ∧
        (∀ file_name data,
           file_name ∈ namelist zip_file → is_module_file file_name = true →
           zip_read zip_file file_name = Some data →
           is_Some (modules !! module_name_of file_name)) ∧
        (∀ before file_name after data,
           namelist zip_file = before ++ file_name :: after →
           is_module_file file_name = true →
           zip_read zip_file file_name = Some data →
           (∀ later, later ∈ after →
              ¬ (is_module_file later = true ∧ is_Some (zip_read zip_file later) ∧
                 module_name_of later = module_name_of file_name)) →
           modules !! module_name_of file_name = Some (module_entry md5 data)) ∧
        (has_vba = true ↔
         ∃ file_name, file_name ∈ namelist zip_file ∧
                      str_contains "vbaProject.bin" file_name = true)
  end.
Proof.
  unfold analyze_vba_from_file.
  destruct (zipfile_ZipFile path) as [zip_file|]; [|done].
  unfold _extract_vba_components. eexists _, _. split; [done|].
  assert (∀ before file_name after data,
           namelist zip_file = before ++ file_name :: after →
           is_module_file file_name = true →
           zip_read zip_file file_name = Some data →
           (∀ later, later ∈ after →
              ¬ (is_module_file later = true ∧ is_Some (zip_read zip_file later) ∧
                 module_name_of later = module_name_of file_name)) →
           foldl (extract_module md5 zip_file) ∅ (namelist zip_file)
             !! module_name_of file_name = Some (module_entry md5 data)) as Hlast.
  { intros before fn after data -> Hmod Hread Hlater.
    rewrite foldl_app. simpl. rewrite extract_fold_last by done.
    rewrite extract_module_lookup, decide_True by eauto. by rewrite Hread. }
  split_and!.
  - intros k m [H|(fn & data & Hin & Hmod & Hread & Hname & ->)]%extract_fold_sound.
    + by rewrite lookup_empty in H.
    + split_and!; try done. by exists fn.
  - intros fn data Hin Hmod Hread.
    destruct (list_elem_of_split_r _ _ Hin) as (l1 & l2 & Hsplit & Hnotin).
    assert (∃ fn' data' l1' l2',
              namelist zip_file = l1' ++ fn' :: l2' ∧
              is_module_file fn' = true ∧ zip_read zip_file fn' = Some data' ∧
              module_name_of fn' = module_name_of fn ∧
              ∀ later, later ∈ l2' →
                ¬ (is_module_file later = true ∧ is_Some (zip_read zip_file later) ∧
                   module_name_of later = module_name_of fn')) as Hex.
    { clear Hlast Hnotin Hin. revert l1 Hsplit.
      generalize (namelist zip_file) as names. revert fn data Hmod Hread.
      induction l2 as [|x l2 IH] using rev_ind; intros fn data Hmod Hread names l1 ->.
      - exists fn, data, l1, []. split_and!; try done. by intros ? ?%elem_of_nil.
      - destruct (decide (is_module_file x = true ∧ is_Some (zip_read zip_file x) ∧
                          module_name_of x = module_name_of fn))
          as [(Hx & [dx Hdx] & Hnx)|Hno].
        + exists x, dx, (l1 ++ fn :: l2), []. split_and!; try done.
          * by rewrite <- app_assoc.
          * by intros ? ?%elem_of_nil.
        + destruct (IH fn data Hmod Hread (l1 ++ fn :: l2) l1 eq_refl)
            as (fn' & data' & l1' & l2' & Heq & Hm' & Hr' & Hn' & Hl').
          exists fn', data', l1', (l2' ++ [x]). split_and!; try done.
          * replace (l1 ++ fn :: l2 ++ [x]) with ((l1 ++ fn :: l2) ++ [x])
              by (by rewrite <- app_assoc).
            rewrite Heq. by rewrite <- app_assoc.
          * intros later [Hl|Hl]%elem_of_app; [by apply Hl'|].
            apply list_elem_of_singleton in Hl as ->. by rewrite Hn'. }
    destruct Hex as (fn' & data' & l1' & l2' & Heq & Hm' & Hr' & Hn' & Hl').
    rewrite <- Hn'. rewrite (Hlast l1' fn' l2' data'); by eauto.
  - exact Hlast.
  - rewrite bool_decide_eq_true. split.
    + intros Hne. destruct (filter _ _) as [|fn l] eqn:E; [done|].
      assert (fn ∈ filter (λ f, str_contains "vbaProject.bin" f = true)
                          (namelist zip_file)) as Hfn by (rewrite E; by left).
      apply list_elem_of_filter in Hfn as [? ?]. by exists fn.
    + intros (fn & Hin & Hc) E.
      assert (fn ∈ filter (λ f, str_contains "vbaProject.bin" f = true)
                          (namelist zip_file)) as Hfn
        by (by apply list_elem_of_filter).
      rewrite E in Hfn. by apply elem_of_nil in Hfn.
Qed.

(** X10: the member of a macro workbook that holds its VBA project,
    'xl/vbaProject.bin', does not pass the name test of the extraction: an
    archive none of whose members passes it yields no module, and the
    comparison of two such archives reports no added, removed, modified or
    unchanged module, whatever their bytes. *)
Theorem no_module_file_no_module md5 (zip_file1 zip_file2 : ZipFile) :
  (∀ file_name, file_name ∈ namelist zip_file1 → is_module_file file_name = false) →
  (∀ file_name, file_name ∈ namelist zip_file2 → is_module_file file_name = false) →
  is_module_file "xl/vbaProject.bin" = false ∧
  vba_modules (_extract_vba_components md5 zip_file1) = ∅ ∧
  ∃ cmp, compare_vba_code (_extract_vba_components md5 zip_file1)
                          (_extract_vba_components md5 zip_file2) = Some cmp ∧
         vc_modules cmp = no_changes ∧
         modules_added (vc_summary cmp) = 0 ∧
         modules_removed (vc_summary cmp) = 0 ∧
         modules_modified (vc_summary cmp) = 0.
Proof.
  intros H1 H2. split; [done|].
  assert (∀ zf, (∀ fn, fn ∈ namelist zf → is_module_file fn = false) →
                vba_modules (_extract_vba_components md5 zf) = ∅) as Hempty.
  { intros zf Hzf. simpl. apply map_eq. intros k.
    rewrite extract_fold_last; [done|].
    intros fn Hfn (Hm & _). rewrite (Hzf fn Hfn) in Hm. done. }
  split; [by apply Hempty|].
  unfold compare_vba_code. rewrite compare_modules_lists.
  rewrite !Hempty by done. eexists. split; [done|]. by vm_compute.
Qed.

Lemma no_module_file_no_module_witness :
  is_module_file "xl/vbaProject.bin" = false ∧
  vba_modules (_extract_vba_components example_md5
                 {| namelist := ["xl/workbook.xml"; "xl/vbaProject.bin"];
                    zip_read := λ _, Some [] |}) = ∅ ∧
  ∃ cmp, compare_vba_code
           (_extract_vba_components example_md5
              {| namelist := ["xl/workbook.xml"; "xl/vbaProject.bin"];
                 zip_read := λ _, Some [] |})
           (_extract_vba_components example_md5
              {| namelist := ["xl/vbaProject.bin"];
                 zip_read := λ _, Some [Byte.x01] |}) = Some cmp ∧
         vc_modules cmp = no_changes ∧
         modules_added (vc_summary cmp) = 0 ∧
         modules_removed (vc_summary cmp) = 0 ∧
         modules_modified (vc_summary cmp) = 0.
Proof.
  apply (no_module_file_no_module example_md5
           {| namelist := ["xl/workbook.xml"; "xl/vbaProject.bin"];
              zip_read := λ _, Some [] |}
           {| namelist := ["xl/vbaProject.bin"];
              zip_read := λ _, Some [Byte.x01] |}).
  - simpl. intros fn Hfn. repeat (apply elem_of_cons in Hfn as [->|Hfn]; [reflexivity|]).
    by apply elem_of_nil in Hfn.
  - simpl. intros fn Hfn. repeat (apply elem_of_cons in Hfn as [->|Hfn]; [reflexivity|]).
    by apply elem_of_nil in Hfn.
Defined.

(** ** The summary *)

(** The list of recommendations, read off the three appends. *)
Lemma generate_summary_recommendations (r : Results) (s : Summary) :
  _generate_summary (ResultsOf r) = Some s →
  recommendations s
  = recommend (dbt_vba_code (differences_by_type s)) "Verify VBA code modifications"
      (recommend (dbt_formulas (differences_by_type s))
                 "Check formula changes for accuracy"
         (recommend (dbt_sheets (differences_by_type s))
                    "Review sheet structure differences" [])).
Proof. by intros [= <-]. Qed.

(** X11: the recommendations are, in this order, the hint of the sheets,
    of the formulas and of the VBA code, each present exactly when its
    counter is positive; the properties counter gives no hint; and there is
    no recommendation exactly when total_differences is 0. *)
Theorem recommendations_follow_counters (r : Results) :
  ∃ s, _generate_summary (ResultsOf r) = Some s ∧
    recommendations s
    = (if bool_decide (0 < dbt_sheets (differences_by_type s))
       then ["Review sheet structure differences"] else []) ++
      (if bool_decide (0 < dbt_formulas (differences_by_type s))
       then ["Check formula changes for accuracy"] else []) ++
      (if bool_decide (0 < dbt_vba_code (differences_by_type s))
       then ["Verify VBA code modifications"] else []) ∧
    (recommendations s = [] ↔ total_differences s = 0).
Proof.
  eexists. split; [done|].
  cbn [recommendations differences_by_type dbt_sheets dbt_formulas dbt_vba_code
       total_differences].
  generalize (foldl count_sheet_diffs
                (length (added_sheets (r_sheets r)) +
                 length (removed_sheets (r_sheets r)))
                (map_to_list (sheet_comparisons (r_sheets r))).*2) as a.
  generalize (total_added (fc_summary (r_formulas r)) +
              total_removed (fc_summary (r_formulas r)) +
              total_modified (fc_summary (r_formulas r))) as b.
  generalize (modules_added (vc_summary (r_vba_code r)) +
              modules_removed (vc_summary (r_vba_code r)) +
              modules_modified (vc_summary (r_vba_code r))) as c.
  intros c b a. unfold recommend.
  repeat case_bool_decide; simpl; (split; [done|]); split; intros; (done || lia).
Qed.

Lemma properties_identical_iff_size (props1 props2 : gmap string PyVal) :
  wp_identical (compare_properties props1 props2) = true ↔
  size (wp_differences (compare_properties props1 props2)) = 0.
Proof. by rewrite compare_properties_identical_iff, map_size_empty_iff. Qed.

(** X12: in the summary [compare_all] returns, files_identical is true
    exactly when no sheet is added or removed and the formulas, vba_code
    and properties counters are 0; so a run with total_differences 0 and
    properties 0 is reported identical, and a run reported identical has
    as total_differences its sheets counter alone. *)
Theorem summary_consistency md5 zipfile_ZipFile (self : ComparisonEngine)
    (p1 p2 : ExcelParser) :
  parser1 self = Some p1 → parser2 self = Some p2 →
  ∃ r s self',
    compare_all md5 zipfile_ZipFile self = Some (ResultsOf r, self') ∧
    r_summary r = Some s ∧
    (files_identical s = true ↔
       added_sheets (r_sheets r) = [] ∧ removed_sheets (r_sheets r) = [] ∧
       dbt_formulas (differences_by_type s) = 0 ∧
       dbt_vba_code (differences_by_type s) = 0 ∧
       dbt_properties (differences_by_type s) = 0) ∧
    (total_differences s = 0 → dbt_properties (differences_by_type s) = 0 →
     files_identical s = true) ∧
    (files_identical s = true →
     total_differences s = dbt_sheets (differences_by_type s)).
Proof.
  intros H1 H2.
  destruct (compare_all_loaded md5 zipfile_ZipFile self p1 p2 H1 H2)
    as (r & s & Hall & Hprops & Hsheets & Hforms & Hvba & Hsum & Hgen).
  exists r, s. eexists. split; [exact Hall|]. split; [done|].
  destruct (generate_summary_spec r)
    as (s' & Hgen' & Hid & Hs & Hf & Hv & Hp & Ht).
  rewrite Hgen in Hgen'. injection Hgen' as <-.
  assert (files_identical s = true ↔
            added_sheets (r_sheets r) = [] ∧ removed_sheets (r_sheets r) = [] ∧
            dbt_formulas (differences_by_type s) = 0 ∧
            dbt_vba_code (differences_by_type s) = 0 ∧
            dbt_properties (differences_by_type s) = 0) as Hiff.
  { rewrite Hid, Hf, Hv, Hp, Hprops. unfold _compare_workbook_properties.
    rewrite <- properties_identical_iff_size.
    rewrite !andb_true_iff, !bool_decide_eq_true.
    rewrite <- (length_zero_iff_nil (added_sheets (r_sheets r))).
    rewrite <- (length_zero_iff_nil (removed_sheets (r_sheets r))).
    generalize (wp_identical
                  (compare_properties (get_workbook_properties p1)
                                      (get_workbook_properties p2)) = true).
    intros P. split; [intros ((((? & ?) & ?) & ?) & ?)|intros (? & ? & ? & ? & ?)];
      split_and!; (done || lia). }
  split; [exact Hiff|]. split.
  - intros Htot Hprop. apply Hiff. rewrite Ht, Hs in Htot.
    split_and!; try lia; apply length_zero_iff_nil; lia.
  - intros (_ & _ & Hf0 & Hv0 & _)%Hiff. lia.
Qed.

Lemma summary_consistency_witness :
  ∃ r s self',
    compare_all example_md5 example_ZipFile example_engine
    = Some (ResultsOf r, self') ∧
    r_summary r = Some s ∧
    (files_identical s = true ↔
       added_sheets (r_sheets r) = [] ∧ removed_sheets (r_sheets r) = [] ∧
       dbt_formulas (differences_by_type s) = 0 ∧
       dbt_vba_code (differences_by_type s) = 0 ∧
       dbt_properties (differences_by_type s) = 0) ∧
    (total_differences s = 0 → dbt_properties (differences_by_type s) = 0 →
     files_identical s = true) ∧
    (files_identical s = true →
     total_differences s = dbt_sheets (differences_by_type s)).
Proof.
  apply (summary_consistency example_md5 example_ZipFile example_engine
           (example_parser "file1.xlsx") (example_parser "file2.xlsx"));
    vm_compute; reflexivity.
Defined.

(** ** A document against itself *)

Lemma sheet_result_refl (df : DataFrame) :
  sc_identical (sheet_result df df) = true ∧
  sheet_contribution (sheet_result df df) = 0.
Proof.
  assert (sc_identical (sheet_result df df) = true) as H.
  { unfold sheet_result. destruct (df_empty df); simpl; [done|].
    apply bool_decide_eq_true, length_zero_iff_nil, scanned_differences_nil.
    intros r c. apply py_eq_refl. }
  split; [done|]. unfold sheet_contribution. by rewrite H.
Qed.

Lemma filter_none {A} (P : A → Prop) `{!∀ x, Decision (P x)} (l : list A) :
  (∀ x, x ∈ l → ¬ P x) → filter P l = [].
Proof.
  induction l as [|x l IH]; intros Hl; [done|].
  rewrite filter_cons, decide_False by (apply Hl; by left).
  apply IH. intros y Hy. apply Hl. by right.
Qed.

Lemma sum_list_with_zero {A} (f : A → nat) (l : list A) :
  (∀ x, x ∈ l → f x = 0) → sum_list_with f l = 0.
Proof.
  induction l as [|x l IH]; intros H; [done|]. cbn [sum_list_with].
  rewrite H by (by left). rewrite IH; [done|]. intros y Hy. apply H. by right.
Qed.

Lemma sheet_modified_diag (sf : gmap string FormulaEntry) : sheet_modified sf sf = ∅.
Proof.
  apply map_eq. intros k. unfold sheet_modified, modified_of.
  rewrite lookup_merge, lookup_empty.
  destruct (sf !! k) as [e|]; simpl; [|done]. by rewrite py_ne_refl.
Qed.

Lemma compare_formulas_self (formulas : gmap string (gmap string FormulaEntry)) :
  ∃ cmp, compare_formulas formulas formulas = Some cmp ∧
         total_added (fc_summary cmp) = 0 ∧
         total_removed (fc_summary cmp) = 0 ∧
         total_modified (fc_summary cmp) = 0.
Proof.
  destruct (formula_totals_as_sums formulas formulas)
    as (cmp & Hcmp & Ha & Hr & Hm & Hi & _).
  exists cmp. split; [done|].
  assert (total_added (fc_summary cmp) = 0) as Ha0.
  { rewrite Ha. apply sum_list_with_zero. intros n _.
    unfold sheet_added. by rewrite map_difference_diag, map_size_empty. }
  assert (total_removed (fc_summary cmp) = 0) as Hr0.
  { rewrite Hr. apply sum_list_with_zero. intros n _.
    unfold sheet_removed. by rewrite map_difference_diag, map_size_empty. }
  assert (total_modified (fc_summary cmp) = 0) as Hm0.
  { rewrite Hm. apply sum_list_with_zero. intros n _.
    by rewrite sheet_modified_diag, map_size_empty. }
  by split_and!.
Qed.

Lemma compare_vba_code_self (vba : VBAData) :
  ∃ cmp, compare_vba_code vba vba = Some cmp ∧
         added (vc_modules cmp) = [] ∧ removed (vc_modules cmp) = [] ∧
         modified (vc_modules cmp) = [] ∧
         modules_added (vc_summary cmp) = 0 ∧
         modules_removed (vc_summary cmp) = 0 ∧
         modules_modified (vc_summary cmp) = 0.
Proof.
  unfold compare_vba_code. rewrite compare_modules_lists. simpl.
  eexists. split; [done|]. simpl.
  assert (dom (vba_modules vba) ∖ dom (vba_modules vba) = (∅ : gset string)) as ->
    by (apply set_eq; intros k; rewrite elem_of_difference, elem_of_empty; tauto).
  rewrite elements_empty.
  rewrite (filter_none (λ k, negb (same_hash (vba_modules vba) (vba_modules vba) k) = true)).
  - done.
  - intros k _. unfold same_hash. by rewrite bool_decide_eq_true_2.
Qed.

(** X13: a document compared with itself. Whatever the parser holds,
    [compare_all] on an engine whose two parsers are that one parser
    reports files_identical, 0 differences of every type, no
    recommendation, no added or removed sheet, and every sheet comparison
    identical. *)
Theorem self_comparison md5 zipfile_ZipFile (p : ExcelParser)
    (results : ResultsDict) :
  ∃ r s self',
    compare_all md5 zipfile_ZipFile
      {| parser1 := Some p; parser2 := Some p; comparison_results := results |}
    = Some (ResultsOf r, self') ∧
    r_summary r = Some s ∧
    files_identical s = true ∧
    total_differences s = 0 ∧
    differences_by_type s
    = {| dbt_sheets := 0; dbt_formulas := 0; dbt_vba_code := 0; dbt_properties := 0 |} ∧
    recommendations s = [] ∧
    added_sheets (r_sheets r) = [] ∧ removed_sheets (r_sheets r) = [] ∧
    (∀ n sc, sheet_comparisons (r_sheets r) !! n = Some sc → sc_identical sc = true).
Proof.
  destruct (compare_all_loaded md5 zipfile_ZipFile
              {| parser1 := Some p; parser2 := Some p; comparison_results := results |}
              p p eq_refl eq_refl)
    as (r & s & Hall & Hprops & Hsheets & Hforms & Hvba & Hsum & Hgen).
  exists r, s. eexists. split; [exact Hall|]. split; [done|].
  destruct (generate_summary_spec r)
    as (s' & Hgen' & Hid & Hs & Hf & Hv & Hp & Ht).
  rewrite Hgen in Hgen'. injection Hgen' as <-.
  (* the sheets *)
  destruct (compare_sheets_spec p p) as (cmp & Hcmp & Ha & Hr & Hc & Hsc).
  rewrite Hsheets in Hcmp. injection Hcmp as <-.
  assert (list_to_set (get_sheet_names p) ∖ list_to_set (get_sheet_names p)
          = (∅ : gset string)) as Hdiag
    by (apply set_eq; intros k; rewrite elem_of_difference, elem_of_empty; tauto).
  rewrite Hdiag, elements_empty in Ha, Hr.
  assert (dbt_sheets (differences_by_type s) = 0) as Hs0.
  { rewrite Hs, Ha, Hr, Hsc, sum_values_list_to_map by apply NoDup_elements.
    simpl. apply sum_list_with_zero. intros n _. apply sheet_result_refl. }
  (* the formulas *)
  destruct (compare_formulas_self (get_formulas p)) as (fc & Hfc & Hfa & Hfr & Hfm).
  unfold _compare_formulas in Hforms. rewrite Hforms in Hfc. injection Hfc as <-.
  (* the modules *)
  destruct (compare_vba_code_self (analyze_vba_from_file md5 zipfile_ZipFile (file_path p)))
    as (vc & Hvc & _ & _ & _ & Hva & Hvr & Hvm).
  unfold _compare_vba_code in Hvba. rewrite Hvba in Hvc. injection Hvc as <-.
  (* the properties *)
  assert (wp_identical (r_workbook_properties r) = true) as Hwp.
  { rewrite Hprops. unfold _compare_workbook_properties.
    rewrite compare_properties_identical. apply forallb_forall.
    intros k _. apply py_eq_refl. }
  assert (dbt_properties (differences_by_type s) = 0) as Hp0.
  { rewrite Hp, Hprops. unfold _compare_workbook_properties.
    apply properties_identical_iff_size. by rewrite Hprops in Hwp. }
  assert (total_differences s = 0) as Ht0 by lia.
  split_and!.
  - rewrite Hid, Ha, Hr, Hfa, Hfr, Hfm, Hva, Hvr, Hvm, Hwp. done.
  - done.
  - destruct (differences_by_type s) as [a b c d]. simpl in *. f_equal; lia.
  - rewrite (generate_summary_recommendations r s Hgen), Hs0.
    replace (dbt_formulas (differences_by_type s)) with 0 by lia.
    replace (dbt_vba_code (differences_by_type s)) with 0 by lia. done.
  - done.
  - done.
  - intros n sc. rewrite Hsc. intros Hin%elem_of_list_to_map_2.
    apply list_elem_of_fmap in Hin as (m & [= -> ->] & _). apply sheet_result_refl.
Qed.

(** ** Loading *)

Lemma wb_getitem_is_Some (wb : Workbook) (n : string) :
  n ∈ sheetnames wb → is_Some (wb_getitem wb n).
Proof.
  unfold sheetnames, wb_getitem. intros ([n' rows] & Hn & Hin)%list_elem_of_fmap.
  simpl in Hn. subst n.
  destruct (list_find_elem_of (λ ws, ws.1 = n') (worksheets wb) (n', rows) Hin eq_refl)
    as [[i ws] E].
  rewrite E. by eexists.
Qed.


(** The loop of [_extract_sheet_data]. *)
Lemma extract_sheets_spec (wb : Workbook) (names : list string)
    (sheet_data : gmap string (list (list PyVal))) :
  (∀ n, n ∈ names → n ∈ sheetnames wb) →
  ∃ data, for_each names (extract_sheet wb) sheet_data = Some data ∧
    ∀ n, data !! n = if decide (n ∈ names) then values_only <$> wb_getitem wb n
                     else sheet_data !! n.
Proof.
  revert sheet_data. induction names as [|x names IH]; intros sheet_data Hin;
    cbn [for_each].
  - exists sheet_data. split; [done|]. intros n. by rewrite decide_False by set_solver.
  - destruct (wb_getitem_is_Some wb x) as [rows Hrows]; [apply Hin; by left|].
    assert (extract_sheet wb sheet_data x = Some (<[x := values_only rows]> sheet_data))
      as -> by (unfold extract_sheet; by rewrite Hrows).
    cbn [mbind option_bind].
    destruct (IH (<[x := values_only rows]> sheet_data)) as (data & -> & Hdata);
      [intros; apply Hin; by right|].
    exists data. split; [done|]. intros n. rewrite Hdata.
    destruct (decide (n = x)) as [->|Hne].
    + rewrite (decide_True (P := x ∈ x :: names)) by set_solver.
      rewrite lookup_insert_eq, Hrows. by case_decide.
    + rewrite lookup_insert_ne by done. destruct (decide (n ∈ names)).
      * by rewrite decide_True by set_solver.
      * by rewrite decide_False by set_solver.
Qed.

(** The loop of [_extract_formulas] over the sheets. *)
Lemma extract_formulas_spec get_column_letter (wb : Workbook) (names : list string)
    (all_formulas : gmap string (gmap string FormulaEntry)) :
  (∀ n, n ∈ names → n ∈ sheetnames wb) →
  ∃ forms,
    for_each names (extract_sheet_formulas get_column_letter wb) all_formulas
    = Some forms ∧
    ∀ n, forms !! n
         = if decide (n ∈ names)
           then written_over
                  (rows ← wb_getitem wb n;
                   nonempty (sheet_formulas get_column_letter n rows))
                  (all_formulas !! n)
           else all_formulas !! n.
Proof.
  revert all_formulas. induction names as [|x names IH]; intros all_formulas Hin;
    cbn [for_each].
  - exists all_formulas. split; [done|]. intros n. by rewrite decide_False by set_solver.
  - destruct (wb_getitem_is_Some wb x) as [rows Hrows]; [apply Hin; by left|].
    assert (extract_sheet_formulas get_column_letter wb all_formulas x
            = Some (if bool_decide (sheet_formulas get_column_letter x rows ≠ ∅)
                    then <[x := sheet_formulas get_column_letter x rows]> all_formulas
                    else all_formulas))
      as -> by (unfold extract_sheet_formulas; by rewrite Hrows).
    cbn [mbind option_bind].
    match goal with |- context [for_each names _ ?acc] =>
      destruct (IH acc) as (forms & -> & Hforms); [intros; apply Hin; by right|]
    end.
    exists forms. split; [done|]. intros n. rewrite Hforms.
    destruct (decide (n = x)) as [->|Hne].
    + rewrite (decide_True (P := x ∈ x :: names)) by set_solver.
      rewrite Hrows. cbn [mbind option_bind]. unfold nonempty, written_over.
      destruct (decide (sheet_formulas get_column_letter x rows = ∅)) as [E|E].
      * rewrite bool_decide_eq_false_2 by (by intros ?). by case_decide.
      * rewrite bool_decide_eq_true_2 by done.
        rewrite lookup_insert_eq. by case_decide.
    + assert ((if bool_decide (sheet_formulas get_column_letter x rows ≠ ∅)
               then <[x := sheet_formulas get_column_letter x rows]> all_formulas
               else all_formulas) !! n = all_formulas !! n) as ->.
      { case_bool_decide; [by rewrite lookup_insert_ne|done]. }
      destruct (decide (n ∈ names)).
      * by rewrite decide_True by set_solver.
      * by rewrite decide_False by set_solver.
Qed.




(** [load_workbook] on a parser just made. *)
Lemma load_workbook_fresh openpyxl_load_workbook get_column_letter (path : string) :
  match openpyxl_load_workbook path with
  | None =>
      load_workbook openpyxl_load_workbook get_column_letter (ExcelParser_init path)
      = (ExcelParser_init path, false)
  | Some wb =>
      ∃ p,
        load_workbook openpyxl_load_workbook get_column_letter (ExcelParser_init path)
        = (p, true) ∧
        file_path p = path ∧ workbook p = Some wb ∧
        (∀ n, sheet_data p !! n
              = if decide (n ∈ sheetnames wb) then values_only <$> wb_getitem wb n
                else None) ∧
        (∀ n, formulas p !! n
              = if decide (n ∈ sheetnames wb)
                then rows ← wb_getitem wb n;
                     nonempty (sheet_formulas get_column_letter n rows)
                else None)
  end.
Proof.
  unfold load_workbook. cbn [file_path ExcelParser_init sheet_data formulas].
  destruct (openpyxl_load_workbook path) as [wb|]; [|done].
  destruct (extract_sheets_spec wb (sheetnames wb) ∅) as (data & -> & Hdata); [done|].
  destruct (extract_formulas_spec get_column_letter wb (sheetnames wb) ∅)
    as (forms & -> & Hforms); [done|].
  eexists. split; [done|]. cbn. split_and!; [done..|].
  intros n. rewrite Hforms, lookup_empty. case_decide; [|done].
  unfold written_over. by destruct (wb_getitem wb n ≫= _).
Qed.




(** ** The accessors after a comparison *)

(** X16: after [compare_all] on an engine with both parsers set,
    [get_detailed_differences] without a sheet name, or with the empty
    name, returns the dict [compare_all] returned; with the name of a sheet
    of both documents it returns the comparison of that sheet, and with any
    other name the empty dict; and [export_comparison_data] returns that
    same dict of results with the two file paths. On an engine that has not
    compared, [get_detailed_differences] returns the empty dict whatever
    the name. *)
Theorem accessors_after_compare_all md5 zipfile_ZipFile (now_isoformat : string)
    (self : ComparisonEngine) (p1 p2 : ExcelParser) :
  parser1 self = Some p1 → parser2 self = Some p2 →
  ∃ r self',
    compare_all md5 zipfile_ZipFile self = Some (ResultsOf r, self') ∧
    get_detailed_differences self' None = DetailedAll r ∧
    get_detailed_differences self' (Some "") = DetailedAll r ∧
    (∀ n, n ≠ "" →
       get_detailed_differences self' (Some n)
       = if decide (n ∈ get_sheet_names p1 ∧ n ∈ get_sheet_names p2)
         then from_option DetailedSheet DetailedEmpty
                (_compare_single_sheet (get_sheet_data p1 n) (get_sheet_data p2 n))
         else DetailedEmpty) ∧
    export_comparison_data now_isoformat self'
    = {| ex_metadata := {| md_file1 := Some (file_path p1);
                           md_file2 := Some (file_path p2);
                           comparison_timestamp := now_isoformat |};
         ex_results := ResultsOf r |} ∧
    (∀ sheet_name,
       get_detailed_differences ComparisonEngine_init sheet_name = DetailedEmpty).
Proof.
  intros H1 H2.
  destruct (compare_all_loaded md5 zipfile_ZipFile self p1 p2 H1 H2)
    as (r & s & Hall & _ & Hsheets & _).
  eexists r, _. split; [exact Hall|].
  destruct (compare_sheets_lookup p1 p2) as (cmp & Hcmp & Hc & Hsc).
  rewrite Hsheets in Hcmp. injection Hcmp as <-.
  unfold get_detailed_differences, export_comparison_data. cbn.
  split_and!; try done.
  intros n Hn. rewrite bool_decide_eq_true_2 by (split; congruence).
  cbn. rewrite Hsc.
  destruct (decide (n ∈ common_sheets (r_sheets r))) as [Hin|Hin].
  - rewrite decide_True by (by apply Hc). done.
  - rewrite decide_False by (by rewrite <- Hc). done.
Qed.

Lemma accessors_after_compare_all_witness :
  ∃ r self',
    compare_all example_md5 example_ZipFile example_engine
    = Some (ResultsOf r, self') ∧
    get_detailed_differences self' None = DetailedAll r ∧
    get_detailed_differences self' (Some "") = DetailedAll r.
Proof.
  assert (parser1 example_engine = Some (example_parser "file1.xlsx")) as H1
    by (vm_compute; reflexivity).
  assert (parser2 example_engine = Some (example_parser "file2.xlsx")) as H2
    by (vm_compute; reflexivity).
  destruct (accessors_after_compare_all example_md5 example_ZipFile "now"
              example_engine _ _ H1 H2) as (r & self' & Hall & Hn & He & _).
  exists r, self'. split; [exact Hall|]. split; [exact Hn|exact He].
Defined.

(** X17: [load_files] does not touch the stored results: after a
    comparison and a new [load_files], the accessors still return the
    results of the earlier pair of files. *)
Theorem load_files_keeps_results openpyxl_load_workbook get_column_letter
    (now_isoformat : string) (self : ComparisonEngine)
    (file1_path file2_path : string) (sheet_name : option string) :
  let self' := (load_files openpyxl_load_workbook get_column_letter
                           self file1_path file2_path).1 in
  comparison_results self' = comparison_results self ∧
  get_detailed_differences self' sheet_name
  = get_detailed_differences self sheet_name ∧
  ex_results (export_comparison_data now_isoformat self')
  = ex_results (export_comparison_data now_isoformat self) ∧
  md_file1 (ex_metadata (export_comparison_data now_isoformat self'))
  = Some file1_path ∧
  md_file2 (ex_metadata (export_comparison_data now_isoformat self'))
  = Some file2_path.
Proof.
  unfold load_files.
  pose proof (load_workbook_fresh openpyxl_load_workbook get_column_letter file1_path)
    as L1.
  pose proof (load_workbook_fresh openpyxl_load_workbook get_column_letter file2_path)
    as L2.
  destruct (openpyxl_load_workbook file1_path) as [wb1|].
  - destruct L1 as (p1 & -> & Hf1 & _). cbn [negb].
    destruct (openpyxl_load_workbook file2_path) as [wb2|].
    + destruct L2 as (p2 & -> & Hf2 & _).
      cbn. unfold get_detailed_differences. cbn. by rewrite Hf1, Hf2.
    + rewrite L2. cbn. by rewrite Hf1.
  - rewrite L1. by cbn.
Qed.

(** ** A comparison after a failed load *)

Lemma compare_unloaded_parts (file1_path file2_path : string) :
  _compare_workbook_properties (ExcelParser_init file1_path)
                               (ExcelParser_init file2_path)
  = {| wp_identical := true; wp_differences := ∅; wp_file1 := ∅; wp_file2 := ∅ |} ∧
  _compare_sheets (ExcelParser_init file1_path) (ExcelParser_init file2_path)
  = Some {| added_sheets := []; removed_sheets := []; common_sheets := [];
            sheet_comparisons := ∅ |} ∧
  _compare_formulas (ExcelParser_init file1_path) (ExcelParser_init file2_path)
  = Some {| added_formulas := ∅; removed_formulas := ∅; modified_formulas := ∅;
            identical_formulas := ∅;
            fc_summary := {| total_added := 0; total_removed := 0;
                             total_modified := 0; total_identical := 0;
                             total_formulas := 0 |} |}.
Proof. split_and!; by vm_compute. Qed.

(** X18: when the first file does not open, [load_files] returns False and
    leaves two parsers without a workbook; a [compare_all] that follows
    still returns results: no sheet, formula or property difference, a
    total that is the vba_code counter alone, and files_identical true
    exactly when the module comparison of the two paths reports nothing,
    so, when neither path opens as an archive, files_identical true with
    0 differences. *)
Theorem compare_all_after_first_load_fails md5 zipfile_ZipFile
    openpyxl_load_workbook get_column_letter
    (self : ComparisonEngine) (file1_path file2_path : string) :
  openpyxl_load_workbook file1_path = None →
  ∃ self1 r s self2,
    load_files openpyxl_load_workbook get_column_letter self file1_path file2_path
    = (self1, false) ∧
    compare_all md5 zipfile_ZipFile self1 = Some (ResultsOf r, self2) ∧
    r_summary r = Some s ∧
    dbt_sheets (differences_by_type s) = 0 ∧
    dbt_formulas (differences_by_type s) = 0 ∧
    dbt_properties (differences_by_type s) = 0 ∧
    total_differences s = dbt_vba_code (differences_by_type s) ∧
    (files_identical s = true ↔ dbt_vba_code (differences_by_type s) = 0) ∧
    (zipfile_ZipFile file1_path = None → zipfile_ZipFile file2_path = None →
     files_identical s = true ∧ total_differences s = 0).
Proof.
  intros Hfail.
  pose proof (load_workbook_fresh openpyxl_load_workbook get_column_letter file1_path)
    as L1.
  rewrite Hfail in L1.
  set (self1 := {| parser1 := Some (ExcelParser_init file1_path);
                   parser2 := Some (ExcelParser_init file2_path);
                   comparison_results := comparison_results self |}).
  destruct (compare_all_loaded md5 zipfile_ZipFile self1 _ _ eq_refl eq_refl)
    as (r & s & Hall & Hprops & Hsheets & Hforms & Hvba & Hsum & Hgen).
  exists self1, r, s. eexists.
  split; [unfold load_files; by rewrite L1|]. split; [exact Hall|]. split; [done|].
  destruct (compare_unloaded_parts file1_path file2_path) as (Ep & Es & Ef).
  rewrite Ep in Hprops. rewrite Es in Hsheets. rewrite Ef in Hforms.
  injection Hsheets as Hsheets. injection Hforms as Hforms.
  destruct (generate_summary_spec r)
    as (s' & Hgen' & Hid & Hs & Hf & Hv & Hp & Ht).
  rewrite Hgen in Hgen'. injection Hgen' as <-.
  rewrite <- Hsheets in Hs, Hid. rewrite <- Hforms in Hf, Hid.
  rewrite Hprops in Hp, Hid. cbn in Hs, Hf, Hp, Hid.
  rewrite map_to_list_empty in Hs. cbn in Hs. rewrite map_size_empty in Hp.
  assert (files_identical s = true ↔ dbt_vba_code (differences_by_type s) = 0) as Hiff.
  { rewrite Hid, Hv, andb_true_r, !andb_true_iff, !bool_decide_eq_true. lia. }
  split_and!; try done; try lia.
  intros Hz1 Hz2.
  assert (dbt_vba_code (differences_by_type s) = 0) as Hv0.
  { rewrite Hv. unfold _compare_vba_code, analyze_vba_from_file in Hvba.
    cbn [file_path ExcelParser_init] in Hvba. rewrite Hz1, Hz2 in Hvba.
    assert (compare_vba_code VBAEmptyDict VBAEmptyDict
            = Some (r_vba_code r)) as Hcmp by exact Hvba.
    destruct (compare_vba_code_total VBAEmptyDict VBAEmptyDict)
      as (cmp & Hc & Hm & Ha & Hr & Hmo).
    rewrite Hcmp in Hc. injection Hc as <-. rewrite Ha, Hr, Hmo.
    assert (_compare_modules (vba_modules VBAEmptyDict) (vba_modules VBAEmptyDict)
            = Some {| added := []; removed := []; modified := []; unchanged := [] |})
      as Hnil by (by vm_compute).
    rewrite Hnil in Hm. by injection Hm as <-. }
  split; [by apply Hiff|lia].
Qed.

Lemma compare_all_after_first_load_fails_witness :
  ∃ self1 r s self2,
    load_files example_load_workbook example_column_letter
               ComparisonEngine_init "missing1.xlsx" "file2.xlsx"
    = (self1, false) ∧
    compare_all example_md5 example_ZipFile self1 = Some (ResultsOf r, self2) ∧
    r_summary r = Some s ∧
    dbt_sheets (differences_by_type s) = 0 ∧
    dbt_formulas (differences_by_type s) = 0 ∧
    dbt_properties (differences_by_type s) = 0 ∧
    total_differences s = dbt_vba_code (differences_by_type s) ∧
    (files_identical s = true ↔ dbt_vba_code (differences_by_type s) = 0) ∧
    (example_ZipFile "missing1.xlsx" = None → example_ZipFile "file2.xlsx" = None →
     files_identical s = true ∧ total_differences s = 0).
Proof.
  apply (compare_all_after_first_load_fails example_md5 example_ZipFile
           example_load_workbook example_column_letter
           ComparisonEngine_init "missing1.xlsx" "file2.xlsx").
  reflexivity.
Defined.

Lemma loaded_properties_sheets_count (wb : Workbook) (p : ExcelParser) :
  workbook p = Some wb →
  dict_get (get_workbook_properties p) "sheets_count"
  = PInt (Z.of_nat (length (sheetnames wb))).
Proof.
  intros Hw. unfold get_workbook_properties, dict_get. rewrite Hw.
  by rewrite lookup_insert_eq.
Qed.

(** X19: when the first file opens and the second does not, [load_files]
    returns False, and a [compare_all] that follows reports the documents
    as not identical: the properties differ on sheets_count, every sheet of
    the first workbook is reported removed, and no sheet is added or
    compared. *)
Theorem compare_all_after_second_load_fails md5 zipfile_ZipFile
    openpyxl_load_workbook get_column_letter
    (self : ComparisonEngine) (file1_path file2_path : string) (wb1 : Workbook) :
  openpyxl_load_workbook file1_path = Some wb1 →
  openpyxl_load_workbook file2_path = None →
  ∃ self1 r s self2,
    load_files openpyxl_load_workbook get_column_letter self file1_path file2_path
    = (self1, false) ∧
    compare_all md5 zipfile_ZipFile self1 = Some (ResultsOf r, self2) ∧
    r_summary r = Some s ∧
    files_identical s = false ∧
    wp_identical (r_workbook_properties r) = false ∧
    wp_differences (r_workbook_properties r) !! "sheets_count"
    = Some {| pd_file1 := PInt (Z.of_nat (length (sheetnames wb1)));
              pd_file2 := PNone |} ∧
    (∀ n, n ∈ removed_sheets (r_sheets r) ↔ n ∈ sheetnames wb1) ∧
    added_sheets (r_sheets r) = [] ∧ common_sheets (r_sheets r) = [] ∧
    sheet_comparisons (r_sheets r) = ∅.
Proof.
  intros Hwb1 Hfail.
  pose proof (load_workbook_fresh openpyxl_load_workbook get_column_letter file1_path)
    as L1.
  pose proof (load_workbook_fresh openpyxl_load_workbook get_column_letter file2_path)
    as L2.
  rewrite Hwb1 in L1. rewrite Hfail in L2. destruct L1 as (p1 & L1 & _ & Hw1 & _).
  set (self1 := {| parser1 := Some p1;
                   parser2 := Some (ExcelParser_init file2_path);
                   comparison_results := comparison_results self |}).
  destruct (compare_all_loaded md5 zipfile_ZipFile self1 _ _ eq_refl eq_refl)
    as (r & s & Hall & Hprops & Hsheets & Hforms & Hvba & Hsum & Hgen).
  exists self1, r, s. eexists.
  split; [unfold load_files; by rewrite L1, L2|]. split; [exact Hall|]. split; [done|].
  assert (wp_differences (r_workbook_properties r) !! "sheets_count"
          = Some {| pd_file1 := PInt (Z.of_nat (length (sheetnames wb1)));
                    pd_file2 := PNone |}) as Hdiff.
  { rewrite Hprops. unfold _compare_workbook_properties.
    rewrite compare_properties_difference.
    rewrite (loaded_properties_sheets_count wb1 p1 Hw1).
    rewrite decide_True; [done|]. split; [|done].
    unfold key_props. set_solver. }
  assert (wp_identical (r_workbook_properties r) = false) as Hwp.
  { destruct (wp_identical (r_workbook_properties r)) eqn:E; [|done].
    rewrite Hprops in E, Hdiff. unfold _compare_workbook_properties in E, Hdiff.
    apply compare_properties_identical_iff in E. rewrite E in Hdiff.
    by rewrite lookup_empty in Hdiff. }
  destruct (generate_summary_spec r) as (s' & Hgen' & Hid & _).
  rewrite Hgen in Hgen'. injection Hgen' as <-.
  destruct (compare_sheets_spec p1 (ExcelParser_init file2_path))
    as (cmp & Hcmp & Ha & Hr & Hc & Hsc).
  rewrite Hsheets in Hcmp. injection Hcmp as <-.
  assert (get_sheet_names (ExcelParser_init file2_path) = []) as E2 by done.
  assert (get_sheet_names p1 = sheetnames wb1) as E1
    by (unfold get_sheet_names; by rewrite Hw1).
  rewrite E1, E2 in Ha, Hr, Hc, Hsc. rewrite list_to_set_nil in Ha, Hr, Hc, Hsc.
  assert ((∅ : gset string) ∖ list_to_set (sheetnames wb1) = ∅) as Ea
    by (apply set_eq; intros k; rewrite elem_of_difference, elem_of_empty; tauto).
  assert (list_to_set (sheetnames wb1) ∩ (∅ : gset string) = ∅) as Ec
    by (apply set_eq; intros k; rewrite elem_of_intersection, elem_of_empty; tauto).
  rewrite Ea, elements_empty in Ha. rewrite Ec, elements_empty in Hc, Hsc.
  split_and!; try done.
  - rewrite Hid, Hwp. by rewrite andb_false_r.
  - intros n. rewrite Hr, elem_of_elements, elem_of_difference, elem_of_list_to_set,
      elem_of_empty. tauto.
Qed.

Lemma compare_all_after_second_load_fails_witness :
  ∃ self1 r s self2,
    load_files example_load_workbook example_column_letter
               ComparisonEngine_init "file1.xlsx" "missing2.xlsx"
    = (self1, false) ∧
    compare_all example_md5 example_ZipFile self1 = Some (ResultsOf r, self2) ∧
    r_summary r = Some s ∧
    files_identical s = false.
Proof.
  destruct (compare_all_after_second_load_fails example_md5 example_ZipFile
              example_load_workbook example_column_letter
              ComparisonEngine_init "file1.xlsx" "missing2.xlsx"
              (example_workbook 25) eq_refl eq_refl)
    as (self1 & r & s & self2 & Hl & Hc & Hs & Hi & _).
  exists self1, r, s, self2.
  split; [exact Hl|]. split; [exact Hc|]. split; [exact Hs|exact Hi].
Defined.

(** ** The summary of the analysed modules *)

(** X20: [get_vba_summary] says has_vba exactly when at least one module
    was extracted (whatever project_info says), lists each module name
    once, as many names as modules_count, and, for the data
    [analyze_vba_from_file] returns, total_size is the number of bytes of
    the modules; for a path that does not open as an archive everything
    is zero. *)
Theorem vba_summary_of_analyzed md5 zipfile_ZipFile (path : string) :
  let vba := analyze_vba_from_file md5 zipfile_ZipFile path in
  let info := get_vba_summary vba in
  (has_vba info = true ↔ 0 < modules_count info) ∧
  length (module_names info) = modules_count info ∧
  NoDup (module_names info) ∧
  (∀ k, k ∈ module_names info ↔ is_Some (vba_modules vba !! k)) ∧
  total_size info
  = sum_list_with (λ kv, length (m_data kv.2)) (map_to_list (vba_modules vba)) ∧
  (zipfile_ZipFile path = None →
   info = {| has_vba := false; modules_count := 0; total_size := 0;
             module_names := [] |}).
Proof.
  intros vba info. subst info. unfold get_vba_summary. cbn.
  split_and!.
  - rewrite bool_decide_eq_true, <- map_size_non_empty_iff. lia.
  - by rewrite length_fmap, length_map_to_list.
  - apply NoDup_fst_map_to_list.
  - intros k. rewrite list_elem_of_fmap. split.
    + intros ([k' m] & -> & Hin). apply elem_of_map_to_list in Hin. by eexists.
    + intros [m Hm]. exists (k, m). split; [done|]. by apply elem_of_map_to_list.
  - apply sum_list_with_ext. intros [k m] Hin%elem_of_map_to_list. simpl.
    by destruct (analyzed_module_size md5 zipfile_ZipFile path k m Hin).
  - intros Hz. subst vba. unfold analyze_vba_from_file. rewrite Hz. by vm_compute.
Qed.
